(** * The LEGO investment pipeline (scripts/ml): a shallow embedding

    The Python scripts under [scripts/ml] build a training table from price
    snapshots, engineer features, train quantile regressors, score the live
    catalogue and validate the models.  This development embeds the parts of
    those scripts that decide the pipeline's documented properties and proves
    or refutes each property on the embedding.

    Conventions of the embedding.
    - A pandas column of floats is a [list (option Q)]: [None] is NaN / null.
      Floats are read as rationals, so arithmetic is exact.
    - A date is a day number in [Z]; [pd.Timedelta(days=d)] adds [d].
    - A DataFrame is the list of its rows in frame order, with the default
      RangeIndex 0..n-1 that [pd.DataFrame(list)] and [merge] produce.
    - The float library ([math.log], [math.exp], the square root inside
      [std]) and the fitted regressors are parameters. *)

From Stdlib Require Import String.
From Stdlib Require Import List ZArith QArith Qround Qabs Qminmax Bool Lia Lqa.
From Stdlib Require Import Sorting.Sorted Permutation.
Import ListNotations.
Open Scope Q_scope.

Set Implicit Arguments.

(** ** The float library, taken as a parameter *)

Class FloatLib : Type := {
  math_log : Q -> Q;
  math_exp : Q -> Q;
  np_sqrt : Q -> Q
}.

(** A rational stand-in for the float library, used to run the model on
    concrete frames: a truncated square root, the first-order logarithm
    and exponential. *)
Definition approx_sqrt (q : Q) : Q :=
  (Z.sqrt (Qnum q * Zpos (Qden q) * 10 ^ 12) # (Qden q * 1000000)).

#[export] Instance approx_float : FloatLib := {
  math_log := fun q => q - 1;
  math_exp := fun q => 1 + q;
  np_sqrt := approx_sqrt
}.

(** ** numpy / pandas primitives *)

Module Stats.

Definition Qltb (x y : Q) : bool := negb (Qle_bool y x).

(** Nullable floats: equality up to the value of the rational. *)
Definition oQeq (a b : option Q) : Prop :=
  match a, b with
  | Some x, Some y => x == y
  | None, None => True
  | _, _ => False
  end.

Definition notna (A : Type) (v : option A) : bool :=
  match v with Some _ => true | None => false end.

(** [Series.dropna()] *)
Fixpoint dropna (A : Type) (l : list (option A)) : list A :=
  match l with
  | [] => []
  | Some x :: t => x :: dropna t
  | None :: t => dropna t
  end.

(** Sorting by a key, ties keeping their order in the input. *)
Fixpoint insert_by (A : Type) (leb : A -> A -> bool) (x : A) (l : list A) : list A :=
  match l with
  | [] => [x]
  | y :: t => if leb x y then x :: y :: t else y :: insert_by leb x t
  end.

Fixpoint sort_by (A : Type) (leb : A -> A -> bool) (l : list A) : list A :=
  match l with
  | [] => []
  | x :: t => insert_by leb x (sort_by leb t)
  end.

Definition sortQ (l : list Q) : list Q := sort_by Qle_bool l.

Definition sumQ (l : list Q) : Q := fold_right Qplus 0 l.

Definition lenQ (A : Type) (l : list A) : Q := inject_Z (Z.of_nat (length l)).

(** [Series.mean()] of a column without nulls; NaN on an empty one. *)
Definition mean (l : list Q) : option Q :=
  match l with
  | [] => None
  | _ => Some (sumQ l / lenQ l)
  end.

(** [Series.median()]: the middle value, or the mean of the two middle
    values. *)
Definition median (l : list Q) : option Q :=
  let s := sortQ l in
  let n := length s in
  match n with
  | O => None
  | _ =>
    if Nat.even n
    then Some ((nth (n / 2 - 1) s 0 + nth (n / 2) s 0) / 2)
    else Some (nth (n / 2) s 0)
  end.

(** Sample variance (ddof = 1), the quantity under the root in
    [Series.std()]. *)
Definition sample_var (l : list Q) : Q :=
  match mean l with
  | None => 0
  | Some m => sumQ (map (fun x => (x - m) * (x - m)) l) / (lenQ l - 1)
  end.

(** [Series.std()]: NaN with fewer than two values. *)
Definition std `{FloatLib} (l : list Q) : option Q :=
  match l with
  | [] | [_] => None
  | _ => Some (np_sqrt (sample_var l))
  end.

(** [ndarray.std()] (ddof = 0) is only compared with zero in the source:
    it is positive exactly when two values differ. *)
Definition pop_var (l : list Q) : Q :=
  match mean l with
  | None => 0
  | Some m => sumQ (map (fun x => (x - m) * (x - m)) l) / lenQ l
  end.

(** [Series.quantile(q)], linear interpolation between the two order
    statistics around the virtual index [q * (n - 1)]. *)
Definition quantile (q : Q) (l : list Q) : option Q :=
  let s := sortQ l in
  match s with
  | [] => None
  | _ =>
    let pos := q * (lenQ s - 1) in
    let k := Qfloor pos in
    let frac := pos - inject_Z k in
    let a := nth (Z.to_nat k) s 0 in
    let b := nth (Z.to_nat k + 1) s a in
    Some (a + (b - a) * frac)
  end.

(** [Series.clip(lower, upper)] on one value. *)
Definition clip (lower upper x : Q) : Q :=
  Qmin (Qmax x lower) upper.

(** [np.polyfit(x, y, 1)[0]]: the least-squares slope. *)
Definition polyfit_slope (xs ys : list Q) : Q :=
  let n := lenQ xs in
  let sx := sumQ xs in
  let sy := sumQ ys in
  let sxy := sumQ (map (fun p => fst p * snd p) (combine xs ys)) in
  let sxx := sumQ (map (fun x => x * x) xs) in
  (n * sxy - sx * sy) / (n * sxx - sx * sx).

(** [np.arange(n, dtype=float)] *)
Definition arange (n : nat) : list Q :=
  map (fun i => inject_Z (Z.of_nat i)) (seq 0 n).

(** Python's [round(x, ndigits)]: to the nearest multiple of
    [10^-ndigits], halves to the even neighbour. *)
Definition py_round (x : Q) (ndigits : nat) : Q :=
  let s := (10 ^ Z.of_nat ndigits)%Z in
  let y := x * inject_Z s in
  let f := Qfloor y in
  let r := y - inject_Z f in
  let up :=
    match r ?= 1 # 2 with
    | Lt => false
    | Gt => true
    | Eq => Z.odd f
    end in
  ((if up then f + 1 else f)%Z # Z.to_pos s).

(** [Series.rank(pct=True)]: average rank among the non-null values,
    divided by their number; nulls stay null. *)
Definition rank_pct (col : list (option Q)) : list (option Q) :=
  let vals := dropna col in
  map (fun v =>
         match v with
         | None => None
         | Some x =>
           let less := lenQ (filter (fun y => Qltb y x) vals) in
           let same := lenQ (filter (fun y => Qeq_bool y x) vals) in
           Some ((less + (same + 1) / 2) / lenQ vals)
         end) col.

(** [Series.fillna(d)] *)
Definition fillna (d : Q) (col : list (option Q)) : list Q :=
  map (fun v => match v with Some x => x | None => d end) col.

(** Python's [range(start, stop, step)] for a positive step; [fuel]
    bounds the number of elements. *)
Fixpoint range_from (fuel start stop step : nat) : list nat :=
  match fuel with
  | O => []
  | S fuel' =>
    if (start <? stop)%nat
    then start :: range_from fuel' (start + step) stop step
    else []
  end.

Definition py_range (start stop step : nat) : list nat :=
  range_from stop start stop step.

(** [l[i : i + n]] *)
Definition slice (A : Type) (i n : nat) (l : list A) : list A :=
  firstn n (skipn i l).

End Stats.

Import Stats.

(** ** config.py *)

Module Config.

Inductive Horizon : Type := H6m | H1yr | H2yr | H3yr.

(** The keys of [MILESTONES]: ["retirement"] and the four horizons. *)
Inductive Milestone : Type :=
| Retirement
| After (h : Horizon).

Definition Horizon_eqb (a b : Horizon) : bool :=
  match a, b with
  | H6m, H6m | H1yr, H1yr | H2yr, H2yr | H3yr, H3yr => true
  | _, _ => false
  end.

Definition MIN_SNAPSHOTS_PER_WINDOW : nat := 3.

(** Milestone windows (days from exit_date): centre and half-width. *)
Definition MILESTONES (m : Milestone) : Z * Z :=
  match m with
  | Retirement => (0, 15)
  | After H6m => (180, 30)
  | After H1yr => (365, 30)
  | After H2yr => (730, 30)
  | After H3yr => (1095, 30)
  end%Z.

Definition WINSOR_LOW : Q := 2 # 100.
Definition WINSOR_HIGH : Q := 98 # 100.

Record Fold : Type := { train_end : Z; val : Z; test : Z }.

Definition CV_FOLDS : list Fold :=
  [ {| train_end := 2018; val := 2019; test := 2020 |};
    {| train_end := 2019; val := 2020; test := 2021 |};
    {| train_end := 2020; val := 2021; test := 2022 |};
    {| train_end := 2021; val := 2022; test := 2023 |};
    {| train_end := 2022; val := 2023; test := 2024 |} ]%Z.

Definition HORIZONS : list Horizon := [H6m; H1yr; H2yr; H3yr].

Inductive QuantileName : Type := p25 | p50 | p75.

Definition QUANTILES : list (QuantileName * Q) :=
  [(p25, 25 # 100); (p50, 50 # 100); (p75, 75 # 100)].

(** The keys of [SCORE_WEIGHTS]. *)
Inductive ScoreKey : Type :=
| appreciation_1yr
| confidence_1yr
| expected_profit_1yr
| risk_adjusted.

Definition SCORE_WEIGHTS (k : ScoreKey) : Q :=
  match k with
  | appreciation_1yr => 30 # 100
  | confidence_1yr => 25 # 100
  | expected_profit_1yr => 25 # 100
  | risk_adjusted => 20 # 100
  end.

(** Recency weighting: sets retiring in or after this year get twice the
    weight. *)
Definition RECENCY_WEIGHT_YEAR : Z := 2020.
Definition RECENCY_WEIGHT_MULTIPLIER : Q := 2.

End Config.

Import Config.

(** ** build_training_data.py *)

Module BuildTrainingData.

(** A row of [brickset_sets] as [fetch_retired_sets] selects it. *)
Record SetRow : Type := {
  set_number : string;
  set_exit_date : Z;
  uk_retail_price : Q
}.

(** A row of [price_snapshots]; the query keeps non-null prices only. *)
Record Snapshot : Type := {
  snap_set_num : string;
  date : Z;
  price_gbp : Q;
  seller_count : option Q;
  buy_box_winner : option string
}.

Inductive Quality : Type := good | partial | insufficient.

(** One record of the training table. *)
Record TrainingRow : Type := {
  set_num : string;
  exit_date : Z;
  rrp_gbp : Q;
  price_at_retirement : option Q;
  price_6m : option Q;
  price_1yr : option Q;
  price_2yr : option Q;
  price_3yr : option Q;
  target_6m : option Q;
  target_1yr : option Q;
  target_2yr : option Q;
  target_3yr : option Q;
  data_quality : Quality;
  snapshot_count : nat
}.

Definition target_of (h : Horizon) (r : TrainingRow) : option Q :=
  match h with
  | H6m => target_6m r
  | H1yr => target_1yr r
  | H2yr => target_2yr r
  | H3yr => target_3yr r
  end.

Definition price_of (m : Milestone) (r : TrainingRow) : option Q :=
  match m with
  | Retirement => price_at_retirement r
  | After H6m => price_6m r
  | After H1yr => price_1yr r
  | After H2yr => price_2yr r
  | After H3yr => price_3yr r
  end.

(** [df[col] = v] on one row. *)
Definition set_target (h : Horizon) (v : option Q) (r : TrainingRow) : TrainingRow :=
  {| set_num := set_num r; exit_date := exit_date r; rrp_gbp := rrp_gbp r;
     price_at_retirement := price_at_retirement r;
     price_6m := price_6m r; price_1yr := price_1yr r;
     price_2yr := price_2yr r; price_3yr := price_3yr r;
     target_6m := match h with H6m => v | _ => target_6m r end;
     target_1yr := match h with H1yr => v | _ => target_1yr r end;
     target_2yr := match h with H2yr => v | _ => target_2yr r end;
     target_3yr := match h with H3yr => v | _ => target_3yr r end;
     data_quality := data_quality r; snapshot_count := snapshot_count r |}.

(** [snapshots_df[snapshots_df["set_num"] == set_num]] *)
Definition snaps_of (set_num : string) (snapshots_df : list Snapshot) : list Snapshot :=
  filter (fun s => String.eqb (snap_set_num s) set_num) snapshots_df.

(** The rows of one set inside the window of milestone [m]. *)
Definition window_snaps (exit_date : Z) (m : Milestone) (set_snaps : list Snapshot)
  : list Snapshot :=
  let '(centre_days, half_width) := MILESTONES m in
  let window_start := (exit_date + (centre_days - half_width))%Z in
  let window_end := (exit_date + (centre_days + half_width))%Z in
  filter (fun s => (window_start <=? date s)%Z && (date s <=? window_end)%Z) set_snaps.

(** [prices[milestone]] *)
Definition milestone_price (exit_date : Z) (m : Milestone) (set_snaps : list Snapshot)
  : option Q :=
  let w := window_snaps exit_date m set_snaps in
  if (MIN_SNAPSHOTS_PER_WINDOW <=? length w)%nat
  then median (map price_gbp w)
  else None.

(** [targets[f"target_{horizon}"]] *)
Definition log_target `{FloatLib} (price : option Q) (rrp : Q) : option Q :=
  match price with
  | Some p =>
    if Qltb 0 p && Qltb 0 rrp then Some (math_log (p / rrp)) else None
  | None => None
  end.

Definition quality_of (targets : list (option Q)) : Quality :=
  let target_count := length (filter (@notna Q) targets) in
  if (target_count =? 4)%nat then good
  else if (1 <=? target_count)%nat then partial
  else insufficient.

(** The body of the loop over [sets_df]: [None] is the [continue] taken
    when the set has no snapshot. *)
Definition milestone_row `{FloatLib} (row : SetRow) (snapshots_df : list Snapshot)
  : option TrainingRow :=
  let set_num := set_number row in
  let exit_date := set_exit_date row in
  let rrp := uk_retail_price row in
  let set_snaps := snaps_of set_num snapshots_df in
  match set_snaps with
  | [] => None
  | _ =>
    let prices := fun m => milestone_price exit_date m set_snaps in
    let targets := fun h => log_target (prices (After h)) rrp in
    Some {| set_num := set_num; exit_date := exit_date; rrp_gbp := rrp;
            price_at_retirement := prices Retirement;
            price_6m := prices (After H6m); price_1yr := prices (After H1yr);
            price_2yr := prices (After H2yr); price_3yr := prices (After H3yr);
            target_6m := targets H6m; target_1yr := targets H1yr;
            target_2yr := targets H2yr; target_3yr := targets H3yr;
            data_quality := quality_of (map targets HORIZONS);
            snapshot_count := length set_snaps |}
  end.

Definition compute_milestone_prices `{FloatLib}
  (sets_df : list SetRow) (snapshots_df : list Snapshot) : list TrainingRow :=
  fold_left
    (fun results row =>
       match milestone_row row snapshots_df with
       | None => results
       | Some r => results ++ [r]
       end)
    sets_df [].

(** One iteration of the loop of [winsorise_targets]. *)
Definition winsorise_col (h : Horizon) (df : list TrainingRow) : list TrainingRow :=
  let valid := dropna (map (target_of h) df) in
  if (length valid <? 10)%nat then df
  else
    match quantile WINSOR_LOW valid, quantile WINSOR_HIGH valid with
    | Some low, Some high =>
      map (fun r => set_target h (option_map (clip low high) (target_of h r)) r) df
    | _, _ => df
    end.

Definition winsorise_targets (df : list TrainingRow) : list TrainingRow :=
  fold_left (fun d h => winsorise_col h d) HORIZONS df.

Definition usable_quality (q : Quality) : bool :=
  match q with good | partial => true | insufficient => false end.

(** Deduplicate by set_num, keeping the first record. *)
Fixpoint dedup (seen : list string) (records : list TrainingRow) : list TrainingRow :=
  match records with
  | [] => []
  | r :: t =>
    if existsb (String.eqb (set_num r)) seen
    then dedup seen t
    else r :: dedup (set_num r :: seen) t
  end.

(** [table.upsert(batch, on_conflict="set_num")] on the stored table. *)
Fixpoint upsert_row (r : TrainingRow) (table : list TrainingRow) : list TrainingRow :=
  match table with
  | [] => [r]
  | x :: t =>
    if String.eqb (set_num x) (set_num r) then r :: t else x :: upsert_row r t
  end.

(** [upsert_training_data]: the stored table after the batches are
    written. *)
Definition upsert_training_data (df : list TrainingRow) (table : list TrainingRow)
  : list TrainingRow :=
  let usable := filter (fun r => usable_quality (data_quality r)) df in
  let records := dedup [] usable in
  fold_left (fun tbl r => upsert_row r tbl) records table.

(** [run]: the stored table after the build. *)
Definition run `{FloatLib} (sets_df : list SetRow) (snapshots_df : list Snapshot)
  (table : list TrainingRow) : list TrainingRow :=
  match sets_df with
  | [] => table
  | _ =>
    match snapshots_df with
    | [] => table
    | _ =>
      let training_df := compute_milestone_prices sets_df snapshots_df in
      let training_df := winsorise_targets training_df in
      upsert_training_data training_df table
    end
  end.

(** The tail of [upsert_training_data] as written: the records leave in
    batches of 200, and the function returns the number of rows sent. *)
Definition upsert_in_batches (records : list TrainingRow) (table : list TrainingRow)
  : list TrainingRow * nat :=
  let batch_size := 200%nat in
  fold_left
    (fun st i =>
       let batch := slice i batch_size records in
       (fold_left (fun tbl r => upsert_row r tbl) batch (fst st),
        (snd st + length batch)%nat))
    (py_range 0 (length records) batch_size)
    (table, O).

(** [upsert_training_data(df)] with its return value. *)
Definition upsert_training_data_total (df : list TrainingRow) (table : list TrainingRow)
  : list TrainingRow * nat :=
  let usable := filter (fun r => usable_quality (data_quality r)) df in
  upsert_in_batches (dedup [] usable) table.

End BuildTrainingData.

(** ** engineer_features.py *)

Module EngineerFeatures.

(** A row of the frame [fetch_training_sets] returns: the training record
    merged with the set's metadata.  [theme] is null when the left merge
    finds no metadata. *)
Record Row : Type := {
  set_num : string;
  theme : option string;
  exit_date : Z;
  rrp_gbp : Q;
  target_6m : option Q;
  target_1yr : option Q;
  target_2yr : option Q;
  target_3yr : option Q
}.

Definition target_of (h : Horizon) (r : Row) : option Q :=
  match h with
  | H6m => target_6m r
  | H1yr => target_1yr r
  | H2yr => target_2yr r
  | H3yr => target_3yr r
  end.

(** The four theme columns of one horizon, on one row. *)
Record ThemeFeatures : Type := {
  theme_mean_log : option Q;
  theme_median_log : option Q;
  theme_std_log : option Q;
  theme_sample_size : option Q
}.

(** [df.sort_values("exit_date").reset_index(drop=True)].  The sort is
    modelled with rows of equal exit_date kept in frame order; pandas'
    default quicksort does not promise that. *)
Definition sort_values (df : list Row) : list Row :=
  sort_by (fun a b => (exit_date a <=? exit_date b)%Z) df.

(** [df_sorted["theme"] == theme] on one row: a null theme equals
    nothing. *)
Definition theme_is (t : string) (r : Row) : bool :=
  match theme r with
  | Some t' => String.eqb t' t
  | None => false
  end.

(** The mask that selects [prior] for the row being visited. *)
Definition prior_of (df_sorted : list Row) (h : Horizon) (t : string) (exit : Z)
  : list Row :=
  filter (fun r => theme_is t r && (exit_date r <? exit)%Z && notna (target_of h r))
         df_sorted.

(** The body of the inner loop: what is appended to [means], [medians],
    [stds] and [ns] for one row. *)
Definition theme_row `{FloatLib} (df_sorted : list Row) (h : Horizon) (row : Row)
  : ThemeFeatures :=
  match theme row with
  | None =>
    {| theme_mean_log := None; theme_median_log := None;
       theme_std_log := None; theme_sample_size := Some 0 |}
  | Some t =>
    let prior := prior_of df_sorted h t (exit_date row) in
    if (3 <=? length prior)%nat then
      let vals := dropna (map (target_of h) prior) in
      {| theme_mean_log := mean vals; theme_median_log := median vals;
         theme_std_log := std vals; theme_sample_size := Some (lenQ prior) |}
    else
      {| theme_mean_log := None; theme_median_log := None;
         theme_std_log := None; theme_sample_size := Some (lenQ prior) |}
  end.

Definition nan_row : ThemeFeatures :=
  {| theme_mean_log := None; theme_median_log := None;
     theme_std_log := None; theme_sample_size := None |}.

(** [features.index = df_sorted.index; features.reindex(df.index)]: the
    frame's labels become 0..n-1, and the row for label [l] of [df] is the
    one at position [l] (a row of nulls when there is none). *)
Definition reindex (index : list nat) (features : list ThemeFeatures)
  : list ThemeFeatures :=
  map (fun l => nth l features nan_row) index.

(** The theme columns of horizon [h], in the row order of the result. *)
Definition compute_theme_historical_features `{FloatLib} (df : list Row) (h : Horizon)
  : list ThemeFeatures :=
  let df_sorted := sort_values df in
  let features := map (theme_row df_sorted h) df_sorted in
  reindex (seq 0 (length df)) features.

(** A row of [price_snapshots]; the query keeps non-null prices only. *)
Record Snapshot : Type := {
  snap_set_num : string;
  date : Z;
  price_gbp : Q
}.

Definition snaps_of (set_num : string) (snap_df : list Snapshot) : list Snapshot :=
  filter (fun s => String.eqb (snap_set_num s) set_num) snap_df.

(** Snapshots with [exit_date < date <= exit_date + days]. *)
Definition post_window (exit : Z) (days : Z) (s : list Snapshot) : list Snapshot :=
  filter (fun x => (exit <? date x)%Z && (date x <=? exit + days)%Z) s.

(** [momentums.append(...)] for one row. *)
Definition price_momentum_90d `{FloatLib} (row : Row) (snap_df : list Snapshot)
  : option Q :=
  let s := snaps_of (set_num row) snap_df in
  let post_90 := post_window (exit_date row) 90 s in
  if (3 <=? length post_90)%nat then
    let days := map (fun x => inject_Z (date x - exit_date row)) post_90 in
    let prices := map price_gbp post_90 in
    if Qltb 0 (np_sqrt (pop_var days))
    then Some (polyfit_slope days prices)
    else None
  else None.

(** [volatilities.append(...)] for one row. *)
Definition price_volatility_180d `{FloatLib} (row : Row) (snap_df : list Snapshot)
  : option Q :=
  let s := snaps_of (set_num row) snap_df in
  let post_180 := post_window (exit_date row) 180 s in
  if (3 <=? length post_180)%nat
  then std (map price_gbp post_180)
  else None.

(** The momentum and volatility columns of
    [compute_price_trajectory_features]. *)
Definition compute_price_trajectory_features `{FloatLib}
  (df : list Row) (snap_df : list Snapshot) : list (option Q * option Q) :=
  match snap_df with
  | [] => map (fun _ => (None, None)) df
  | _ => map (fun row => (price_momentum_90d row snap_df,
                          price_volatility_180d row snap_df)) df
  end.

End EngineerFeatures.

(** ** Feature frames and fitted regressors *)

(** One row of a feature frame: column name and nullable value.  A name
    that does not occur is a column the frame does not have. *)
Definition FeatRow : Type := list (string * option Q).

Fixpoint column (c : string) (row : FeatRow) : option (option Q) :=
  match row with
  | [] => None
  | (k, v) :: t => if String.eqb k c then Some v else column c t
  end.

(** A fitted LightGBM booster is its [predict] on one row of nullable
    features. *)
Definition Booster : Type := list (option Q) -> Q.

(** ** train_models.py *)

Module TrainModels.



End TrainModels.

(** ** score_sets.py *)

Module ScoreSets.

Definition horizon_str (h : Horizon) : string :=
  match h with
  | H6m => "6m" | H1yr => "1yr" | H2yr => "2yr" | H3yr => "3yr"
  end%string.

Definition quantile_str (q : QuantileName) : string :=
  match q with p25 => "p25" | p50 => "p50" | p75 => "p75" end%string.

Definition QuantileName_eqb (a b : QuantileName) : bool :=
  match a, b with
  | p25, p25 | p50, p50 | p75, p75 => true
  | _, _ => false
  end.

(** The models directory: which paths exist, and what loading them
    gives. *)
Record ModelsDir : Type := {
  path_exists : string -> bool;
  json_load : string -> list string;
  pickle_load : string -> Booster
}.

Definition features_path (h : Horizon) : string :=
  (horizon_str h ++ "_features.json")%string.

Definition model_path (h : Horizon) (q : QuantileName) : string :=
  (horizon_str h ++ "_" ++ quantile_str q ++ ".pkl")%string.

(** [models[horizon]] *)
Record HorizonData : Type := {
  models : list (QuantileName * Booster);
  features : list string
}.

(** The body of the loop of [load_models]: [None] when the horizon is
    skipped. *)
Definition load_horizon (d : ModelsDir) (h : Horizon) : option HorizonData :=
  if negb (path_exists d (features_path h)) then None
  else
    let feature_cols := json_load d (features_path h) in
    let horizon_models :=
      flat_map (fun q =>
                  if path_exists d (model_path h q)
                  then [(q, pickle_load d (model_path h q))]
                  else [])
               (map fst QUANTILES) in
    if (length horizon_models =? 3)%nat
    then Some {| models := horizon_models; features := feature_cols |}
    else None.

(** The dict [models], in insertion order. *)
Definition load_models (d : ModelsDir) : list (Horizon * HorizonData) :=
  flat_map (fun h =>
              match load_horizon d h with
              | Some hd => [(h, hd)]
              | None => []
              end) HORIZONS.


(** A live set as [fetch_active_sets] selects it. *)
Record SetRow : Type := {
  set_number : string;
  uk_retail_price : option Q;
  pieces : option Z;
  theme : option string
}.

(** The keys of a prediction record. *)
Inductive Key : Type :=
| k_set_num
| k_predicted_appreciation (h : Horizon)
| k_predicted_price_gbp (h : Horizon)
| k_pred_p25 (h : Horizon)
| k_pred_p75 (h : Horizon)
| k_confidence (h : Horizon)
| k_expected_profit_1yr_gbp
| k_expected_profit_3yr_gbp
| k_risk_adjusted_score
| k_theme_sample_size_1yr
| k_investment_score
| k_risk_factors.

Inductive RiskFactor : Type :=
| high_rrp | low_piece_count | thin_theme_data | negative_forecast | high_uncertainty.

Inductive Value : Type :=
| VNum (q : Q)
| VNull
| VStr (s : string)
| VRisks (l : list RiskFactor).

Definition Key_eqb (a b : Key) : bool :=
  match a, b with
  | k_set_num, k_set_num => true
  | k_predicted_appreciation h, k_predicted_appreciation h' => Horizon_eqb h h'
  | k_predicted_price_gbp h, k_predicted_price_gbp h' => Horizon_eqb h h'
  | k_pred_p25 h, k_pred_p25 h' => Horizon_eqb h h'
  | k_pred_p75 h, k_pred_p75 h' => Horizon_eqb h h'
  | k_confidence h, k_confidence h' => Horizon_eqb h h'
  | k_expected_profit_1yr_gbp, k_expected_profit_1yr_gbp => true
  | k_expected_profit_3yr_gbp, k_expected_profit_3yr_gbp => true
  | k_risk_adjusted_score, k_risk_adjusted_score => true
  | k_theme_sample_size_1yr, k_theme_sample_size_1yr => true
  | k_investment_score, k_investment_score => true
  | k_risk_factors, k_risk_factors => true
  | _, _ => false
  end.

(** A prediction dict: [None] is a key the dict does not have. *)
Definition Pred : Type := Key -> option Value.

Definition empty_pred : Pred := fun _ => None.

(** [pred[k] = v] *)
Definition pset (k : Key) (v : Value) (p : Pred) : Pred :=
  fun k' => if Key_eqb k' k then Some v else p k'.

(** [pred.pop(k, None)] *)
Definition ppop (k : Key) (p : Pred) : Pred :=
  fun k' => if Key_eqb k' k then None else p k'.

(** A numeric entry; a missing key and a null both give [None]. *)
Definition pnum (k : Key) (p : Pred) : option Q :=
  match p k with
  | Some (VNum q) => Some q
  | _ => None
  end.

(** The frame [X] of one row before [fillna]: the listed feature columns
    in order, a column the feature frame lacks added as NaN. *)
Definition raw_X (feats : FeatRow) (feature_cols : list string) : list (option Q) :=
  map (fun c => match column c feats with
                | Some v => v
                | None => None
                end) feature_cols.

(** [X = X.fillna(0)]: the frame handed to [predict]. *)
Definition scoring_X (feats : FeatRow) (feature_cols : list string) : list (option Q) :=
  map Some (fillna 0 (raw_X feats feature_cols)).

Fixpoint lookup_model (q : QuantileName) (ms : list (QuantileName * Booster))
  : option Booster :=
  match ms with
  | [] => None
  | (q', m) :: t => if QuantileName_eqb q' q then Some m else lookup_model q t
  end.

Definition compute_confidence (p25 p75 : Q) : Q :=
  let iqr := Qabs (p75 - p25) in
  1 / (1 + iqr).

(** The body of the loop over [models.items()] for one row.  [None] is
    the KeyError of [horizon_models[q]] on a dict without that key. *)
Definition score_horizon `{FloatLib} (rrp : Q) (feats : FeatRow)
  (h : Horizon) (hdata : HorizonData) (pred : Pred) : option Pred :=
  let X := scoring_X feats (features hdata) in
  match lookup_model p25 (models hdata),
        lookup_model p50 (models hdata),
        lookup_model p75 (models hdata) with
  | Some m25, Some m50, Some m75 =>
    let p25_log := m25 X in
    let p50_log := m50 X in
    let p75_log := m75 X in
    let p25_pct := (math_exp p25_log - 1) * 100 in
    let p50_pct := (math_exp p50_log - 1) * 100 in
    let p75_pct := (math_exp p75_log - 1) * 100 in
    let p50_price := rrp * math_exp p50_log in
    let confidence := compute_confidence p25_log p75_log in
    Some (pset (k_confidence h) (VNum (py_round confidence 4))
         (pset (k_pred_p75 h) (VNum (py_round p75_pct 2))
         (pset (k_pred_p25 h) (VNum (py_round p25_pct 2))
         (pset (k_predicted_price_gbp h) (VNum (py_round p50_price 2))
         (pset (k_predicted_appreciation h) (VNum (py_round p50_pct 2)) pred)))))
  | _, _, _ => None
  end.

Fixpoint score_horizons `{FloatLib} (rrp : Q) (feats : FeatRow)
  (ms : list (Horizon * HorizonData)) (pred : Pred) : option Pred :=
  match ms with
  | [] => Some pred
  | (h, hdata) :: t =>
    match score_horizon rrp feats h hdata pred with
    | Some pred' => score_horizons rrp feats t pred'
    | None => None
    end
  end.

(** [float(row["uk_retail_price"] or 0)] *)
Definition rrp_of (row : SetRow) : Q :=
  match uk_retail_price row with Some p => p | None => 0 end.

(** The body of the loop over [df.iterrows()]: the record appended to
    [predictions]. *)
Definition score_row `{FloatLib} (ms : list (Horizon * HorizonData))
  (row : SetRow) (feats : FeatRow) : option Pred :=
  let rrp := rrp_of row in
  let pred := pset k_set_num (VStr (set_number row)) empty_pred in
  match score_horizons rrp feats ms pred with
  | None => None
  | Some pred =>
    let profit := fun k =>
      match pred k with
      | Some (VNum app) => VNum (py_round (rrp * (app / 100)) 2)
      | _ => VNull
      end in
    let pred := pset k_expected_profit_1yr_gbp
                     (profit (k_predicted_appreciation H1yr)) pred in
    let pred := pset k_expected_profit_3yr_gbp
                     (profit (k_predicted_appreciation H3yr)) pred in
    let conf_1yr := match pnum (k_confidence H1yr) pred with
                    | Some c => c | None => 1 # 2 end in
    let app_1yr := match pnum (k_predicted_appreciation H1yr) pred with
                   | Some a => a | None => 0 end in
    let pred := pset k_risk_adjusted_score
                     (VNum (if Qeq_bool app_1yr 0 then 0
                            else py_round (app_1yr * conf_1yr) 4)) pred in
    let pred := pset k_theme_sample_size_1yr
                     (match column "theme_sample_size_1yr" feats with
                      | Some (Some n) => VNum n
                      | Some None => VNull
                      | None => VNum 0
                      end) pred in
    Some pred
  end.

(** [assess_risk_factors(row, predictions)] *)
Definition assess_risk_factors (row : SetRow) (pred : Pred) : list RiskFactor :=
  let rrp := rrp_of row in
  let pieces := match pieces row with Some n => n | None => 0%Z end in
  (if Qltb 200 rrp then [high_rrp] else [])
  ++ (if (pieces <? 100)%Z && Qltb 30 rrp then [low_piece_count] else [])
  ++ (match pnum k_theme_sample_size_1yr pred with
      | Some n => if negb (Qeq_bool n 0) && Qltb n 5 then [thin_theme_data] else []
      | None => []
      end)
  ++ (match pnum (k_predicted_appreciation H1yr) pred with
      | Some a => if Qltb a 0 then [negative_forecast] else []
      | None => []
      end)
  ++ (match pnum (k_confidence H1yr) pred with
      | Some c => if Qltb c (3 # 10) then [high_uncertainty] else []
      | None => []
      end).

(** [name in pred_df.columns]: some record has the key. *)
Definition in_columns (k : Key) (predictions : list Pred) : bool :=
  existsb (fun p => match p k with Some _ => true | None => false end) predictions.

(** The Series [composite]. *)
Definition composite (predictions : list Pred) : list Q :=
  let app_rank :=
    fillna (1 # 2) (rank_pct (map (pnum (k_predicted_appreciation H1yr)) predictions)) in
  let profit_rank :=
    fillna (1 # 2) (rank_pct (map (pnum k_expected_profit_1yr_gbp) predictions)) in
  let risk_rank :=
    fillna (1 # 2) (rank_pct (map (pnum k_risk_adjusted_score) predictions)) in
  let conf_vals := fillna (1 # 2) (map (pnum (k_confidence H1yr)) predictions) in
  map (fun t =>
         match t with
         | (a, c, p, r) =>
           (SCORE_WEIGHTS appreciation_1yr * a
            + SCORE_WEIGHTS confidence_1yr * c
            + SCORE_WEIGHTS expected_profit_1yr * p
            + SCORE_WEIGHTS risk_adjusted * r) * 10
         end)
      (combine (combine (combine app_rank conf_vals) profit_rank) risk_rank).

(** The last loop of [score_sets] on record [i]. *)
Definition finish_pred (row : SetRow) (score : Q) (pred : Pred) : Pred :=
  let pred := pset k_investment_score (VNum (py_round score 2)) pred in
  let pred := pset k_risk_factors (VRisks (assess_risk_factors row pred)) pred in
  ppop k_theme_sample_size_1yr pred.

Fixpoint score_rows `{FloatLib} (ms : list (Horizon * HorizonData))
  (rows : list (SetRow * FeatRow)) : option (list Pred) :=
  match rows with
  | [] => Some []
  | (row, feats) :: t =>
    match score_row ms row feats, score_rows ms t with
    | Some p, Some ps => Some (p :: ps)
    | _, _ => None
    end
  end.

(** [score_sets(df, features, models)]: [df] and [features] share their
    index, so a row comes with its feature row. *)
Definition score_sets `{FloatLib} (df : list (SetRow * FeatRow))
  (ms : list (Horizon * HorizonData)) : option (list Pred) :=
  match score_rows ms df with
  | None => None
  | Some predictions =>
    if in_columns (k_predicted_appreciation H1yr) predictions
    then
      Some (map (fun t => match t with
                          | (row, score, pred) => finish_pred row score pred
                          end)
                (combine (combine (map fst df) (composite predictions)) predictions))
    else Some predictions
  end.

(** [run]: the records upserted, none when no horizon could be loaded. *)
Definition run `{FloatLib} (d : ModelsDir) (df : list (SetRow * FeatRow))
  : option (list Pred) :=
  match load_models d with
  | [] => Some []
  | ms =>
    match df with
    | [] => Some []
    | _ => score_sets df ms
    end
  end.

(** A row of [price_snapshots] as the scorer reads it: the price may be
    null. *)
Record Snapshot : Type := {
  snap_set_num : string;
  date : Z;
  price_gbp : option Q
}.

(** [group.sort_values("date")] for one set. *)
Definition group_of (set_num : string) (snap_df : list Snapshot) : list Snapshot :=
  sort_by (fun a b => (date a <=? date b)%Z)
          (filter (fun s => String.eqb (snap_set_num s) set_num) snap_df).

(** [group["date"].max()] *)
Definition latest_date (group : list Snapshot) : Z :=
  match group with
  | [] => 0%Z
  | s :: t => fold_left (fun m x => Z.max m (date x)) t (date s)
  end.

(** [group[group["date"] >= cutoff]["price_gbp"].dropna()] *)
Definition recent (days : Z) (group : list Snapshot) : list Q :=
  let cutoff := (latest_date group - days)%Z in
  dropna (map price_gbp (filter (fun s => (cutoff <=? date s)%Z) group)).

(** [result.at[idx, "price_momentum_90d"]] for one set; [None] when the
    cell is left unset. *)
Definition active_momentum_90d (group : list Snapshot) : option Q :=
  match dropna (map price_gbp group) with
  | [] => None
  | _ =>
    let recent_90 := recent 90 group in
    if (2 <=? length recent_90)%nat then
      let x := arange (length recent_90) in
      let slope := polyfit_slope x recent_90 in
      match mean recent_90 with
      | Some mean_price => Some (if Qltb 0 mean_price then slope / mean_price else 0)
      | None => None
      end
    else None
  end.

(** [result.at[idx, "price_volatility_180d"]] for one set. *)
Definition active_volatility_180d `{FloatLib} (group : list Snapshot) : option Q :=
  match dropna (map price_gbp group) with
  | [] => None
  | _ =>
    let recent_180 := recent 180 group in
    if (2 <=? length recent_180)%nat then
      match mean recent_180, std recent_180 with
      | Some mean_price, Some sd => Some (if Qltb 0 mean_price then sd / mean_price else 0)
      | _, _ => None
      end
    else None
  end.

End ScoreSets.

(** ** engineer_features.py: the feature matrix *)

(** [Series.dt.year] and [Series.dt.quarter] of a day number, and the
    year of [datetime.now()]: the calendar is a parameter. *)
Class Calendar : Type := {
  dt_year : Z -> Z;
  dt_quarter : Z -> Z;
  now_year : Z
}.

(** A calendar of 360-day years and 90-day quarters, used to run the
    model on concrete frames. *)
Definition flat_calendar : Calendar :=
  {| dt_year := fun d => (d / 360)%Z;
     dt_quarter := fun d => ((d mod 360) / 90 + 1)%Z;
     now_year := 2026%Z |}.

Module FeatureMatrix.

Import EngineerFeatures.

(** The metadata columns that [fetch_training_sets] merges in from
    brickset_sets, after [pd.to_numeric(..., errors="coerce")]; every one
    is null when the left merge finds no metadata. *)
Record Meta : Type := {
  pieces : option Q;
  minifigs : option Q;
  age_min : option Q;
  rating : option Q;
  want_count : option Q;
  own_count : option Q;
  is_licensed : option bool;
  is_ucs : option bool;
  is_modular : option bool;
  exclusivity_tier : option string;
  launch_date : option Z;
  width : option Q;
  height : option Q;
  depth : option Q
}.

Definition EXCLUSIVITY_ORDINAL (tier : string) : option Q :=
  if String.eqb tier "retail" then Some 0
  else if String.eqb tier "unknown" then Some 1
  else if String.eqb tier "limited" then Some 2
  else if String.eqb tier "lego_exclusive" then Some 3
  else if String.eqb tier "park_exclusive" then Some 4
  else if String.eqb tier "promotional" then Some 5
  else None.

(** [Series.replace(a, b)] on one nullable value; [b] may be NaN. *)
Definition replace (a : Q) (b : option Q) (x : option Q) : option Q :=
  match x with
  | Some v => if Qeq_bool v a then b else Some v
  | None => None
  end.

(** [Series.fillna(d)] on one value. *)
Definition fill (d : Q) (x : option Q) : option Q :=
  match x with
  | Some v => Some v
  | None => Some d
  end.

(** Element-wise arithmetic of two float columns: NaN when an operand
    is NaN. *)
Definition fdiv (a b : option Q) : option Q :=
  match a, b with
  | Some x, Some y => Some (x / y)
  | _, _ => None
  end.

Definition fmul (a b : option Q) : option Q :=
  match a, b with
  | Some x, Some y => Some (x * y)
  | _, _ => None
  end.

(** [Series.astype(float)] on a nullable boolean. *)
Definition astype_float (b : option bool) : option Q :=
  option_map (fun v : bool => if v then 1 else 0) b.

(** The divisors of the two ratios. *)
Definition piece_divisor (m : Meta) : option Q := replace 0 None (pieces m).

Definition own_divisor (m : Meta) : option Q := replace 0 (Some 1) (fill 1 (own_count m)).

(** [((exit_d - launch).dt.days / 30.44).clip(lower=0)] *)
Definition production_run_months (launch exit_d : option Z) : option Q :=
  match launch, exit_d with
  | Some l, Some e => Some (Qmax (inject_Z (e - l) / (3044 # 100)) 0)
  | _, _ => None
  end.

(** The columns of [compute_set_intrinsic_features] that do not depend
    on the exit date, on one row: [rrp] is the numeric price column. *)
Definition set_features (rrp : option Q) (m : Meta) : FeatRow :=
  [ ("piece_count", pieces m);
    ("rrp_gbp", rrp);
    ("price_per_piece", fdiv rrp (piece_divisor m));
    ("minifig_count", fill 0 (minifigs m));
    ("age_min", age_min m);
    ("rating", rating m);
    ("want_own_ratio", fdiv (fill 0 (want_count m)) (own_divisor m));
    ("is_licensed", fill 0 (astype_float (is_licensed m)));
    ("is_ucs", fill 0 (astype_float (is_ucs m)));
    ("is_modular", fill 0 (astype_float (is_modular m)));
    ("exclusivity_tier",
     fill 1 (match exclusivity_tier m with
             | Some t => EXCLUSIVITY_ORDINAL t
             | None => None
             end)) ]%string.

(** [compute_set_intrinsic_features] on one row of the merged frame. *)
Definition compute_set_intrinsic_features `{Calendar} (row : Row) (m : Meta) : FeatRow :=
  set_features (Some (rrp_gbp row)) m
  ++ [ ("production_run_months",
        production_run_months (launch_date m) (Some (exit_date row)));
       ("box_volume", fmul (fmul (width m) (height m)) (depth m));
       ("retirement_year", Some (inject_Z (dt_year (exit_date row))));
       ("retirement_quarter", Some (inject_Z (dt_quarter (exit_date row)))) ]%string.

(** The four theme columns of one horizon, named. *)
Definition theme_columns (h : Horizon) (f : ThemeFeatures) : FeatRow :=
  let hs := ScoreSets.horizon_str h in
  [ (("theme_mean_log_" ++ hs)%string, theme_mean_log f);
    (("theme_median_log_" ++ hs)%string, theme_median_log f);
    (("theme_std_log_" ++ hs)%string, theme_std_log f);
    (("theme_sample_size_" ++ hs)%string, theme_sample_size f) ].

(** A row of [price_snapshots] with the two columns the retirement
    window reads besides the price. *)
Record SnapshotRow : Type := {
  snap : Snapshot;
  seller_count : option Q;
  buy_box_winner : option string
}.

(** [str.lower()] on ASCII letters. *)
Definition lower_ascii (c : Ascii.ascii) : Ascii.ascii :=
  let n := Ascii.nat_of_ascii c in
  if (65 <=? n)%nat && (n <=? 90)%nat then Ascii.ascii_of_nat (n + 32) else c.

Fixpoint lower (s : string) : string :=
  match s with
  | EmptyString => EmptyString
  | String c t => String (lower_ascii c) (lower t)
  end.

(** [needle in s] *)
Fixpoint contains (needle s : string) : bool :=
  String.prefix needle s
  || match s with
     | EmptyString => false
     | String _ t => contains needle t
     end.

Definition is_amazon (bbw : string) : Q :=
  if contains "amazon" (lower bbw) then 1 else 0.

(** [retirement_window]: the set's snapshots within 15 days of its exit
    date. *)
Definition retirement_window (row : Row) (snap_df : list SnapshotRow)
  : list SnapshotRow :=
  filter (fun x => (exit_date row - 15 <=? date (snap x))%Z
                   && (date (snap x) <=? exit_date row + 15)%Z)
         (filter (fun x => String.eqb (snap_set_num (snap x)) (set_num row)) snap_df).

(** What one turn of the loop appends to [discounts], [seller_counts]
    and [amazon_flags]. *)
Definition retirement_features (row : Row) (snap_df : list SnapshotRow)
  : option Q * option Q * option Q :=
  let w := retirement_window row snap_df in
  let rrp := rrp_gbp row in
  match rev w, median (map (fun x => price_gbp (snap x)) w) with
  | last_snap :: _, Some ret_price =>
    if Qltb 0 rrp
    then (Some ((rrp - ret_price) / rrp),
          seller_count last_snap,
          Some (match buy_box_winner last_snap with
                | Some bbw => is_amazon bbw
                | None => 0
                end))
    else (None, None, None)
  | _, _ => (None, None, None)
  end.

(** The five columns of [compute_price_trajectory_features] on one
    row. *)
Definition trajectory_columns `{FloatLib} (row : Row) (snap_df : list SnapshotRow)
  : FeatRow :=
  match snap_df with
  | [] =>
    [ ("discount_at_retirement", None); ("price_momentum_90d", None);
      ("price_volatility_180d", None); ("seller_count_at_retirement", None);
      ("buy_box_is_amazon", None) ]%string
  | _ =>
    match retirement_features row snap_df with
    | (discount, sellers, amazon) =>
      [ ("discount_at_retirement", discount);
        ("price_momentum_90d", price_momentum_90d row (map snap snap_df));
        ("price_volatility_180d", price_volatility_180d row (map snap snap_df));
        ("seller_count_at_retirement", sellers);
        ("buy_box_is_amazon", amazon) ]%string
    end
  end.

(** [build_feature_matrix]: [pd.concat([intrinsic, theme_hist,
    trajectory], axis=1)], row by row. *)
Definition build_feature_matrix `{FloatLib} `{Calendar}
  (df : list (Row * Meta)) (snap_df : list SnapshotRow) : list FeatRow :=
  let rows := map fst df in
  map (fun irm =>
         match irm with
         | (i, (row, m)) =>
           compute_set_intrinsic_features row m
           ++ flat_map (fun h =>
                          theme_columns h
                            (nth i (compute_theme_historical_features rows h) nan_row))
                       HORIZONS
           ++ trajectory_columns row snap_df
         end)
      (combine (seq 0 (length df)) df).

(** A row of [df] as [update_features_in_db] reads it: the two columns
    the table declares NOT NULL may still be null in the frame. *)
Record StoredRow : Type := {
  stored_set_num : string;
  stored_exit_date : option Z;
  stored_rrp_gbp : option Q
}.

(** One record of a batch sent to [investment_training_data]. *)
Record Payload : Type := {
  payload_set_num : string;
  payload_exit_date : option Z;
  payload_rrp_gbp : option Q;
  payload_features : FeatRow
}.

(** [valid_mask] on one row. *)
Definition valid_mask (r : StoredRow) : bool :=
  notna (stored_exit_date r) && notna (stored_rrp_gbp r).

(** The state of the loop of [update_features_in_db]: [seen], [batch],
    [updated], and the batches upserted so far, in order. *)
Record Flush : Type := {
  seen : list string;
  batch : list Payload;
  updated : nat;
  upserted : list (list Payload)
}.

(** One turn of the loop over [df[valid_mask].iterrows()]; [feats] is
    [features.loc[idx]]. *)
Definition flush_step (st : Flush) (rf : StoredRow * FeatRow) : Flush :=
  let (row, feats) := rf in
  if existsb (String.eqb (stored_set_num row)) (seen st) then st
  else
    let batch' :=
      batch st ++ [ {| payload_set_num := stored_set_num row;
                       payload_exit_date := stored_exit_date row;
                       payload_rrp_gbp := stored_rrp_gbp row;
                       payload_features := feats |} ] in
    if (200 <=? length batch')%nat
    then {| seen := stored_set_num row :: seen st;
            batch := [];
            updated := updated st + length batch';
            upserted := upserted st ++ [batch'] |}
    else {| seen := stored_set_num row :: seen st;
            batch := batch';
            updated := updated st;
            upserted := upserted st |}.

(** [update_features_in_db(df, features)]: the batches upserted, in
    order, and the count returned. *)
Definition update_features_in_db (df : list StoredRow) (features : list FeatRow)
  : list (list Payload) * nat :=
  let valid := filter (fun rf => valid_mask (fst rf)) (combine df features) in
  let st := fold_left flush_step valid
                      {| seen := []; batch := []; updated := 0; upserted := [] |} in
  match batch st with
  | [] => (upserted st, updated st)
  | _ => (upserted st ++ [batch st], (updated st + length (batch st))%nat)
  end.

End FeatureMatrix.

(** ** score_sets.py: the features of the live sets *)

Module ScoringFeatures.

Import FeatureMatrix.

(** [_paginated_query]: pages of [page_size] rows until an empty or a
    short page.  [query lo hi] is [query_builder.range(lo, hi)
    .execute().data]; [fuel] bounds the number of requests. *)
Fixpoint paginate (A : Type) (fuel page_size : nat) (query : nat -> nat -> list A)
  (offset : nat) : list A :=
  match fuel with
  | O => []
  | S fuel' =>
    let data := query offset (offset + page_size - 1)%nat in
    match data with
    | [] => []
    | _ =>
      if (length data <? page_size)%nat then data
      else data ++ paginate fuel' page_size query (offset + page_size)
    end
  end.

Definition paginated_query (A : Type) (fuel : nat) (query : nat -> nat -> list A)
  : list A :=
  paginate fuel 1000 query 0.

(** The server's answer to [range(lo, hi)]: rows [lo] to [hi], both
    included, of the ordered result of the query. *)
Definition range_execute (A : Type) (result : list A) (lo hi : nat) : list A :=
  slice lo (hi + 1 - lo) result.

(** A live set as [fetch_active_sets] returns it. *)
Record LiveSet : Type := {
  set_number : string;
  uk_retail_price : option Q;
  theme : option string;
  exit_date : option Z;
  meta : Meta
}.

(** [df.drop_duplicates(subset="set_number", keep="first")] *)
Fixpoint drop_duplicates (seen : list string) (df : list LiveSet) : list LiveSet :=
  match df with
  | [] => []
  | r :: t =>
    if existsb (String.eqb (set_number r)) seen then drop_duplicates seen t
    else r :: drop_duplicates (set_number r :: seen) t
  end.

(** [fetch_active_sets] on the rows of its two queries. *)
Definition fetch_active_sets (active_rows retired_rows : list LiveSet) : list LiveSet :=
  drop_duplicates [] (active_rows ++ retired_rows).

(** [fetch_theme_stats]: [stats[horizon]] at one theme, [None] when the
    theme is not in the index of the grouped frame. *)
Definition theme_stats `{FloatLib} (merged : list EngineerFeatures.Row)
  (h : Horizon) (t : string) : option EngineerFeatures.ThemeFeatures :=
  let valid := filter (fun r => notna (EngineerFeatures.target_of h r)) merged in
  match dropna (map (EngineerFeatures.target_of h)
                    (filter (EngineerFeatures.theme_is t) valid)) with
  | [] => None
  | vals =>
    Some {| EngineerFeatures.theme_mean_log := mean vals;
            EngineerFeatures.theme_median_log := median vals;
            EngineerFeatures.theme_std_log := std vals;
            EngineerFeatures.theme_sample_size := Some (lenQ vals) |}
  end.

(** [df["theme"].map(ts[col])] for the four columns of one horizon. *)
Definition scoring_theme_columns `{FloatLib} (merged : list EngineerFeatures.Row)
  (h : Horizon) (theme : option string) : FeatRow :=
  theme_columns h
    (match theme with
     | Some t =>
       match theme_stats merged h t with
       | Some f => f
       | None => EngineerFeatures.nan_row
       end
     | None => EngineerFeatures.nan_row
     end).

(** A row of [price_snapshots] as the scorer reads it, with the seller
    count and the buy box winner. *)
Record SnapshotRow : Type := {
  snap : ScoreSets.Snapshot;
  seller_count : option Q;
  buy_box_winner : option string
}.

(** [group.sort_values("date")] for one set. *)
Definition group_rows (set_num : string) (snap_df : list SnapshotRow) : list SnapshotRow :=
  sort_by (fun a b => (ScoreSets.date (snap a) <=? ScoreSets.date (snap b))%Z)
          (filter (fun s => String.eqb (ScoreSets.snap_set_num (snap s)) set_num) snap_df).

(** [s.iloc[-1]] of a column without nulls, if it has a value. *)
Definition last_value (A : Type) (l : list A) : option A :=
  match rev l with
  | x :: _ => Some x
  | [] => None
  end.

(** [sn_to_idx.get(set_num)]: the dict comprehension keeps the last
    position of a set number. *)
Definition sn_to_idx (set_numbers : list string) (set_num : string) : option nat :=
  fold_left (fun acc isn => if String.eqb (snd isn) set_num then Some (fst isn) else acc)
            (combine (seq 0 (length set_numbers)) set_numbers) None.

(** The five cells of row [idx] of [result] after the loop over the
    groups. *)
Definition active_trajectory_row `{FloatLib} (set_numbers : list string)
  (rrp_series : list (option Q)) (snap_df : list SnapshotRow) (idx : nat) : FeatRow :=
  let empty :=
    [ ("discount_at_retirement", None); ("price_momentum_90d", None);
      ("price_volatility_180d", None); ("seller_count_at_retirement", None);
      ("buy_box_is_amazon", None) ]%string in
  match nth_error set_numbers idx with
  | None => empty
  | Some set_num =>
    let group := group_rows set_num snap_df in
    let prices := dropna (map (fun x => ScoreSets.price_gbp (snap x)) group) in
    match sn_to_idx set_numbers set_num, last_value prices with
    | Some idx', Some latest_price =>
      if (idx' =? idx)%nat then
        let rrp := match nth_error rrp_series idx with
                   | Some v => v
                   | None => None
                   end in
        [ ("discount_at_retirement",
           match rrp with
           | Some r => if Qltb 0 r then Some ((r - latest_price) / r) else None
           | None => None
           end);
          ("price_momentum_90d", ScoreSets.active_momentum_90d (map snap group));
          ("price_volatility_180d", ScoreSets.active_volatility_180d (map snap group));
          ("seller_count_at_retirement", last_value (dropna (map seller_count group)));
          ("buy_box_is_amazon",
           option_map is_amazon (last_value (dropna (map buy_box_winner group)))) ]%string
      else empty
    | _, _ => empty
    end
  end.

(** [compute_active_trajectory_features] *)
Definition compute_active_trajectory_features `{FloatLib} (set_numbers : list string)
  (rrp_series : list (option Q)) (snap_df : list SnapshotRow) : list FeatRow :=
  map (active_trajectory_row set_numbers rrp_series snap_df)
      (seq 0 (length set_numbers)).

(** The set-intrinsic and temporal columns of
    [build_features_for_scoring] on one row. *)
Definition scoring_intrinsic `{Calendar} (r : LiveSet) : FeatRow :=
  set_features (uk_retail_price r) (meta r)
  ++ [ ("production_run_months",
        production_run_months (launch_date (meta r)) (exit_date r));
       ("box_volume", fmul (fmul (width (meta r)) (height (meta r))) (depth (meta r)));
       ("retirement_year",
        Some (inject_Z (match exit_date r with
                        | Some e => dt_year e
                        | None => now_year
                        end)));
       ("retirement_quarter",
        Some (inject_Z (match exit_date r with
                        | Some e => dt_quarter e
                        | None => 1%Z
                        end))) ]%string.

(** [build_features_for_scoring(df, theme_stats)], with the training
    rows [merged] the theme statistics are computed from. *)
Definition build_features_for_scoring `{FloatLib} `{Calendar}
  (df : list LiveSet) (merged : list EngineerFeatures.Row)
  (snap_df : list SnapshotRow) : list FeatRow :=
  let set_numbers := map set_number df in
  let rrps := map uk_retail_price df in
  let traj := compute_active_trajectory_features set_numbers rrps snap_df in
  map (fun ir =>
         match ir with
         | (i, r) =>
           scoring_intrinsic r
           ++ nth i traj []
           ++ flat_map (fun h => scoring_theme_columns merged h (theme r)) HORIZONS
         end)
      (combine (seq 0 (length df)) df).

End ScoringFeatures.

(** ** validate_model.py *)

Module ValidateModel.

(** A row of the frame [load_full_training_data] returns, for one
    horizon: its retirement year, its target and its features. *)
Record Row : Type := {
  retirement_year : Z;
  target : option Q;
  feats : FeatRow
}.

(** Fitting one quantile regressor on the rows of a fold
    ([prepare_features], [compute_sample_weights], [lgb.train]) and
    predicting one test row is the learner, a parameter. *)
Class Learner : Type := {
  fit_predict : list Row -> Q -> Row -> Q
}.

Inductive Assessment : Type :=
| well_calibrated
| moderately_calibrated
| poorly_calibrated.

(** What one evaluated fold contributes: [y_test] and [fold_preds]. *)
Record FoldPreds : Type := {
  y_test : list Q;
  preds_p25 : list Q;
  preds_p50 : list Q;
  preds_p75 : list Q
}.

(** [(a < p).mean()] on two arrays. *)
Definition frac_below (actuals preds : list Q) : Q :=
  lenQ (filter (fun ap => Qltb (fst ap) (snd ap)) (combine actuals preds))
  / lenQ actuals.

(** [((a >= lo) & (a <= hi)).mean()] *)
Definition frac_within (actuals lo hi : list Q) : Q :=
  lenQ (filter (fun t => match t with
                         | (a, l, h) => Qle_bool l a && Qle_bool a h
                         end)
               (combine (combine actuals lo) hi))
  / lenQ actuals.

(** The body of the loop over [CV_FOLDS]: [None] when the fold is
    skipped. *)
Definition eval_fold `{Learner} (hdf : list Row) (fold : Fold) : option FoldPreds :=
  let train := filter (fun r => (retirement_year r <=? train_end fold)%Z) hdf in
  let test_rows := filter (fun r => (retirement_year r =? test fold)%Z) hdf in
  if (length train <? 30)%nat || (length test_rows <? 5)%nat then None
  else
    Some {| y_test := dropna (map target test_rows);
            preds_p25 := map (fit_predict train (25 # 100)) test_rows;
            preds_p50 := map (fit_predict train (50 # 100)) test_rows;
            preds_p75 := map (fit_predict train (75 # 100)) test_rows |}.

(** The lists [all_actuals], [all_p25], [all_p50], [all_p75] after the
    loop: each evaluated fold extends them. *)
Record Pooled : Type := {
  all_actuals : list Q;
  all_p25 : list Q;
  all_p50 : list Q;
  all_p75 : list Q
}.

Definition extend (acc : Pooled) (f : FoldPreds) : Pooled :=
  {| all_actuals := all_actuals acc ++ y_test f;
     all_p25 := all_p25 acc ++ preds_p25 f;
     all_p50 := all_p50 acc ++ preds_p50 f;
     all_p75 := all_p75 acc ++ preds_p75 f |}.

Definition pool (folds : list FoldPreds) : Pooled :=
  fold_left extend folds
            {| all_actuals := []; all_p25 := []; all_p50 := []; all_p75 := [] |}.

(** The part of [horizon_results["aggregate"]] that concerns coverage. *)
Record Aggregate : Type := {
  total_oos_samples : nat;
  agg_below_p25 : Q;
  agg_below_p50 : Q;
  agg_below_p75 : Q;
  agg_within_iqr : Q;
  actual_below_p25_pct : Q;
  actual_below_p50_pct : Q;
  actual_below_p75_pct : Q;
  p25_calibration_error_pp : Q;
  p50_calibration_error_pp : Q;
  p75_calibration_error_pp : Q;
  calibration_assessment : Assessment
}.

Definition max3 (a b c : Q) : Q := Qmax (Qmax a b) c.

Definition assess (b25 b50 b75 : Q) : Assessment :=
  let worst := max3 (Qabs (b25 - (25 # 100)))
                    (Qabs (b50 - (50 # 100)))
                    (Qabs (b75 - (75 # 100))) in
  if Qltb worst (10 # 100) then well_calibrated
  else if Qltb worst (15 # 100) then moderately_calibrated
  else poorly_calibrated.

(** "Aggregate across all folds": [None] is the empty dict left when no
    fold was evaluated. *)
Definition aggregate (folds : list FoldPreds) : option Aggregate :=
  let p := pool folds in
  match all_actuals p with
  | [] => None
  | _ =>
    let b25 := frac_below (all_actuals p) (all_p25 p) in
    let b50 := frac_below (all_actuals p) (all_p50 p) in
    let b75 := frac_below (all_actuals p) (all_p75 p) in
    Some {| total_oos_samples := length (all_actuals p);
            agg_below_p25 := b25;
            agg_below_p50 := b50;
            agg_below_p75 := b75;
            agg_within_iqr := frac_within (all_actuals p) (all_p25 p) (all_p75 p);
            actual_below_p25_pct := py_round (b25 * 100) 1;
            actual_below_p50_pct := py_round (b50 * 100) 1;
            actual_below_p75_pct := py_round (b75 * 100) 1;
            p25_calibration_error_pp := py_round (Qabs (b25 - (25 # 100)) * 100) 1;
            p50_calibration_error_pp := py_round (Qabs (b50 - (50 # 100)) * 100) 1;
            p75_calibration_error_pp := py_round (Qabs (b75 - (75 # 100)) * 100) 1;
            calibration_assessment := assess b25 b50 b75 |}
  end.

(** The folds evaluated for one horizon, in the order of [CV_FOLDS]. *)
Definition evaluated_folds `{Learner} (hdf : list Row) : list FoldPreds :=
  flat_map (fun fold => match eval_fold hdf fold with
                        | Some f => [f]
                        | None => []
                        end) CV_FOLDS.

(** [run_quantile_calibration] for one horizon, [df] already restricted
    to the horizon's columns: [None] when the horizon is skipped. *)
Definition run_quantile_calibration `{Learner} (df : list Row)
  : option (option Aggregate) :=
  let hdf := filter (fun r => notna (target r)) df in
  if (length hdf <? 50)%nat then None
  else Some (aggregate (evaluated_folds hdf)).

(** [compute_sample_weights(retirement_years)] *)
Definition compute_sample_weights (retirement_years : list Z) : list Q :=
  map (fun y => if (RECENCY_WEIGHT_YEAR <=? y)%Z
                then RECENCY_WEIGHT_MULTIPLIER else 1) retirement_years.

(** [FEATURE_COLS], [THEME_FEATURE_TEMPLATE] and [get_feature_cols] of
    the validation suite. *)
Definition FEATURE_COLS : list string :=
  [ "piece_count"; "rrp_gbp"; "price_per_piece"; "minifig_count";
    "age_min"; "rating"; "want_own_ratio";
    "is_licensed"; "is_ucs"; "is_modular"; "exclusivity_tier";
    "production_run_months"; "box_volume";
    "retirement_year"; "retirement_quarter";
    "discount_at_retirement"; "price_momentum_90d";
    "price_volatility_180d"; "seller_count_at_retirement"; "buy_box_is_amazon" ]%string.

Definition THEME_FEATURE_TEMPLATE (h : string) : list string :=
  [ "theme_mean_log_" ++ h; "theme_median_log_" ++ h;
    "theme_std_log_" ++ h; "theme_sample_size_" ++ h ]%string.

Definition get_feature_cols (horizon : Horizon) : list string :=
  FEATURE_COLS ++ THEME_FEATURE_TEMPLATE (ScoreSets.horizon_str horizon).

(** *** Validation 1: the portfolio backtest *)

(** A row of [hdf] in the backtest: the table's [rrp_gbp] column, after
    [pd.to_numeric(..., errors="coerce")], besides the row. *)
Record TestRow : Type := {
  row : Row;
  rrp_gbp : option Q
}.

(** Fitting one quantile regressor on the training rows with the fixed
    parameters of the suite and predicting one row of the test frame.
    [prepare_features] fills a test column with the median of the test
    rows, so the prediction of a row depends on the frame it is in. *)
Class FoldLearner : Type := {
  predict_in : list Row -> Q -> list Row -> Row -> Q
}.

(** [hdf[train_mask]] and [hdf[test_mask]] of a fold. *)
Definition train_part (hdf : list TestRow) (fold : Fold) : list TestRow :=
  filter (fun r => (retirement_year (row r) <=? train_end fold)%Z) hdf.

Definition test_part (hdf : list TestRow) (fold : Fold) : list TestRow :=
  filter (fun r => (retirement_year (row r) =? test fold)%Z) hdf.

(** A row of [test_df] with the columns the backtest adds to it. *)
Record Candidate : Type := {
  cand : TestRow;
  pred_appreciation : Q;
  pred_p25 : Q;
  pred_p75 : Q;
  actual_appreciation : option Q;
  pred_profit : Q;
  confidence : Q;
  risk_adjusted_col : Q
}.

Definition candidates `{FloatLib} `{FoldLearner} (train test_rows : list TestRow)
  : list Candidate :=
  let tr := map row train in
  let te := map row test_rows in
  map (fun r =>
         let p50 := predict_in tr (50 # 100) te (row r) in
         let p25 := predict_in tr (25 # 100) te (row r) in
         let p75 := predict_in tr (75 # 100) te (row r) in
         let app := (math_exp p50 - 1) * 100 in
         let conf := 1 / (1 + Qabs (p75 - p25)) in
         {| cand := r;
            pred_appreciation := app;
            pred_p25 := (math_exp p25 - 1) * 100;
            pred_p75 := (math_exp p75 - 1) * 100;
            actual_appreciation :=
              option_map (fun t => (math_exp t - 1) * 100) (target (row r));
            pred_profit := (match rrp_gbp r with Some v => v | None => 30 end)
                           * (app / 100);
            confidence := conf;
            risk_adjusted_col := app * conf |})
      test_rows.

(** The column [test_df["investment_score"]]. *)
Definition investment_scores (cs : list Candidate) : list Q :=
  let app_rank :=
    fillna (1 # 2) (rank_pct (map (fun c => Some (pred_appreciation c)) cs)) in
  let profit_rank :=
    fillna (1 # 2) (rank_pct (map (fun c => Some (pred_profit c)) cs)) in
  let risk_rank :=
    fillna (1 # 2) (rank_pct (map (fun c => Some (risk_adjusted_col c)) cs)) in
  let conf_vals := fillna (1 # 2) (map (fun c => Some (confidence c)) cs) in
  map (fun t =>
         match t with
         | (a, c, p, r) =>
           (SCORE_WEIGHTS appreciation_1yr * a
            + SCORE_WEIGHTS confidence_1yr * c
            + SCORE_WEIGHTS expected_profit_1yr * p
            + SCORE_WEIGHTS risk_adjusted * r) * 10
         end)
      (combine (combine (combine app_rank conf_vals) profit_rank) risk_rank).

(** [test_df.sort_values("investment_score", ascending=False)]: the
    rows with their score, highest first.  Rows of equal score are kept
    in frame order; pandas' default quicksort does not promise that. *)
Definition sorted_by_score (cs : list Candidate) : list (Candidate * Q) :=
  sort_by (fun a b => Qle_bool (snd b) (snd a)) (combine cs (investment_scores cs)).

(** [(returns > 0).mean() * 100] *)
Definition win_rate (returns : list Q) : option Q :=
  match returns with
  | [] => None
  | _ => Some (lenQ (filter (fun x => Qltb 0 x) returns) / lenQ returns * 100)
  end.

Definition round_opt (ndigits : nat) (v : option Q) : option Q :=
  option_map (fun x => py_round x ndigits) v.

(** ["top_group"] and ["bottom_group"] of a fold result. *)
Record Group : Type := {
  n : nat;
  mean_actual_appreciation : option Q;
  median_actual_appreciation : option Q;
  mean_predicted : option Q;
  group_win_rate : option Q;
  mean_score : option Q;
  sets : list (Candidate * Q)
}.

Definition actuals_of (g : list (Candidate * Q)) : list Q :=
  dropna (map (fun c => actual_appreciation (fst c)) g).

Definition group_of (g : list (Candidate * Q)) : Group :=
  {| n := length g;
     mean_actual_appreciation := round_opt 2 (mean (actuals_of g));
     median_actual_appreciation := round_opt 2 (median (actuals_of g));
     mean_predicted := round_opt 2 (mean (map (fun c => pred_appreciation (fst c)) g));
     group_win_rate := round_opt 1 (win_rate (actuals_of g));
     mean_score := round_opt 2 (mean (map snd g));
     sets := g |}.

(** ["middle_group"] *)
Record MiddleGroup : Type := {
  middle_n : nat;
  middle_mean_actual_appreciation : option Q;
  middle_median_actual_appreciation : option Q;
  middle_win_rate : option Q
}.

Definition middle_of (g : list (Candidate * Q)) : MiddleGroup :=
  {| middle_n := length g;
     middle_mean_actual_appreciation := round_opt 2 (mean (actuals_of g));
     middle_median_actual_appreciation := round_opt 2 (median (actuals_of g));
     middle_win_rate := round_opt 1 (win_rate (actuals_of g)) |}.

(** One entry of [results], without the metrics of the p50 model. *)
Record FoldResult : Type := {
  train_size : nat;
  test_size : nat;
  top_n : nat;
  top_group : Group;
  bottom_group : Group;
  middle_group : option MiddleGroup;
  separation_pp : option Q
}.

(** [sorted_df.iloc[k:-k]] for a positive [k]. *)
Definition iloc_between (A : Type) (k : nat) (l : list A) : list A :=
  firstn (length l - k - k) (skipn k l).

(** [sorted_df.tail(k)] *)
Definition tail (A : Type) (k : nat) (l : list A) : list A :=
  skipn (length l - k) l.

(** The three groups cut from the sorted frame; [None] when
    [actual_top_n < 5]. *)
Definition split_groups (A : Type) (arg_top_n : Z) (sorted_df : list A)
  : option (nat * list A * list A * list A) :=
  let actual_top_n := Z.min arg_top_n (Z.of_nat (length sorted_df) / 3) in
  if (actual_top_n <? 5)%Z then None
  else
    let k := Z.to_nat actual_top_n in
    let top := firstn k sorted_df in
    let bottom := tail k sorted_df in
    let middle := if (2 * k <? length sorted_df)%nat
                  then iloc_between k sorted_df else [] in
    Some (k, top, middle, bottom).

(** The body of the loop of [run_portfolio_backtest] over [CV_FOLDS]:
    [None] when the fold is skipped. *)
Definition backtest_fold `{FloatLib} `{FoldLearner} (hdf : list TestRow)
  (arg_top_n : Z) (fold : Fold) : option FoldResult :=
  let train := train_part hdf fold in
  let test_rows := test_part hdf fold in
  if (length train <? 30)%nat || (length test_rows <? 10)%nat then None
  else
    let sorted_df := sorted_by_score (candidates train test_rows) in
    match split_groups arg_top_n sorted_df with
    | None => None
    | Some (k, top, middle, bottom) =>
      Some {| train_size := length train;
              test_size := length test_rows;
              top_n := k;
              top_group := group_of top;
              bottom_group := group_of bottom;
              middle_group := match middle with
                              | [] => None
                              | _ => Some (middle_of middle)
                              end;
              separation_pp :=
                match mean (actuals_of top), mean (actuals_of bottom) with
                | Some t, Some b => Some (py_round (t - b) 2)
                | _, _ => None
                end |}
    end.

(** The list [results] of [run_portfolio_backtest(df, top_n)]. *)
Definition run_portfolio_backtest `{FloatLib} `{FoldLearner} (df : list TestRow)
  (arg_top_n : Z) : list FoldResult :=
  let hdf := filter (fun r => notna (target (row r))) df in
  flat_map (fun fold => match backtest_fold hdf arg_top_n fold with
                        | Some r => [r]
                        | None => []
                        end) CV_FOLDS.

End ValidateModel.

(** ** train_models.py: the walk-forward search *)

Module Trainer.

(** Feature columns expected from engineer_features.py. *)
Definition FEATURE_COLS : list string :=
  [ "piece_count"; "rrp_gbp"; "price_per_piece"; "minifig_count";
    "age_min"; "rating"; "want_own_ratio";
    "is_licensed"; "is_ucs"; "is_modular"; "exclusivity_tier";
    "production_run_months"; "box_volume";
    "retirement_year"; "retirement_quarter";
    "discount_at_retirement"; "price_momentum_90d";
    "price_volatility_180d"; "seller_count_at_retirement"; "buy_box_is_amazon" ]%string.

(** [THEME_FEATURE_TEMPLATE], each template formatted with [h]. *)
Definition THEME_FEATURE_TEMPLATE (h : string) : list string :=
  [ "theme_mean_log_" ++ h; "theme_median_log_" ++ h;
    "theme_std_log_" ++ h; "theme_sample_size_" ++ h ]%string.

Definition get_feature_cols (horizon : Horizon) : list string :=
  FEATURE_COLS ++ THEME_FEATURE_TEMPLATE (ScoreSets.horizon_str horizon).

(** A row of the frame [load_training_data] returns, for one horizon:
    its retirement year, its target and its row of the feature matrix
    [X]. *)
Record Row : Type := {
  retirement_year : Z;
  target : option Q;
  x : list (option Q)
}.

(** [compute_sample_weights(df)] *)
Definition compute_sample_weights (df : list Row) : list Q :=
  map (fun r => if (RECENCY_WEIGHT_YEAR <=? retirement_year r)%Z
                then RECENCY_WEIGHT_MULTIPLIER else 1) df.

(** The hyperparameter search of one fold and the final fit are the
    tuner, a parameter: [optimize] stands for the Optuna study on the
    fold (its best value and best parameters), [fit] for
    [train_quantile_model]. *)
Class Tuner : Type := {
  Params : Type;
  optimize : list Row -> list Row -> list Q -> Q * Params;
  fit : list Row -> Params -> Q -> list Q -> Booster
}.

(** [hdf[train_mask]] and [hdf[val_mask]] of a fold. *)
Definition train_rows (hdf : list Row) (fold : Fold) : list Row :=
  filter (fun r => (retirement_year r <=? train_end fold)%Z) hdf.

Definition val_rows (hdf : list Row) (fold : Fold) : list Row :=
  filter (fun r => (retirement_year r =? val fold)%Z) hdf.

(** The study of one fold: its [best_value] and [best_params]. *)
Definition study_of `{Tuner} (hdf : list Row) (fold : Fold) : Q * Params :=
  let train := train_rows hdf fold in
  optimize train (val_rows hdf fold) (compute_sample_weights train).

(** One turn of the loop "Temporal CV to find best hyperparams": the
    state is [(best_val_mae, best_params)], [None] while they are
    [(inf, None)]. *)
Definition search_step `{Tuner} (hdf : list Row) (best : option (Q * Params))
  (fold : Fold) : option (Q * Params) :=
  let train := train_rows hdf fold in
  let vals := val_rows hdf fold in
  if (length train <? 30)%nat || (length vals <? 5)%nat then best
  else
    let study := study_of hdf fold in
    match best with
    | None => Some study
    | Some (best_val_mae, _) =>
      if Qltb (fst study) best_val_mae then Some study else best
    end.

Definition search `{Tuner} (hdf : list Row) : option (Q * Params) :=
  fold_left (search_step hdf) CV_FOLDS None.

(** What [train_for_horizon] trains: the three fitted models, with the
    rows they were fitted on and the rows held out. *)
Record Trained `{Tuner} : Type := {
  best_val_mae : Q;
  best_params : Params;
  final_train : list Row;
  final_test : list Row;
  fitted : list (QuantileName * Booster)
}.

(** [train_for_horizon(df, horizon)] on the frame of one horizon: [None]
    is the empty dict returned when nothing is trained. *)
Definition train_for_horizon `{Tuner} (df : list Row) : option Trained :=
  let hdf := filter (fun r => notna (target r)) df in
  if (length hdf <? 50)%nat then None
  else
    match search hdf with
    | None => None
    | Some (mae, params) =>
      let tr := filter (fun r => (retirement_year r <=? 2023)%Z) hdf in
      let te := filter (fun r => (2024 <=? retirement_year r)%Z) hdf in
      let train_weights := compute_sample_weights tr in
      Some {| best_val_mae := mae;
              best_params := params;
              final_train := tr;
              final_test := te;
              fitted := map (fun q => (fst q, fit tr params (snd q) train_weights))
                            QUANTILES |}
    end.

End Trainer.

(** ** run_pipeline.py *)

Module RunPipeline.

Inductive Step : Type := build | features | train | score.

Definition STEPS : list Step := [build; features; train; score].

(** [results[step]] *)
Inductive StepStatus (R : Type) : Type :=
| success (result : R)
| error.

Arguments error {R}.

(** How [main] ends: it returns [results], or [sys.exit(1)]. *)
Inductive Outcome (R : Type) : Type :=
| Returned (results : list (Step * StepStatus R))
| Exited (code : Z).

(** The loop over [steps_to_run].  [run_step step w] is the step run on
    the database [w]: the database it leaves and its result, [None]
    when it raises.  [single] is [args.step] being set. *)
Fixpoint run_steps (W R : Type) (run_step : Step -> W -> W * option R)
  (single : bool) (steps_to_run : list Step) (w : W)
  (results : list (Step * StepStatus R)) : W * Outcome R :=
  match steps_to_run with
  | [] => (w, Returned results)
  | step :: rest =>
    match run_step step w with
    | (w', Some result) =>
      run_steps run_step single rest w' (results ++ [(step, success result)])
    | (w', None) =>
      if single then (w', Exited R 1)
      else (w', Returned (results ++ [(step, error)]))
    end
  end.

(** [main()] with [--step] given or not. *)
Definition main (W R : Type) (run_step : Step -> W -> W * option R)
  (arg_step : option Step) (w : W) : W * Outcome R :=
  match arg_step with
  | Some step => run_steps run_step true [step] w []
  | None => run_steps run_step false STEPS w []
  end.

End RunPipeline.

(** * Specification-level notions used in the statements *)

Module Spec.

Import EngineerFeatures.

(** Rows in date order, as the store returns them under
    [.order("exit_date")]. *)
Definition in_exit_order (df : list Row) : Prop :=
  Sorted (fun a b => (exit_date a <=? exit_date b)%Z = true) df.

Definition same_theme (r X : Row) : bool :=
  match theme r, theme X with
  | Some a, Some b => String.eqb a b
  | _, _ => false
  end.

(** The rows that may contribute to the theme features of [X] at horizon
    [h]: same theme, retired strictly before [X], target known. *)
Definition contributors (df : list Row) (h : Horizon) (X : Row) : list Row :=
  filter (fun r => same_theme r X && (exit_date r <? exit_date X)%Z
                   && notna (target_of h r)) df.

(** Mean, median, standard deviation and count of the targets of a set
    of rows, the statistics being null below three rows. *)
Definition summarise `{FloatLib} (h : Horizon) (rows : list Row) : ThemeFeatures :=
  let vals := dropna (map (target_of h) rows) in
  if (3 <=? length rows)%nat then
    {| theme_mean_log := mean vals; theme_median_log := median vals;
       theme_std_log := std vals; theme_sample_size := Some (lenQ rows) |}
  else
    {| theme_mean_log := None; theme_median_log := None;
       theme_std_log := None; theme_sample_size := Some (lenQ rows) |}.

(** The milestone windows in the specification's words: centres at
    exit_date + 0, 180, 365, 730, 1095 days, half-widths 15, 30, 30, 30,
    30 days. *)
Definition centre (m : Milestone) : Z :=
  match m with
  | Retirement => 0
  | After H6m => 180
  | After H1yr => 365
  | After H2yr => 730
  | After H3yr => 1095
  end.

Definition half_width (m : Milestone) : Z :=
  match m with
  | Retirement => 15
  | After _ => 30
  end.

(** The observations of a set whose date lies in the closed window of
    milestone [m]. *)
Definition qualifying (exit : Z) (m : Milestone) (number : string)
  (snapshots : list BuildTrainingData.Snapshot) : list BuildTrainingData.Snapshot :=
  filter (fun s => String.eqb (BuildTrainingData.snap_set_num s) number
                   && (exit + centre m - half_width m <=? BuildTrainingData.date s)%Z
                   && (BuildTrainingData.date s <=? exit + centre m + half_width m)%Z)
         snapshots.

(** Winsorisation of one column in the specification's words: clip the
    non-null values to the 2nd and 98th percentiles of the column's own
    non-null values, unless fewer than 10 of them exist. *)
Definition winsorise_column (col : list (option Q)) : list (option Q) :=
  let valid := dropna col in
  if (length valid <? 10)%nat then col
  else
    match quantile (2 # 100) valid, quantile (98 # 100) valid with
    | Some low, Some high => map (option_map (clip low high)) col
    | _, _ => col
    end.

(** Two columns with the same nulls and equal values. *)
Definition same_column (a b : list (option Q)) : Prop := Forall2 oQeq a b.


(** The horizon a prediction field belongs to, if any. *)
Definition key_horizon (k : ScoreSets.Key) : option Horizon :=
  match k with
  | ScoreSets.k_predicted_appreciation h
  | ScoreSets.k_predicted_price_gbp h
  | ScoreSets.k_pred_p25 h
  | ScoreSets.k_pred_p75 h
  | ScoreSets.k_confidence h => Some h
  | ScoreSets.k_expected_profit_1yr_gbp => Some H1yr
  | ScoreSets.k_expected_profit_3yr_gbp => Some H3yr
  | _ => None
  end.



(** The four files of a horizon: the feature list and the three
    quantile models. *)
Definition horizon_files (h : Horizon) : list string :=
  [ ScoreSets.features_path h;
    ScoreSets.model_path h p25;
    ScoreSets.model_path h p50;
    ScoreSets.model_path h p75 ].

(** The interpolated quantile between two order statistics of a sorted
    column, as [quantile] computes it. *)
Definition lerp_at (s : list Q) (pos : Q) : Q :=
  let k := Qfloor pos in
  let a := nth (Z.to_nat k) s 0 in
  let b := nth (Z.to_nat k + 1) s a in
  a + (b - a) * (pos - inject_Z k).



(** Calibration in the specification's words.  The number of actuals
    below their prediction in one fold, the pooled rate (all below-counts
    over all test rows) and the fold-averaged rate it is not. *)
Definition below_count (actuals preds : list Q) : nat :=
  length (filter (fun ap => Qltb (fst ap) (snd ap)) (combine actuals preds)).

Definition total (A : Type) (f : A -> nat) (l : list A) : nat :=
  fold_right (fun x n => (f x + n)%nat) O l.




(** A horizon's models with the three quantile models in place. *)
Definition complete (hd : ScoreSets.HorizonData) : Prop :=
  exists m25 m50 m75,
    ScoreSets.lookup_model p25 (ScoreSets.models hd) = Some m25
    /\ ScoreSets.lookup_model p50 (ScoreSets.models hd) = Some m50
    /\ ScoreSets.lookup_model p75 (ScoreSets.models hd) = Some m75.

(** A fold the trainer runs a study on: at least 30 training rows and
    5 validation rows. *)
Definition searched (hdf : list Trainer.Row) (fold : Fold) : Prop :=
  (30 <= length (Trainer.train_rows hdf fold))%nat
  /\ (5 <= length (Trainer.val_rows hdf fold))%nat.

(** The prediction record that holds the four columns the backtest
    scores a test row with. *)
Definition as_prediction (c : ValidateModel.Candidate) : ScoreSets.Pred :=
  ScoreSets.pset ScoreSets.k_risk_adjusted_score
    (ScoreSets.VNum (ValidateModel.risk_adjusted_col c))
    (ScoreSets.pset ScoreSets.k_expected_profit_1yr_gbp
       (ScoreSets.VNum (ValidateModel.pred_profit c))
       (ScoreSets.pset (ScoreSets.k_confidence H1yr)
          (ScoreSets.VNum (ValidateModel.confidence c))
          (ScoreSets.pset (ScoreSets.k_predicted_appreciation H1yr)
             (ScoreSets.VNum (ValidateModel.pred_appreciation c))
             ScoreSets.empty_pred))).

(** A learner whose three quantile predictions do not cross. *)
Definition non_crossing `{ValidateModel.Learner} : Prop :=
  forall (train : list ValidateModel.Row) (r : ValidateModel.Row),
    ValidateModel.fit_predict train (25 # 100) r
    <= ValidateModel.fit_predict train (50 # 100) r
    /\ ValidateModel.fit_predict train (50 # 100) r
       <= ValidateModel.fit_predict train (75 # 100) r.

(** The columns of a row of the training feature matrix, in order. *)
Definition matrix_columns : list string :=
  [ "piece_count"; "rrp_gbp"; "price_per_piece"; "minifig_count"; "age_min";
    "rating"; "want_own_ratio"; "is_licensed"; "is_ucs"; "is_modular";
    "exclusivity_tier"; "production_run_months"; "box_volume";
    "retirement_year"; "retirement_quarter";
    "theme_mean_log_6m"; "theme_median_log_6m"; "theme_std_log_6m";
    "theme_sample_size_6m";
    "theme_mean_log_1yr"; "theme_median_log_1yr"; "theme_std_log_1yr";
    "theme_sample_size_1yr";
    "theme_mean_log_2yr"; "theme_median_log_2yr"; "theme_std_log_2yr";
    "theme_sample_size_2yr";
    "theme_mean_log_3yr"; "theme_median_log_3yr"; "theme_std_log_3yr";
    "theme_sample_size_3yr";
    "discount_at_retirement"; "price_momentum_90d"; "price_volatility_180d";
    "seller_count_at_retirement"; "buy_box_is_amazon" ]%string.

(** The database after [steps] have run on [w], one after the other. *)
Definition after (W R : Type) (run_step : RunPipeline.Step -> W -> W * option R)
  (steps : list RunPipeline.Step) (w : W) : W :=
  fold_left (fun w' step => fst (run_step step w')) steps w.

(** An entry of [results] with the status "success". *)
Definition succeeded (R : Type) (p : RunPipeline.Step * RunPipeline.StepStatus R) : bool :=
  match snd p with
  | RunPipeline.success _ => true
  | RunPipeline.error => false
  end.

(** What the loop of [update_features_in_db] keeps true after the rows
    [done]: the records gathered so far, sent or waiting in the batch,
    have distinct set numbers, which are the set numbers seen; the
    waiting batch is below 200 records and every batch sent has 200; the
    count is the number of records sent; every record comes from a row
    visited, and every row visited has its set number seen. *)
Definition flush_ok (st : FeatureMatrix.Flush)
  (done : list (FeatureMatrix.StoredRow * FeatRow)) : Prop :=
  let gathered := concat (FeatureMatrix.upserted st) ++ FeatureMatrix.batch st in
  NoDup (map FeatureMatrix.payload_set_num gathered)
  /\ (forall s, In s (FeatureMatrix.seen st)
                <-> In s (map FeatureMatrix.payload_set_num gathered))
  /\ (length (FeatureMatrix.batch st) < 200)%nat
  /\ Forall (fun b => length b = 200%nat) (FeatureMatrix.upserted st)
  /\ FeatureMatrix.updated st = length (concat (FeatureMatrix.upserted st))
  /\ (forall p, In p gathered ->
                exists row,
                  In (row, FeatureMatrix.payload_features p) done
                  /\ FeatureMatrix.stored_set_num row = FeatureMatrix.payload_set_num p
                  /\ FeatureMatrix.stored_exit_date row = FeatureMatrix.payload_exit_date p
                  /\ FeatureMatrix.stored_rrp_gbp row = FeatureMatrix.payload_rrp_gbp p)
  /\ (forall rf, In rf done ->
                 In (FeatureMatrix.stored_set_num (fst rf)) (FeatureMatrix.seen st)).

End Spec.

(** * Frames used to run the model *)

Module Examples.

Definition mk_row (n t : string) (e : Z) (y : option Q) : EngineerFeatures.Row :=
  {| EngineerFeatures.set_num := n;
     EngineerFeatures.theme := Some t;
     EngineerFeatures.exit_date := e;
     EngineerFeatures.rrp_gbp := 20;
     EngineerFeatures.target_6m := y;
     EngineerFeatures.target_1yr := y;
     EngineerFeatures.target_2yr := y;
     EngineerFeatures.target_3yr := y |}.

(** Four City sets and one Friends set, in exit_date order. *)
Definition city_frame : list EngineerFeatures.Row :=
  [ mk_row "60001-1" "City" 100 (Some (1 # 10));
    mk_row "60002-1" "City" 200 (Some (2 # 10));
    mk_row "41001-1" "Friends" 250 (Some (5 # 10));
    mk_row "60003-1" "City" 300 (Some (3 # 10));
    mk_row "60004-1" "City" 400 (Some (4 # 10)) ]%string.

(** One retired set with three observations in the +1yr window. *)
Definition falcon : BuildTrainingData.SetRow :=
  {| BuildTrainingData.set_number := "75192-1";
     BuildTrainingData.set_exit_date := 1000;
     BuildTrainingData.uk_retail_price := 100 |}.

Definition mk_snap (n : string) (d : Z) (p : Q) : BuildTrainingData.Snapshot :=
  {| BuildTrainingData.snap_set_num := n;
     BuildTrainingData.date := d;
     BuildTrainingData.price_gbp := p;
     BuildTrainingData.seller_count := None;
     BuildTrainingData.buy_box_winner := None |}.

Definition falcon_snaps : list BuildTrainingData.Snapshot :=
  [ mk_snap "75192-1" 1360 120;
    mk_snap "75192-1" 1365 130;
    mk_snap "75192-1" 1370 125 ]%string.

(** A second set, without any observation. *)
Definition castle : BuildTrainingData.SetRow :=
  {| BuildTrainingData.set_number := "10305-1";
     BuildTrainingData.set_exit_date := 1200;
     BuildTrainingData.uk_retail_price := 350 |}.

(** Ten training rows whose 1yr targets are 0, 1, ..., 9. *)
Definition mk_training (i : nat) : BuildTrainingData.TrainingRow :=
  {| BuildTrainingData.set_num := "set";
     BuildTrainingData.exit_date := Z.of_nat i;
     BuildTrainingData.rrp_gbp := 10;
     BuildTrainingData.price_at_retirement := None;
     BuildTrainingData.price_6m := None;
     BuildTrainingData.price_1yr := None;
     BuildTrainingData.price_2yr := None;
     BuildTrainingData.price_3yr := None;
     BuildTrainingData.target_6m := None;
     BuildTrainingData.target_1yr := Some (inject_Z (Z.of_nat i));
     BuildTrainingData.target_2yr := None;
     BuildTrainingData.target_3yr := None;
     BuildTrainingData.data_quality := BuildTrainingData.partial;
     BuildTrainingData.snapshot_count := 3 |}.

Definition ramp : list BuildTrainingData.TrainingRow := map mk_training (seq 0 10).

(** A retired City set with prices 100, 110, 120 on days 10, 20 and 30
    after its retirement, as the feature builder and as the scorer read
    them. *)
Definition riser : EngineerFeatures.Row := mk_row "60005-1" "City" 1000 None.

Definition riser_snaps : list EngineerFeatures.Snapshot :=
  [ {| EngineerFeatures.snap_set_num := "60005-1";
       EngineerFeatures.date := 1010; EngineerFeatures.price_gbp := 100 |};
    {| EngineerFeatures.snap_set_num := "60005-1";
       EngineerFeatures.date := 1020; EngineerFeatures.price_gbp := 110 |};
    {| EngineerFeatures.snap_set_num := "60005-1";
       EngineerFeatures.date := 1030; EngineerFeatures.price_gbp := 120 |} ]%string.

Definition riser_live_snaps : list ScoreSets.Snapshot :=
  [ {| ScoreSets.snap_set_num := "60005-1";
       ScoreSets.date := 1010; ScoreSets.price_gbp := Some 100 |};
    {| ScoreSets.snap_set_num := "60005-1";
       ScoreSets.date := 1020; ScoreSets.price_gbp := Some 110 |};
    {| ScoreSets.snap_set_num := "60005-1";
       ScoreSets.date := 1030; ScoreSets.price_gbp := Some 120 |} ]%string.

(** One live set scored by 1yr models that predict the log returns 0,
    1/10 and 1/2 at p25, p50 and p75. *)
Definition icon : ScoreSets.SetRow :=
  {| ScoreSets.set_number := "10316-1";
     ScoreSets.uk_retail_price := Some 100;
     ScoreSets.pieces := Some 500%Z;
     ScoreSets.theme := Some "Icons"%string |}.

Definition batch : list (ScoreSets.SetRow * FeatRow) := [(icon, [])].




(** Forty sets retired in 2018 and ten in 2020, all with a 1yr target,
    and a learner that predicts its quantile level. *)
Definition val_row (year : Z) (y : Q) : ValidateModel.Row :=
  {| ValidateModel.retirement_year := year;
     ValidateModel.target := Some y;
     ValidateModel.feats := [] |}.

Definition history : list ValidateModel.Row :=
  map (fun i => val_row 2018 (inject_Z (Z.of_nat i) / 40)) (seq 0 40)
  ++ map (fun i => val_row 2020 (inject_Z (Z.of_nat i) / 10)) (seq 0 10).

Definition level_learner : ValidateModel.Learner :=
  {| ValidateModel.fit_predict := fun _ alpha _ => alpha |}.


(** The four City sets in another order: the latest one first. *)
Definition shuffled_frame : list EngineerFeatures.Row :=
  [ mk_row "60004-1" "City" 400 (Some (4 # 10));
    mk_row "60001-1" "City" 100 (Some (1 # 10));
    mk_row "60002-1" "City" 200 (Some (2 # 10));
    mk_row "60003-1" "City" 300 (Some (3 # 10)) ]%string.

(** Two scored records, the second at least as good on each of the four
    inputs of the composite. *)
Definition scored (a c p r : Q) : ScoreSets.Pred :=
  ScoreSets.pset ScoreSets.k_risk_adjusted_score (ScoreSets.VNum r)
    (ScoreSets.pset ScoreSets.k_expected_profit_1yr_gbp (ScoreSets.VNum p)
       (ScoreSets.pset (ScoreSets.k_confidence H1yr) (ScoreSets.VNum c)
          (ScoreSets.pset (ScoreSets.k_predicted_appreciation H1yr) (ScoreSets.VNum a)
             ScoreSets.empty_pred))).

Definition two_preds : list ScoreSets.Pred :=
  [scored 1 (1 # 2) 1 (1 # 2); scored 2 (1 # 2) 2 1].

(** Forty rows retired in 2018, ten in 2019 and five in 2024, all with
    the target, and a tuner whose study value is the number of
    validation rows. *)
Definition fit_row (year : Z) : Trainer.Row :=
  {| Trainer.retirement_year := year;
     Trainer.target := Some 0;
     Trainer.x := [] |}.

Definition fit_history : list Trainer.Row :=
  repeat (fit_row 2018) 40 ++ repeat (fit_row 2019) 10 ++ repeat (fit_row 2024) 5.

Definition count_tuner : Trainer.Tuner :=
  {| Trainer.Params := nat;
     Trainer.optimize := fun train vals _ => (lenQ vals, length train);
     Trainer.fit := fun _ _ alpha _ => (fun _ => alpha) |}.

(** Forty rows retired in 2018 and fifteen in 2020 for the backtest, and
    a learner that predicts the row's target shifted by a tenth of the
    quantile level. *)
Definition test_row (year : Z) (y : Q) : ValidateModel.TestRow :=
  {| ValidateModel.row := val_row year y;
     ValidateModel.rrp_gbp := Some 50 |}.

Definition backtest_history : list ValidateModel.TestRow :=
  map (fun i => test_row 2018 (inject_Z (Z.of_nat i) / 40)) (seq 0 40)
  ++ map (fun i => test_row 2020 (inject_Z (Z.of_nat i) / 15)) (seq 0 15).

Definition target_learner : ValidateModel.FoldLearner :=
  {| ValidateModel.predict_in := fun _ alpha _ r =>
       alpha / 10 + match ValidateModel.target r with Some t => t | None => 0 end |}.

Definition first_fold : Fold := {| train_end := 2018; val := 2019; test := 2020 |}.

(** A City set that retires after every set of [city_frame]. *)
Definition newcomer : EngineerFeatures.Row := mk_row "60009-1" "City" 500 None.

End Examples.

(** * Properties *)

(** ** Sorting and re-indexing *)

Lemma sort_by_sorted (A : Type) (leb : A -> A -> bool) (l : list A) :
  Sorted (fun a b => leb a b = true) l -> sort_by leb l = l.
Proof.
  induction 1 as [|x t Ht IH Hd]; simpl; [reflexivity|].
  rewrite IH. destruct Hd as [|y t' Hxy]; simpl; [reflexivity|].
  now rewrite Hxy.
Qed.

Lemma map_nth_seq (A : Type) (d : A) (l : list A) :
  map (fun i => nth i l d) (seq 0 (length l)) = l.
Proof.
  induction l as [|x t IH]; simpl; [reflexivity|].
  f_equal. rewrite <- seq_shift, map_map. exact IH.
Qed.

Section ThemeFeatures.

Import EngineerFeatures Spec.
Context `{FloatLib}.

Lemma reindex_range (fs : list ThemeFeatures) (n : nat) :
  n = length fs -> reindex (seq 0 n) fs = fs.
Proof. intros ->. apply map_nth_seq. Qed.

(** On a frame in date order the sort changes nothing and the positional
    re-indexing puts every row's features back on that row. *)
Lemma theme_features_in_order (df : list Row) (h : Horizon) :
  in_exit_order df ->
  compute_theme_historical_features df h = map (theme_row df h) df.
Proof.
  intros Hs. unfold compute_theme_historical_features, sort_values.
  rewrite (sort_by_sorted _ Hs).
  apply reindex_range. now rewrite length_map.
Qed.

Lemma null_theme_no_contributors (df : list Row) (h : Horizon) (X : Row) :
  theme X = None -> contributors df h X = [].
Proof.
  intros Ht. unfold contributors.
  induction df as [|r t IH]; simpl; [reflexivity|].
  unfold same_theme at 1. rewrite Ht.
  destruct (theme r); simpl; exact IH.
Qed.

Lemma prior_is_contributors (df : list Row) (h : Horizon) (X : Row) (t : string) :
  theme X = Some t -> prior_of df h t (exit_date X) = contributors df h X.
Proof.
  intros Ht. unfold prior_of, contributors. apply filter_ext.
  intros r. unfold theme_is, same_theme. now rewrite Ht.
Qed.

(** The loop body computes the summary of the contributors. *)
Lemma theme_row_summarise (df : list Row) (h : Horizon) (X : Row) :
  theme_row df h X = summarise h (contributors df h X).
Proof.
  unfold theme_row. destruct (theme X) as [t|] eqn:Ht.
  - rewrite (prior_is_contributors df h X Ht). unfold summarise.
    destruct (3 <=? length (contributors df h X))%nat; reflexivity.
  - rewrite (null_theme_no_contributors df h X Ht). reflexivity.
Qed.

Lemma theme_features_at (df : list Row) (h : Horizon) (i : nat) (X : Row) :
  in_exit_order df ->
  nth_error df i = Some X ->
  nth_error (compute_theme_historical_features df h) i
  = Some (summarise h (contributors df h X)).
Proof.
  intros Hs Hi. rewrite (theme_features_in_order h Hs).
  rewrite (map_nth_error _ _ _ Hi). now rewrite theme_row_summarise.
Qed.

Lemma contributor_earlier (df : list Row) (h : Horizon) (X r : Row) :
  In r (contributors df h X) ->
  In r df /\ theme r = theme X /\ (exit_date r < exit_date X)%Z
  /\ target_of h r <> None.
Proof.
  unfold contributors. rewrite filter_In.
  intros [Hin Hb]. apply andb_true_iff in Hb as [Hb Hn].
  apply andb_true_iff in Hb as [Hth Hlt].
  split; [exact Hin|]. split; [|split].
  - unfold same_theme in Hth.
    destruct (theme r) as [a|], (theme X) as [b|]; try discriminate.
    apply String.eqb_eq in Hth. now subst.
  - now apply Z.ltb_lt.
  - destruct (target_of h r); [discriminate|discriminate Hn].
Qed.

(** On a frame in exit_date order, the four theme-historical features
    stored at the position of a row X are the mean, median, standard
    deviation and count of the targets of the contributors of X: rows of
    the frame with X's theme, a known target and an exit_date strictly
    before X's.  No row whose exit_date is on or after X's is among
    them. *)
Lemma theme_features_ordered_frame (df : list Row) (h : Horizon) (i : nat) (X : Row) :
  in_exit_order df ->
  nth_error df i = Some X ->
  nth_error (compute_theme_historical_features df h) i
  = Some (summarise h (contributors df h X))
  /\ Forall (fun r => In r df /\ theme r = theme X
                      /\ (exit_date r < exit_date X)%Z)
            (contributors df h X)
  /\ (forall r, (exit_date X <= exit_date r)%Z -> ~ In r (contributors df h X)).
Proof.
  intros Hs Hi. split; [now apply theme_features_at|]. split.
  - apply Forall_forall. intros r Hr.
    destruct (contributor_earlier _ _ _ _ Hr) as (H1 & H2 & H3 & _). auto.
  - intros r Hge Hr.
    destruct (contributor_earlier _ _ _ _ Hr) as (_ & _ & H3 & _). lia.
Qed.


End ThemeFeatures.


(** C1 fails on a frame that is not in exit_date order.  The features
    are computed per row of the sorted copy and written back by position,
    so the City set retired on day 300, fourth in the frame, receives
    the features computed for the fourth row of the sorted copy, the set
    retired on day 400.  Its contributors are the two sets retired on
    days 100 and 200, yet its stored features are the mean, median,
    standard deviation and count over three targets, its own among
    them. *)
Theorem theme_features_misplaced_on_unordered_frame :
  let A := Examples.mk_row "60001-1" "City" 100 (Some (1 # 10)) in
  let B := Examples.mk_row "60002-1" "City" 200 (Some (2 # 10)) in
  let X := Examples.mk_row "60003-1" "City" 300 (Some (3 # 10)) in
  nth_error Examples.shuffled_frame 3 = Some X
  /\ Spec.contributors Examples.shuffled_frame H1yr X = [A; B]
  /\ nth_error (EngineerFeatures.compute_theme_historical_features
                  Examples.shuffled_frame H1yr) 3
     = Some (Spec.summarise H1yr [A; B; X])
  /\ Spec.summarise H1yr [A; B; X] <> Spec.summarise H1yr [A; B]
  /\ EngineerFeatures.theme_sample_size (Spec.summarise H1yr [A; B; X]) = Some 3.
Proof.
  repeat split; try (vm_compute; reflexivity).
  vm_compute. discriminate.
Qed.



(** ** The insertion sort *)

Lemma length_insert_by (A : Type) (leb : A -> A -> bool) (x : A) (l : list A) :
  length (insert_by leb x l) = S (length l).
Proof.
  induction l as [|y t IH]; simpl; [reflexivity|].
  destruct (leb x y); simpl; [reflexivity|now rewrite IH].
Qed.

Lemma length_sort_by (A : Type) (leb : A -> A -> bool) (l : list A) :
  length (sort_by leb l) = length l.
Proof.
  induction l as [|x t IH]; simpl; [reflexivity|].
  now rewrite length_insert_by, IH.
Qed.

Lemma median_defined (l : list Q) :
  l <> [] -> exists p, median l = Some p.
Proof.
  intros Hl. unfold median, sortQ. rewrite length_sort_by.
  destruct l as [|x t]; [contradiction|].
  cbn [length]. destruct (Nat.even (S (length t))); eauto.
Qed.

(** ** The Milestone Aggregator *)

Section Milestones.

Import BuildTrainingData.
Context `{FloatLib}.

Lemma window_snaps_qualifying (row : SetRow) (m : Milestone) (snapshots_df : list Snapshot) :
  window_snaps (set_exit_date row) m (snaps_of (set_number row) snapshots_df)
  = Spec.qualifying (set_exit_date row) m (set_number row) snapshots_df.
Proof.
  unfold window_snaps, snaps_of, Spec.qualifying.
  assert (E : MILESTONES m = (Spec.centre m, Spec.half_width m))
    by (destruct m as [|[]]; reflexivity).
  rewrite E.
  replace (set_exit_date row + (Spec.centre m - Spec.half_width m))%Z
    with (set_exit_date row + Spec.centre m - Spec.half_width m)%Z by lia.
  replace (set_exit_date row + (Spec.centre m + Spec.half_width m))%Z
    with (set_exit_date row + Spec.centre m + Spec.half_width m)%Z by lia.
  induction snapshots_df as [|s t IH]; simpl; [reflexivity|].
  destruct (String.eqb (snap_set_num s) (set_number row)); simpl; [|exact IH].
  destruct (_ && _); [f_equal|]; exact IH.
Qed.

Lemma milestone_row_fields (row : SetRow) (snapshots_df : list Snapshot) (r : TrainingRow) :
  milestone_row row snapshots_df = Some r ->
  set_num r = set_number row
  /\ exit_date r = set_exit_date row
  /\ rrp_gbp r = uk_retail_price row
  /\ snapshot_count r = length (snaps_of (set_number row) snapshots_df)
  /\ snaps_of (set_number row) snapshots_df <> []
  /\ (forall m, price_of m r
                = milestone_price (set_exit_date row) m
                    (snaps_of (set_number row) snapshots_df))
  /\ (forall h, target_of h r = log_target (price_of (After h) r) (uk_retail_price row)).
Proof.
  unfold milestone_row.
  destruct (snaps_of (set_number row) snapshots_df) as [|s t] eqn:E; [discriminate|].
  intros [= <-]. cbn.
  repeat split; try discriminate.
  - intros [|[]]; reflexivity.
  - intros []; reflexivity.
Qed.

(** C2. For each milestone the configured window is the closed interval
    of days [exit + centre - half_width, exit + centre + half_width] with
    centres 0, 180, 365, 730, 1095 and half-widths 15, 30, 30, 30, 30; the
    milestone price of a produced row is the median of the observations
    in the window when at least 3 qualify and null otherwise; each
    forward target is log(price / rrp) when the milestone price is
    defined and price and rrp are positive, and null otherwise; with
    observations at days -10, +5 and +20 around the retirement date
    exactly the first two qualify for the +-15 window and the
    retirement milestone is null. *)
Theorem milestone_prices_and_targets :
  (forall (row : SetRow) (snapshots_df : list Snapshot) (r : TrainingRow) (m : Milestone),
      milestone_row row snapshots_df = Some r ->
      let q := Spec.qualifying (set_exit_date row) m (set_number row) snapshots_df in
      ((3 <= length q)%nat ->
       exists p, median (map price_gbp q) = Some p /\ price_of m r = Some p)
      /\ ((length q < 3)%nat -> price_of m r = None))
  /\ (forall (row : SetRow) (snapshots_df : list Snapshot) (r : TrainingRow) (h : Horizon),
         milestone_row row snapshots_df = Some r ->
         match price_of (After h) r with
         | Some p =>
           (0 < p /\ 0 < rrp_gbp r -> target_of h r = Some (math_log (p / rrp_gbp r)))
           /\ (~ (0 < p /\ 0 < rrp_gbp r) -> target_of h r = None)
         | None => target_of h r = None
         end)
  /\ (forall (n : string) (e : Z) (rrp p1 p2 p3 : Q),
         let snap := fun d p =>
           {| snap_set_num := n; date := (e + d)%Z; price_gbp := p;
              seller_count := None; buy_box_winner := None |} in
         let snapshots_df := [snap (-10)%Z p1; snap 5%Z p2; snap 20%Z p3] in
         let row := {| set_number := n; set_exit_date := e; uk_retail_price := rrp |} in
         Spec.qualifying e Retirement n snapshots_df = [snap (-10)%Z p1; snap 5%Z p2]
         /\ exists r, milestone_row row snapshots_df = Some r
                      /\ price_at_retirement r = None).
Proof.
  split; [|split].
  - intros row snapshots_df r m Hr q.
    destruct (milestone_row_fields _ _ Hr) as (_ & _ & _ & _ & _ & Hp & _).
    rewrite Hp. unfold milestone_price. rewrite window_snaps_qualifying.
    fold q. unfold MIN_SNAPSHOTS_PER_WINDOW. split; intros Hq.
    + destruct (Nat.leb_spec 3 (length q)); [|lia].
      destruct (@median_defined (map price_gbp q)) as [p Hm].
      * destruct q; [simpl in Hq; lia|discriminate].
      * exists p. now rewrite Hm.
    + destruct (Nat.leb_spec 3 (length q)); [lia|reflexivity].
  - intros row snapshots_df r h Hr.
    destruct (milestone_row_fields _ _ Hr) as (_ & _ & Hrrp & _ & _ & _ & Ht).
    rewrite Ht, Hrrp. unfold log_target.
    destruct (price_of (After h) r) as [p|]; [|reflexivity].
    unfold Qltb. split.
    + intros [Hp Hq].
      destruct (Qle_bool p 0) eqn:E1; [apply Qle_bool_iff in E1; lra|].
      destruct (Qle_bool (uk_retail_price row) 0) eqn:E2;
        [apply Qle_bool_iff in E2; lra|reflexivity].
    + intros Hn.
      destruct (Qle_bool p 0) eqn:E1; [reflexivity|].
      destruct (Qle_bool (uk_retail_price row) 0) eqn:E2; [reflexivity|].
      exfalso. apply Hn. split.
      * apply Qnot_le_lt. intros Hle. apply Qle_bool_iff in Hle. congruence.
      * apply Qnot_le_lt. intros Hle. apply Qle_bool_iff in Hle. congruence.
  - intros n e rrp p1 p2 p3 snap snapshots_df row.
    assert (Hq : Spec.qualifying e Retirement n snapshots_df
                 = [snap (-10)%Z p1; snap 5%Z p2]).
    { unfold Spec.qualifying, snapshots_df, snap. cbn [filter snap_set_num date].
      rewrite String.eqb_refl. cbn [Spec.centre Spec.half_width andb].
      replace (e + 0 - 15 <=? e + -10)%Z with true by (symmetry; apply Z.leb_le; lia).
      replace (e + -10 <=? e + 0 + 15)%Z with true by (symmetry; apply Z.leb_le; lia).
      replace (e + 0 - 15 <=? e + 5)%Z with true by (symmetry; apply Z.leb_le; lia).
      replace (e + 5 <=? e + 0 + 15)%Z with true by (symmetry; apply Z.leb_le; lia).
      replace (e + 20 <=? e + 0 + 15)%Z with false by (symmetry; apply Z.leb_gt; lia).
      rewrite andb_false_r. reflexivity. }
    split; [exact Hq|].
    destruct (milestone_row row snapshots_df) as [r|] eqn:Hr.
    + exists r. split; [reflexivity|].
      destruct (milestone_row_fields _ _ Hr) as (_ & _ & _ & _ & _ & Hp & _).
      specialize (Hp Retirement). cbn [price_of] in Hp. rewrite Hp.
      unfold milestone_price.
      change e with (set_exit_date row). change n with (set_number row).
      rewrite window_snaps_qualifying. cbn [set_exit_date set_number row].
      rewrite Hq. reflexivity.
    + exfalso. unfold milestone_row, snaps_of, snapshots_df, snap, row in Hr.
      cbn [filter snap_set_num set_number] in Hr.
      rewrite String.eqb_refl in Hr. discriminate Hr.
Qed.

End Milestones.

Lemma milestone_prices_and_targets_witness :
  exists r,
    BuildTrainingData.milestone_row Examples.falcon Examples.falcon_snaps = Some r
    /\ (3 <= length (Spec.qualifying 1000 (After H1yr) "75192-1"
                        Examples.falcon_snaps))%nat
    /\ exists p,
         median (map BuildTrainingData.price_gbp
                     (Spec.qualifying 1000 (After H1yr) "75192-1"
                        Examples.falcon_snaps)) = Some p
         /\ BuildTrainingData.price_of (After H1yr) r = Some p.
Proof.
  destruct (BuildTrainingData.milestone_row Examples.falcon Examples.falcon_snaps)
    as [r|] eqn:E; [|vm_compute in E; discriminate E].
  exists r. split; [reflexivity|]. split; [vm_compute; lia|].
  apply (proj1 (@milestone_prices_and_targets approx_float)
           Examples.falcon Examples.falcon_snaps r (After H1yr) E).
  vm_compute. lia.
Defined.

(** ** Sets without observations *)

Section NoObservations.

Import BuildTrainingData.
Context `{FloatLib}.

Lemma fold_left_append (A B : Type) (f : A -> option B) (l : list A) (acc : list B) :
  fold_left (fun results x => match f x with
                              | None => results
                              | Some r => results ++ [r]
                              end) l acc
  = acc ++ flat_map (fun x => match f x with Some r => [r] | None => [] end) l.
Proof.
  revert acc. induction l as [|x t IH]; intros acc; simpl.
  - now rewrite app_nil_r.
  - rewrite IH. destruct (f x); simpl; [now rewrite <- app_assoc|reflexivity].
Qed.

Lemma compute_milestone_prices_In (sets_df : list SetRow) (snapshots_df : list Snapshot)
  (r : TrainingRow) :
  In r (compute_milestone_prices sets_df snapshots_df) ->
  exists row, In row sets_df /\ milestone_row row snapshots_df = Some r.
Proof.
  unfold compute_milestone_prices. rewrite fold_left_append. simpl.
  rewrite in_flat_map. intros (row & Hin & Hr). exists row. split; [exact Hin|].
  destruct (milestone_row row snapshots_df) as [r'|]; simpl in Hr; [|contradiction].
  destruct Hr as [->|[]]. reflexivity.
Qed.

Lemma snaps_of_nonempty (n : string) (snapshots_df : list Snapshot) :
  snaps_of n snapshots_df <> [] ->
  exists x, In x snapshots_df /\ snap_set_num x = n.
Proof.
  unfold snaps_of. intros Hne.
  destruct (filter _ snapshots_df) as [|x t] eqn:E; [contradiction|].
  assert (Hx : In x (filter (fun s => String.eqb (snap_set_num s) n) snapshots_df))
    by (rewrite E; now left).
  apply filter_In in Hx as [Hin Heq]. apply String.eqb_eq in Heq. eauto.
Qed.

(** Every produced row belongs to a set with at least one observation. *)
Lemma produced_row_has_snapshot (sets_df : list SetRow) (snapshots_df : list Snapshot)
  (r : TrainingRow) :
  In r (compute_milestone_prices sets_df snapshots_df) ->
  (1 <= snapshot_count r)%nat
  /\ exists x, In x snapshots_df /\ snap_set_num x = set_num r.
Proof.
  intros Hr. destruct (compute_milestone_prices_In _ _ _ Hr) as (row & _ & Hrow).
  destruct (milestone_row_fields _ _ Hrow) as (Hn & _ & _ & Hc & Hne & _).
  rewrite Hn, Hc. split.
  - destruct (snaps_of (set_number row) snapshots_df); [contradiction|simpl; lia].
  - now apply snaps_of_nonempty.
Qed.

Lemma winsorise_col_set_nums (h : Horizon) (df : list TrainingRow) :
  map set_num (winsorise_col h df) = map set_num df.
Proof.
  unfold winsorise_col.
  destruct (length _ <? 10)%nat; [reflexivity|].
  destruct (quantile WINSOR_LOW _); [|reflexivity].
  destruct (quantile WINSOR_HIGH _); [|reflexivity].
  rewrite map_map. reflexivity.
Qed.

Lemma winsorise_targets_set_nums (df : list TrainingRow) :
  map set_num (winsorise_targets df) = map set_num df.
Proof.
  unfold winsorise_targets, HORIZONS. simpl.
  now rewrite !winsorise_col_set_nums.
Qed.

Lemma dedup_subset (seen : list string) (records : list TrainingRow) (r : TrainingRow) :
  In r (dedup seen records) -> In r records.
Proof.
  revert seen. induction records as [|x t IH]; intros seen; simpl; [tauto|].
  destruct (existsb _ seen); simpl.
  - intros Hr. right. eapply IH, Hr.
  - intros [->|Hr]; [now left|right; eapply IH, Hr].
Qed.

Lemma upsert_row_In (r x : TrainingRow) (table : list TrainingRow) :
  In x (upsert_row r table) -> x = r \/ In x table.
Proof.
  induction table as [|y t IH]; simpl.
  - intros [->|[]]. now left.
  - destruct (String.eqb (set_num y) (set_num r)); simpl.
    + intros [->|Hx]; [now left|right; now right].
    + intros [->|Hx]; [right; now left|].
      destruct (IH Hx) as [->|Hin]; [now left|right; now right].
Qed.

Lemma upsert_rows_In (records table : list TrainingRow) (x : TrainingRow) :
  In x (fold_left (fun tbl r => upsert_row r tbl) records table) ->
  In x records \/ In x table.
Proof.
  revert table. induction records as [|r t IH]; intros table; simpl; [tauto|].
  intros Hx. destruct (IH _ Hx) as [Hin|Hin]; [left; now right|].
  destruct (upsert_row_In _ _ _ Hin) as [->|Hin']; [left; now left|now right].
Qed.

Lemma written_rows_In (df table : list TrainingRow) (x : TrainingRow) :
  In x (upsert_training_data df table) ->
  (In x df /\ data_quality x <> insufficient) \/ In x table.
Proof.
  unfold upsert_training_data. intros Hx.
  destruct (upsert_rows_In _ _ _ Hx) as [Hin|Hin]; [left|now right].
  apply dedup_subset in Hin. apply filter_In in Hin as [Hin Hq].
  split; [exact Hin|]. intros E. rewrite E in Hq. discriminate Hq.
Qed.

(** C10. A set without any price observation produces no row in
    [compute_milestone_prices]: it is skipped before the milestones and
    the data quality are computed.  Every produced row, whatever its
    quality tag, has at least one observation.  The build writes no row
    for such a set into the stored training table: a row for it found
    there afterwards was there before. *)
Theorem no_observation_no_training_row (sets_df : list SetRow)
  (snapshots_df : list Snapshot) (table : list TrainingRow) (s : string) :
  (forall x, In x snapshots_df -> snap_set_num x <> s) ->
  (forall row, In row sets_df -> set_number row = s ->
               milestone_row row snapshots_df = None)
  /\ (forall r, In r (compute_milestone_prices sets_df snapshots_df) ->
                set_num r <> s)
  /\ (forall r, In r (compute_milestone_prices sets_df snapshots_df) ->
                data_quality r = insufficient ->
                (1 <= snapshot_count r)%nat
                /\ exists x, In x snapshots_df /\ snap_set_num x = set_num r)
  /\ (forall r, In r (run sets_df snapshots_df table) -> set_num r = s -> In r table).
Proof.
  intros Hs.
  assert (Hno : forall r, In r (compute_milestone_prices sets_df snapshots_df) ->
                          set_num r <> s).
  { intros r Hr E. destruct (produced_row_has_snapshot _ _ _ Hr) as (_ & x & Hx & Hn).
    apply (Hs x Hx). congruence. }
  split; [|split; [exact Hno|split]].
  - intros row _ Hn. unfold milestone_row.
    destruct (snaps_of (set_number row) snapshots_df) as [|x t] eqn:E; [reflexivity|].
    exfalso. destruct (@snaps_of_nonempty (set_number row) snapshots_df) as (y & Hy & Hyn).
    + rewrite E. discriminate.
    + apply (Hs y Hy). congruence.
  - intros r Hr _. exact (produced_row_has_snapshot _ _ _ Hr).
  - intros r Hr Hn. unfold run in Hr.
    destruct sets_df as [|s0 st]; [exact Hr|].
    destruct snapshots_df as [|x0 xt]; [exact Hr|].
    destruct (written_rows_In _ _ _ Hr) as [[Hin _]|Hin]; [|exact Hin].
    exfalso.
    assert (Hm : In (set_num r) (map set_num (winsorise_targets
                  (compute_milestone_prices (s0 :: st) (x0 :: xt)))))
      by (apply in_map, Hin).
    rewrite winsorise_targets_set_nums in Hm.
    apply in_map_iff in Hm as (r' & Hr' & Hin').
    apply (Hno r' Hin'). congruence.
Qed.

End NoObservations.

Lemma no_observation_no_training_row_witness :
  (forall x, In x Examples.falcon_snaps ->
             BuildTrainingData.snap_set_num x <> "10305-1"%string)
  /\ BuildTrainingData.milestone_row Examples.castle Examples.falcon_snaps = None.
Proof.
  assert (Hs : forall x, In x Examples.falcon_snaps ->
                         BuildTrainingData.snap_set_num x <> "10305-1"%string).
  { simpl. intros x [<-|[<-|[<-|[]]]]; discriminate. }
  split; [exact Hs|].
  apply (proj1 (@no_observation_no_training_row approx_float
                  [Examples.falcon; Examples.castle] Examples.falcon_snaps []
                  "10305-1"%string Hs) Examples.castle).
  - simpl. right. left. reflexivity.
  - reflexivity.
Defined.

(** ** Order statistics *)

Lemma insert_by_hd (x a : Q) (l : list Q) :
  HdRel Qle a l -> a <= x -> HdRel Qle a (insert_by Qle_bool x l).
Proof.
  intros Hl Hax. destruct l as [|y t]; simpl; [now constructor|].
  destruct (Qle_bool x y); constructor; [exact Hax|].
  now inversion Hl.
Qed.

Lemma insert_by_sorted (x : Q) (l : list Q) :
  Sorted Qle l -> Sorted Qle (insert_by Qle_bool x l).
Proof.
  induction 1 as [|y t Ht IH Hd]; simpl.
  - repeat constructor.
  - destruct (Qle_bool x y) eqn:E.
    + apply Qle_bool_iff in E. repeat constructor; assumption.
    + constructor; [exact IH|]. apply insert_by_hd; [exact Hd|].
      apply Qlt_le_weak, Qnot_le_lt. intros Hle.
      apply Qle_bool_iff in Hle. congruence.
Qed.

Lemma sortQ_sorted (l : list Q) : StronglySorted Qle (sortQ l).
Proof.
  apply Sorted_StronglySorted.
  - intros a b c. apply Qle_trans.
  - unfold sortQ. induction l as [|x t IH]; simpl; [constructor|].
    now apply insert_by_sorted.
Qed.

Lemma sorted_nth_le (s : list Q) (d : Q) :
  StronglySorted Qle s ->
  forall i j, (i <= j)%nat -> (j < length s)%nat -> nth i s d <= nth j s d.
Proof.
  induction 1 as [|x t Ht IH Hall]; intros i j Hij Hj; simpl in Hj; [lia|].
  destruct i as [|i], j as [|j]; simpl; try lia.
  - apply Qle_refl.
  - rewrite Forall_forall in Hall. apply Hall, nth_In. lia.
  - apply IH; lia.
Qed.

Lemma quantile_lerp (q : Q) (l : list Q) :
  l <> [] -> quantile q l = Some (Spec.lerp_at (sortQ l) (q * (lenQ (sortQ l) - 1))).
Proof.
  intros Hl. unfold quantile.
  destruct (sortQ l) as [|x t] eqn:E; [|reflexivity].
  exfalso. apply Hl. apply length_zero_iff_nil.
  unfold sortQ in E. rewrite <- (length_sort_by Qle_bool l), E. reflexivity.
Qed.

Lemma frac_bounds (pos : Q) : 0 <= pos - inject_Z (Qfloor pos) /\ pos - inject_Z (Qfloor pos) < 1.
Proof.
  pose proof (Qfloor_le pos). pose proof (Qlt_floor pos).
  rewrite inject_Z_plus in H0. change (inject_Z 1) with 1 in H0. split; lra.
Qed.

Lemma next_ge (s : list Q) (k : nat) :
  StronglySorted Qle s -> (k < length s)%nat ->
  nth k s 0 <= nth (k + 1) s (nth k s 0).
Proof.
  intros Hs Hk. destruct (Nat.lt_ge_cases (k + 1) (length s)) as [Hlt|Hge].
  - rewrite (nth_indep s (nth k s 0) 0 Hlt). apply sorted_nth_le; [exact Hs|lia|exact Hlt].
  - rewrite (nth_overflow _ _ Hge). apply Qle_refl.
Qed.

Lemma lerp_between (s : list Q) (pos : Q) :
  StronglySorted Qle s -> (Z.to_nat (Qfloor pos) < length s)%nat ->
  nth (Z.to_nat (Qfloor pos)) s 0 <= Spec.lerp_at s pos
  /\ Spec.lerp_at s pos <= nth (Z.to_nat (Qfloor pos) + 1) s (nth (Z.to_nat (Qfloor pos)) s 0).
Proof.
  intros Hs Hk. unfold Spec.lerp_at. cbv zeta.
  pose proof (next_ge Hs Hk) as Hab. destruct (frac_bounds pos) as [Hf0 Hf1].
  set (a := nth (Z.to_nat (Qfloor pos)) s 0) in *.
  set (b := nth (Z.to_nat (Qfloor pos) + 1) s a) in *.
  set (f := pos - inject_Z (Qfloor pos)) in *.
  split; nra.
Qed.

Lemma lerp_monotone (s : list Q) (pos1 pos2 : Q) :
  StronglySorted Qle s ->
  0 <= pos1 -> pos1 <= pos2 -> (Z.to_nat (Qfloor pos2) < length s)%nat ->
  Spec.lerp_at s pos1 <= Spec.lerp_at s pos2.
Proof.
  intros Hs H0 H12 Hk2.
  assert (Hf1 : (0 <= Qfloor pos1)%Z).
  { change 0%Z with (Qfloor 0). now apply Qfloor_resp_le. }
  assert (Hf12 : (Qfloor pos1 <= Qfloor pos2)%Z) by now apply Qfloor_resp_le.
  assert (Hk1 : (Z.to_nat (Qfloor pos1) < length s)%nat) by lia.
  destruct (Z.eq_dec (Qfloor pos1) (Qfloor pos2)) as [E|NE].
  - unfold Spec.lerp_at. cbv zeta. rewrite E.
    pose proof (next_ge Hs Hk2) as Hab.
    set (a := nth (Z.to_nat (Qfloor pos2)) s 0) in *.
    set (b := nth (Z.to_nat (Qfloor pos2) + 1) s a) in *.
    nra.
  - destruct (lerp_between pos1 Hs Hk1) as [_ Hup].
    destruct (lerp_between pos2 Hs Hk2) as [Hlo _].
    eapply Qle_trans; [exact Hup|]. eapply Qle_trans; [|exact Hlo].
    assert (Hlt : (Z.to_nat (Qfloor pos1) + 1 < length s)%nat) by lia.
    rewrite (nth_indep s _ 0 Hlt).
    apply sorted_nth_le; [exact Hs|lia|exact Hk2].
Qed.

Lemma floor_in_range (q : Q) (n : nat) :
  0 <= q -> q <= 1 -> (0 < n)%nat ->
  (Z.to_nat (Qfloor (q * (inject_Z (Z.of_nat n) - 1))) < n)%nat.
Proof.
  intros Hq0 Hq1 Hn.
  assert (Hle : q * (inject_Z (Z.of_nat n) - 1) <= inject_Z (Z.of_nat n - 1)).
  { replace (Z.of_nat n - 1)%Z with (Z.of_nat n + -1)%Z by lia.
    rewrite inject_Z_plus. change (inject_Z (-1)) with (- (1)).
    assert (0 <= inject_Z (Z.of_nat n) - 1).
    { assert (inject_Z 1 <= inject_Z (Z.of_nat n)) by (rewrite <- Zle_Qle; lia).
      change (inject_Z 1) with 1 in H. lra. }
    nra. }
  apply Qfloor_resp_le in Hle. rewrite Qfloor_Z in Hle.
  assert (H0 : (0 <= Qfloor (q * (inject_Z (Z.of_nat n) - 1)))%Z).
  { change 0%Z with (Qfloor 0). apply Qfloor_resp_le.
    assert (inject_Z 1 <= inject_Z (Z.of_nat n)) by (rewrite <- Zle_Qle; lia).
    change (inject_Z 1) with 1 in H. nra. }
  lia.
Qed.

(** Quantiles of one column are ordered like their levels. *)
Lemma quantile_monotone (q1 q2 a b : Q) (l : list Q) :
  0 <= q1 -> q1 <= q2 -> q2 <= 1 ->
  quantile q1 l = Some a -> quantile q2 l = Some b -> a <= b.
Proof.
  intros H0 H12 H1 Ha Hb.
  destruct l as [|x t]; [discriminate Ha|].
  rewrite quantile_lerp in Ha, Hb by discriminate.
  injection Ha as <-. injection Hb as <-.
  assert (Hn : (0 < length (sortQ (x :: t)))%nat).
  { unfold sortQ. rewrite length_sort_by. simpl. lia. }
  assert (Hpos : 0 <= lenQ (sortQ (x :: t)) - 1).
  { unfold lenQ.
    assert (inject_Z 1 <= inject_Z (Z.of_nat (length (sortQ (x :: t)))))
      by (rewrite <- Zle_Qle; lia).
    change (inject_Z 1) with 1 in H. lra. }
  apply lerp_monotone.
  - apply sortQ_sorted.
  - nra.
  - nra.
  - apply floor_in_range; [lra|exact H1|exact Hn].
Qed.

(** ** Winsorisation *)

Section Winsorisation.

Import BuildTrainingData.

Lemma target_set_same (h : Horizon) (v : option Q) (r : TrainingRow) :
  target_of h (set_target h v r) = v.
Proof. destruct h; reflexivity. Qed.

Lemma target_set_other (h h' : Horizon) (v : option Q) (r : TrainingRow) :
  h' <> h -> target_of h' (set_target h v r) = target_of h' r.
Proof. destruct h, h'; intros Hn; try reflexivity; contradiction. Qed.

Lemma winsorise_col_column (h : Horizon) (df : list TrainingRow) :
  map (target_of h) (winsorise_col h df) = Spec.winsorise_column (map (target_of h) df).
Proof.
  unfold winsorise_col, Spec.winsorise_column, WINSOR_LOW, WINSOR_HIGH.
  destruct (length _ <? 10)%nat; [reflexivity|].
  destruct (quantile (2 # 100) _); [|reflexivity].
  destruct (quantile (98 # 100) _); [|reflexivity].
  rewrite !map_map. apply map_ext. intros r. apply target_set_same.
Qed.

Lemma winsorise_col_other (h h' : Horizon) (df : list TrainingRow) :
  h' <> h -> map (target_of h') (winsorise_col h df) = map (target_of h') df.
Proof.
  intros Hn. unfold winsorise_col.
  destruct (length _ <? 10)%nat; [reflexivity|].
  destruct (quantile WINSOR_LOW _); [|reflexivity].
  destruct (quantile WINSOR_HIGH _); [|reflexivity].
  rewrite map_map. apply map_ext. intros r. now apply target_set_other.
Qed.

(** The pass treats every target column on its own. *)
Lemma winsorise_targets_column (h : Horizon) (df : list TrainingRow) :
  map (target_of h) (winsorise_targets df) = Spec.winsorise_column (map (target_of h) df).
Proof.
  unfold winsorise_targets, HORIZONS. cbn [fold_left].
  destruct h;
    repeat first [ rewrite winsorise_col_column
                 | rewrite winsorise_col_other by discriminate ];
    reflexivity.
Qed.

Lemma clip_bounds (low high x : Q) :
  low <= high -> low <= clip low high x /\ clip low high x <= high.
Proof.
  intros Hlh. unfold clip. split.
  - apply Q.min_glb; [apply Q.le_max_r|exact Hlh].
  - apply Q.le_min_r.
Qed.

Lemma clip_fixed (low high x : Q) :
  low <= x -> x <= high -> clip low high x == x.
Proof.
  intros Hl Hh. unfold clip.
  rewrite (Q.max_l x low Hl). now apply Q.min_l.
Qed.

Lemma clip_idempotent (low high x : Q) :
  clip low high (clip low high x) == clip low high x.
Proof.
  destruct (Qlt_le_dec high low) as [Hlt|Hle].
  - unfold clip.
    assert (E : forall y, Qmin (Qmax y low) high == high).
    { intros y. apply Q.min_r. pose proof (Q.le_max_r y low). lra. }
    now rewrite !E.
  - destruct (clip_bounds x Hle). now apply clip_fixed.
Qed.

(** C7, as amended.  The winsorisation pass treats each target column on
    its own: a column with fewer than 10 non-null values is left as it
    is, and otherwise every non-null value is clipped to the interval
    between the 2nd and the 98th percentile of the column's non-null
    values and ends inside it, nulls staying null.  Clipping a value
    again with the same two bounds changes nothing. *)
Theorem winsorise_targets_clips :
  (forall (df : list TrainingRow) (h : Horizon),
      map (target_of h) (winsorise_targets df)
      = Spec.winsorise_column (map (target_of h) df))
  /\ (forall col : list (option Q),
         (length (dropna col) < 10)%nat -> Spec.winsorise_column col = col)
  /\ (forall col : list (option Q),
         (10 <= length (dropna col))%nat ->
         exists low high,
           quantile (2 # 100) (dropna col) = Some low
           /\ quantile (98 # 100) (dropna col) = Some high
           /\ low <= high
           /\ Spec.winsorise_column col = map (option_map (clip low high)) col
           /\ forall v, In (Some v) (Spec.winsorise_column col) ->
                         low <= v /\ v <= high)
  /\ (forall low high x : Q, clip low high (clip low high x) == clip low high x).
Proof.
  split; [|split; [|split]].
  - intros df h. apply winsorise_targets_column.
  - intros col Hlt. unfold Spec.winsorise_column.
    destruct (Nat.ltb_spec (length (dropna col)) 10); [reflexivity|lia].
  - intros col Hge.
    assert (Hne : dropna col <> []).
    { intros E. rewrite E in Hge. simpl in Hge. lia. }
    exists (Spec.lerp_at (sortQ (dropna col)) ((2 # 100) * (lenQ (sortQ (dropna col)) - 1))).
    exists (Spec.lerp_at (sortQ (dropna col)) ((98 # 100) * (lenQ (sortQ (dropna col)) - 1))).
    pose proof (quantile_lerp (2 # 100) Hne) as Hlo.
    pose proof (quantile_lerp (98 # 100) Hne) as Hhi.
    assert (Hle : Spec.lerp_at (sortQ (dropna col)) ((2 # 100) * (lenQ (sortQ (dropna col)) - 1))
                  <= Spec.lerp_at (sortQ (dropna col))
                       ((98 # 100) * (lenQ (sortQ (dropna col)) - 1))).
    { apply (@quantile_monotone (2 # 100) (98 # 100) _ _ (dropna col));
        [lra|lra|lra|exact Hlo|exact Hhi]. }
    assert (Hw : Spec.winsorise_column col
                 = map (option_map
                          (clip (Spec.lerp_at (sortQ (dropna col))
                                   ((2 # 100) * (lenQ (sortQ (dropna col)) - 1)))
                                (Spec.lerp_at (sortQ (dropna col))
                                   ((98 # 100) * (lenQ (sortQ (dropna col)) - 1)))))
                       col).
    { unfold Spec.winsorise_column.
      destruct (Nat.ltb_spec (length (dropna col)) 10); [lia|].
      now rewrite Hlo, Hhi. }
    repeat split; try assumption.
    + rewrite Hw in H. apply in_map_iff in H as (o & Ho & _).
      destruct o as [x|]; [|discriminate Ho]. injection Ho as <-.
      now apply clip_bounds.
    + rewrite Hw in H. apply in_map_iff in H as (o & Ho & _).
      destruct o as [x|]; [|discriminate Ho]. injection Ho as <-.
      now apply clip_bounds.
  - intros low high x. apply clip_idempotent.
Qed.

End Winsorisation.

Lemma winsorise_targets_clips_witness :
  (length (dropna [Some (1 # 2); None; Some (3 # 2)]) < 10)%nat
  /\ Spec.winsorise_column [Some (1 # 2); None; Some (3 # 2)]
     = [Some (1 # 2); None; Some (3 # 2)].
Proof.
  split; [simpl; lia|].
  apply (proj1 (proj2 winsorise_targets_clips) [Some (1 # 2); None; Some (3 # 2)]).
  simpl. lia.
Defined.

(** C7 as stated fails on idempotence: on ten rows with 1yr targets
    0, 1, ..., 9 the first pass lifts the smallest target to 9/50 and a
    second pass, with percentiles taken from the clipped column, lifts it
    again to 819/2500. *)
Lemma winsorise_twice_differs :
  ~ (forall (df : list BuildTrainingData.TrainingRow) (h : Horizon),
        Spec.same_column
          (map (BuildTrainingData.target_of h)
               (BuildTrainingData.winsorise_targets
                  (BuildTrainingData.winsorise_targets df)))
          (map (BuildTrainingData.target_of h)
               (BuildTrainingData.winsorise_targets df))).
Proof.
  intros Hc. specialize (Hc Examples.ramp H1yr).
  vm_compute in Hc. inversion Hc as [|a b la lb Hab _]; subst.
  vm_compute in Hab. discriminate Hab.
Qed.

(** ** Missing values at training and at scoring time *)

Section MissingValues.

Import TrainModels ScoreSets.
Context `{FloatLib}.



End MissingValues.



(** ** Price momentum and volatility *)

(** C5 fails on the training path.  For a set with prices 100, 110, 120
    on days 10, 20, 30 after retirement, whose mean price is 110, the
    feature builder stores the raw slope 1 (pounds per day) as the 90-day
    momentum and the raw standard deviation 10 as the 180-day volatility;
    normalised by the mean price they would be 1/110 and 1/11.  The
    scorer divides by the mean price on the same three prices, its slope
    being taken against the observation index: it gives 1/11 for both. *)
Theorem training_trajectory_not_normalised :
  oQeq (EngineerFeatures.price_momentum_90d Examples.riser Examples.riser_snaps)
       (Some 1)
  /\ oQeq (EngineerFeatures.price_volatility_180d Examples.riser Examples.riser_snaps)
          (Some 10)
  /\ oQeq (mean (map EngineerFeatures.price_gbp Examples.riser_snaps)) (Some 110)
  /\ oQeq (ScoreSets.active_momentum_90d
             (ScoreSets.group_of "60005-1" Examples.riser_live_snaps))
          (Some (1 # 11))
  /\ oQeq (ScoreSets.active_volatility_180d
             (ScoreSets.group_of "60005-1" Examples.riser_live_snaps))
          (Some (1 # 11)).
Proof.
  repeat split; vm_compute; reflexivity.
Qed.

(** ** Rounding and percentile ranks *)



Lemma filter_disjoint_length (A : Type) (p q : A -> bool) (l : list A) :
  (forall x, p x = true -> q x = false) ->
  (length (filter p l) + length (filter q l) <= length l)%nat.
Proof.
  intros Hd. induction l as [|x t IH]; simpl; [lia|].
  destruct (p x) eqn:Hp; [rewrite (Hd x Hp)|destruct (q x)]; simpl; lia.
Qed.

Lemma dropna_In (A : Type) (x : A) (l : list (option A)) :
  In (Some x) l -> In x (dropna l).
Proof.
  induction l as [|[y|] t IH]; simpl; [tauto| |].
  - intros [[= ->]|Hin]; [now left|right; now apply IH].
  - intros [[=]|Hin]. now apply IH.
Qed.

Lemma filter_In_length (A : Type) (p : A -> bool) (x : A) (l : list A) :
  In x l -> p x = true -> (1 <= length (filter p l))%nat.
Proof.
  intros Hin Hp.
  assert (Hf : In x (filter p l)) by (apply filter_In; auto).
  destruct (filter p l); [contradiction|simpl; lia].
Qed.

(** A percentile rank lies in (0, 1]. *)
Lemma rank_pct_range (col : list (option Q)) (v : Q) :
  In (Some v) (rank_pct col) -> 0 < v /\ v <= 1.
Proof.
  unfold rank_pct. intros Hin. apply in_map_iff in Hin as (o & Ho & Hino).
  destruct o as [x|]; [|discriminate Ho]. injection Ho as <-.
  apply dropna_In in Hino.
  set (vals := dropna col) in *.
  pose proof (@filter_disjoint_length Q (fun y => Qltb y x) (fun y => Qeq_bool y x) vals) as Hd.
  assert (Hsame : (1 <= length (filter (fun y => Qeq_bool y x) vals))%nat).
  { apply (filter_In_length _ x vals Hino). apply Qeq_bool_iff. reflexivity. }
  assert (Hdis : forall y, Qltb y x = true -> Qeq_bool y x = false).
  { intros y Hlt. unfold Qltb in Hlt. apply negb_true_iff in Hlt.
    destruct (Qeq_bool y x) eqn:E; [|reflexivity].
    apply Qeq_bool_iff in E.
    assert (Hle : Qle_bool x y = true) by (apply Qle_bool_iff; rewrite E; apply Qle_refl).
    congruence. }
  specialize (Hd Hdis).
  unfold lenQ.
  set (a := length (filter (fun y => Qltb y x) vals)) in *.
  set (b := length (filter (fun y => Qeq_bool y x) vals)) in *.
  set (n := length vals) in *. clearbody a b n.
  assert (Ha : 0 <= inject_Z (Z.of_nat a))
    by (change 0 with (inject_Z 0); rewrite <- Zle_Qle; lia).
  assert (Hb : 1 <= inject_Z (Z.of_nat b))
    by (change 1 with (inject_Z 1); rewrite <- Zle_Qle; lia).
  assert (Hn : inject_Z (Z.of_nat a) + inject_Z (Z.of_nat b) <= inject_Z (Z.of_nat n))
    by (rewrite <- inject_Z_plus, <- Zle_Qle; lia).
  assert (Hn0 : 0 < inject_Z (Z.of_nat n)) by lra.
  split.
  - apply Qlt_shift_div_l; [exact Hn0|].
    unfold Qdiv. change (/ 2) with (1 # 2). lra.
  - apply Qle_shift_div_r; [exact Hn0|].
    unfold Qdiv. change (/ 2) with (1 # 2). lra.
Qed.

Lemma fillna_rank_range (col : list (option Q)) (v : Q) :
  In v (fillna (1 # 2) (rank_pct col)) -> 0 <= v /\ v <= 1.
Proof.
  unfold fillna. intros Hin. apply in_map_iff in Hin as (o & Ho & Hino).
  destruct o as [x|]; subst.
  - destruct (rank_pct_range _ _ Hino). split; lra.
  - split; lra.
Qed.


(** ** Lists in step *)

Lemma nth_error_combine (A B : Type) (l1 : list A) (l2 : list B) (i : nat) (x : A) (y : B) :
  nth_error (combine l1 l2) i = Some (x, y) <->
  nth_error l1 i = Some x /\ nth_error l2 i = Some y.
Proof.
  revert l2 i. induction l1 as [|a t IH]; intros [|b t2] [|i]; simpl;
    try (split; [discriminate|intros [? ?]; discriminate]).
  - split; [intros [= -> ->]; auto|intros [[= ->] [= ->]]; reflexivity].
  - apply IH.
Qed.


Lemma nth_error_Some_lt (A : Type) (l : list A) (i : nat) (x : A) :
  nth_error l i = Some x -> (i < length l)%nat.
Proof. intros E. apply nth_error_Some. congruence. Qed.

Lemma nth_error_same_length (A B : Type) (l1 : list A) (l2 : list B) (i : nat) (x : A) :
  length l1 = length l2 -> nth_error l1 i = Some x -> exists y, nth_error l2 i = Some y.
Proof.
  intros Hl Hx. apply nth_error_Some_lt in Hx.
  destruct (nth_error l2 i) as [y|] eqn:E; [eauto|].
  apply nth_error_None in E. lia.
Qed.

(** ** The Scorer *)

Section Scoring.

Import ScoreSets.
Context `{FloatLib}.

Lemma Horizon_eqb_eq (a b : Horizon) : Horizon_eqb a b = true <-> a = b.
Proof. destruct a, b; simpl; split; intros E; try reflexivity; discriminate E. Qed.

Lemma Horizon_eqb_refl (a : Horizon) : Horizon_eqb a a = true.
Proof. now apply Horizon_eqb_eq. Qed.


(** What one horizon writes into a record. *)
Lemma score_horizon_fields (rrp : Q) (feats : FeatRow) (h : Horizon)
  (hdata : HorizonData) (pred pred' : Pred) :
  score_horizon rrp feats h hdata pred = Some pred' ->
  exists m25 m50 m75,
    lookup_model p25 (models hdata) = Some m25
    /\ lookup_model p50 (models hdata) = Some m50
    /\ lookup_model p75 (models hdata) = Some m75
    /\ pred' (k_predicted_appreciation h)
       = Some (VNum (py_round
             ((math_exp (m50 (scoring_X feats (features hdata))) - 1) * 100) 2))
    /\ pred' (k_confidence h)
       = Some (VNum (py_round
             (compute_confidence (m25 (scoring_X feats (features hdata)))
                                 (m75 (scoring_X feats (features hdata)))) 4))
    /\ (forall k, Spec.key_horizon k <> Some h -> pred' k = pred k).
Proof.
  unfold score_horizon.
  destruct (lookup_model p25 (models hdata)) as [m25|]; [|discriminate].
  destruct (lookup_model p50 (models hdata)) as [m50|]; [|discriminate].
  destruct (lookup_model p75 (models hdata)) as [m75|]; [|discriminate].
  intros [= <-]. exists m25, m50, m75.
  split; [reflexivity|]. split; [reflexivity|]. split; [reflexivity|].
  split; [unfold pset; cbn; now rewrite Horizon_eqb_refl|].
  split; [unfold pset; cbn; now rewrite Horizon_eqb_refl|].
  intros k Hk. unfold pset.
  destruct k; cbn; try reflexivity;
    (destruct (Horizon_eqb h0 h) eqn:E;
     [apply Horizon_eqb_eq in E; subst; exfalso; apply Hk; reflexivity|reflexivity]).
Qed.





Lemma finish_pred_keeps (row : SetRow) (score : Q) (pred : Pred) (k : Key) :
  k <> k_investment_score -> k <> k_risk_factors -> k <> k_theme_sample_size_1yr ->
  finish_pred row score pred k = pred k.
Proof.
  intros H1 H2 H3. unfold finish_pred, ppop, pset.
  destruct k; cbn; try reflexivity; contradiction.
Qed.


Lemma length_fillna (d : Q) (col : list (option Q)) : length (fillna d col) = length col.
Proof. apply length_map. Qed.

Lemma length_rank_pct (col : list (option Q)) : length (rank_pct col) = length col.
Proof. apply length_map. Qed.

Lemma length_composite (predictions : list Pred) :
  length (composite predictions) = length predictions.
Proof.
  unfold composite. cbv zeta.
  rewrite length_map, !length_combine, !length_fillna, !length_rank_pct, !length_map.
  lia.
Qed.

Lemma composite_nth (predictions : list Pred) (i : nat) (score : Q) :
  nth_error (composite predictions) i = Some score ->
  exists a c p r,
    nth_error (fillna (1 # 2)
                 (rank_pct (map (pnum (k_predicted_appreciation H1yr)) predictions))) i
    = Some a
    /\ nth_error (fillna (1 # 2) (map (pnum (k_confidence H1yr)) predictions)) i = Some c
    /\ nth_error (fillna (1 # 2)
                    (rank_pct (map (pnum k_expected_profit_1yr_gbp) predictions))) i
       = Some p
    /\ nth_error (fillna (1 # 2)
                    (rank_pct (map (pnum k_risk_adjusted_score) predictions))) i
       = Some r
    /\ score = (SCORE_WEIGHTS appreciation_1yr * a
                + SCORE_WEIGHTS confidence_1yr * c
                + SCORE_WEIGHTS expected_profit_1yr * p
                + SCORE_WEIGHTS risk_adjusted * r) * 10.
Proof.
  unfold composite. cbv zeta. rewrite nth_error_map.
  destruct (nth_error (combine _ _) i) as [[[[a c] p] r]|] eqn:E; [|discriminate].
  simpl. intros [= <-].
  apply nth_error_combine in E as [E Er].
  apply nth_error_combine in E as [E Ep].
  apply nth_error_combine in E as [Ea Ec].
  exists a, c, p, r. auto.
Qed.



End Scoring.



(** ** Missing model files *)

Section ModelFiles.

Import ScoreSets.


Lemma load_horizon_complete (d : ModelsDir) (h : Horizon) :
  Forall (fun f => path_exists d f = true) (Spec.horizon_files h) ->
  exists hd, load_horizon d h = Some hd.
Proof.
  unfold Spec.horizon_files. intros Hall.
  inversion Hall as [|? ? H1 Hall1]; subst.
  inversion Hall1 as [|? ? H2 Hall2]; subst.
  inversion Hall2 as [|? ? H3 Hall3]; subst.
  inversion Hall3 as [|? ? H4 _]; subst.
  unfold load_horizon, QUANTILES. cbn [map fst flat_map].
  rewrite H1, H2, H3, H4. cbn. eauto.
Qed.




End ModelFiles.

(** ** Scoring without one horizon *)

Section WithoutHorizon.

Import ScoreSets.
Context `{FloatLib}.


















Lemma run_score_sets (d : ModelsDir) (df : list (SetRow * FeatRow)) :
  load_models d <> [] -> run d df = score_sets df (load_models d).
Proof.
  intros Hne. unfold run.
  destruct (load_models d) as [|m ms]; [contradiction|].
  destruct df as [|x t]; reflexivity.
Qed.

End WithoutHorizon.

Section MissingHorizon.

Import ScoreSets.
Context `{FloatLib}.



End MissingHorizon.



(** ** Quantile calibration *)

Section Calibration.

Import ValidateModel.
Context `{Learner}.

Lemma pool_from (folds : list FoldPreds) (acc : Pooled) :
  all_actuals (fold_left extend folds acc) = all_actuals acc ++ concat (map y_test folds)
  /\ all_p25 (fold_left extend folds acc) = all_p25 acc ++ concat (map preds_p25 folds)
  /\ all_p50 (fold_left extend folds acc) = all_p50 acc ++ concat (map preds_p50 folds)
  /\ all_p75 (fold_left extend folds acc) = all_p75 acc ++ concat (map preds_p75 folds).
Proof.
  revert acc. induction folds as [|f t IH]; intros acc; simpl.
  - now rewrite !app_nil_r.
  - destruct (IH (extend acc f)) as (H1 & H2 & H3 & H4).
    rewrite H1, H2, H3, H4. simpl. now rewrite <- !app_assoc.
Qed.




Lemma dropna_all_known (A : Type) (l : list (option A)) :
  Forall (fun v => notna v = true) l -> length (dropna l) = length l.
Proof.
  induction 1 as [|[x|] t Hx _ IH]; simpl; [reflexivity| |discriminate Hx].
  now rewrite IH.
Qed.

Lemma eval_fold_lengths (hdf : list Row) (fold : Fold) (f : FoldPreds) :
  Forall (fun r => notna (target r) = true) hdf ->
  eval_fold hdf fold = Some f ->
  length (y_test f) = length (preds_p25 f)
  /\ length (y_test f) = length (preds_p50 f)
  /\ length (y_test f) = length (preds_p75 f).
Proof.
  intros Hall. unfold eval_fold. cbv zeta.
  destruct (_ || _); [discriminate|]. intros [= <-]. cbn.
  rewrite !length_map.
  assert (E : length (dropna (map target
                (filter (fun r => (retirement_year r =? test fold)%Z) hdf)))
              = length (filter (fun r => (retirement_year r =? test fold)%Z) hdf)).
  { rewrite dropna_all_known; [now rewrite length_map|].
    apply Forall_map. apply Forall_forall. intros r Hr.
    apply filter_In in Hr as [Hr _]. rewrite Forall_forall in Hall. now apply Hall. }
  now rewrite E.
Qed.

Lemma evaluated_folds_lengths (hdf : list Row) :
  Forall (fun r => notna (target r) = true) hdf ->
  Forall (fun f => length (y_test f) = length (preds_p25 f)
                   /\ length (y_test f) = length (preds_p50 f)
                   /\ length (y_test f) = length (preds_p75 f))
         (evaluated_folds hdf).
Proof.
  intros Hall. unfold evaluated_folds. apply Forall_forall. intros f Hf.
  apply in_flat_map in Hf as (fold & _ & Hf).
  destruct (eval_fold hdf fold) as [f'|] eqn:E; [|contradiction].
  destruct Hf as [<-|[]]. now apply (@eval_fold_lengths hdf fold).
Qed.



End Calibration.


(** * Further properties of the pipeline *)

(** ** Batches *)

Lemma range_from_slices (A : Type) (step : nat) (l : list A) :
  (0 < step)%nat ->
  forall fuel start,
    (length l <= start + fuel)%nat ->
    concat (map (fun i => slice i step l) (range_from fuel start (length l) step))
    = skipn start l.
Proof.
  intros Hstep. induction fuel as [|fuel IH]; intros start Hlen; simpl.
  - symmetry. apply skipn_all2. lia.
  - destruct (Nat.ltb_spec start (length l)) as [Hlt|Hge].
    + simpl. rewrite IH by lia. unfold slice.
      rewrite Nat.add_comm, <- skipn_skipn. apply firstn_skipn.
    + symmetry. apply skipn_all2. lia.
Qed.

Lemma py_range_slices (A : Type) (step : nat) (l : list A) :
  (0 < step)%nat ->
  concat (map (fun i => slice i step l) (py_range 0 (length l) step)) = l.
Proof.
  intros Hstep. unfold py_range.
  now rewrite (@range_from_slices A step l Hstep (length l) 0%nat) by lia.
Qed.

Lemma range_from_bounds (step fuel start stop i : nat) :
  In i (range_from fuel start stop step) -> (start <= i < stop)%nat.
Proof.
  revert start. induction fuel as [|fuel IH]; intros start; simpl; [tauto|].
  destruct (Nat.ltb_spec start stop); [|contradiction].
  intros [<-|Hin]; [lia|]. specialize (IH _ Hin). lia.
Qed.

(** ** The training table *)

Section TrainingTable.

Import BuildTrainingData.
Context `{FloatLib}.

Lemma milestone_row_quality (row : SetRow) (snapshots_df : list Snapshot) (r : TrainingRow) :
  milestone_row row snapshots_df = Some r ->
  data_quality r = quality_of (map (fun h => target_of h r) HORIZONS).
Proof.
  unfold milestone_row.
  destruct (snaps_of (set_number row) snapshots_df); [discriminate|].
  intros [= <-]. reflexivity.
Qed.

(** X1.  The quality tag of a produced row counts its forward targets:
    good exactly when all four are known, insufficient exactly when none
    is, partial in between; a target is known only where the milestone
    price is. *)
Theorem data_quality_counts_targets (row : SetRow) (snapshots_df : list Snapshot)
  (r : TrainingRow) :
  milestone_row row snapshots_df = Some r ->
  (data_quality r = good <-> forall h, target_of h r <> None)
  /\ (data_quality r = insufficient <-> forall h, target_of h r = None)
  /\ (data_quality r = partial <->
      (exists h, target_of h r <> None) /\ (exists h, target_of h r = None))
  /\ (forall h, target_of h r <> None -> price_of (After h) r <> None).
Proof.
  intros Hr. pose proof (milestone_row_quality _ _ Hr) as Hq.
  destruct (milestone_row_fields _ _ Hr) as (_ & _ & _ & _ & _ & _ & Ht).
  split; [|split; [|split]].
  - rewrite Hq. unfold quality_of, HORIZONS. cbn [map]. split.
    + intros Hg h.
      destruct (target_of H6m r) eqn:E1, (target_of H1yr r) eqn:E2,
        (target_of H2yr r) eqn:E3, (target_of H3yr r) eqn:E4;
        try discriminate Hg; destruct h; congruence.
    + intros Hall.
      pose proof (Hall H6m). pose proof (Hall H1yr).
      pose proof (Hall H2yr). pose proof (Hall H3yr).
      destruct (target_of H6m r), (target_of H1yr r), (target_of H2yr r),
        (target_of H3yr r); try contradiction; reflexivity.
  - rewrite Hq. unfold quality_of, HORIZONS. cbn [map]. split.
    + intros Hg h.
      destruct (target_of H6m r) eqn:E1, (target_of H1yr r) eqn:E2,
        (target_of H2yr r) eqn:E3, (target_of H3yr r) eqn:E4;
        try discriminate Hg; destruct h; assumption.
    + intros Hall.
      rewrite (Hall H6m), (Hall H1yr), (Hall H2yr), (Hall H3yr). reflexivity.
  - rewrite Hq. unfold quality_of, HORIZONS. cbn [map]. split.
    + intros Hg.
      destruct (target_of H6m r) eqn:E1, (target_of H1yr r) eqn:E2,
        (target_of H2yr r) eqn:E3, (target_of H3yr r) eqn:E4;
        try discriminate Hg;
        (split;
         [first [ exists H6m; rewrite E1; discriminate
                | exists H1yr; rewrite E2; discriminate
                | exists H2yr; rewrite E3; discriminate
                | exists H3yr; rewrite E4; discriminate ]
         |first [ exists H6m; exact E1 | exists H1yr; exact E2
                | exists H2yr; exact E3 | exists H3yr; exact E4 ]]).
    + intros [[h1 Hs] [h2 Hn]].
      destruct (target_of H6m r) eqn:E1, (target_of H1yr r) eqn:E2,
        (target_of H2yr r) eqn:E3, (target_of H3yr r) eqn:E4; try reflexivity.
      * destruct h2; congruence.
      * destruct h1; congruence.
  - intros h Hn. rewrite Ht in Hn. unfold log_target in Hn.
    destruct (price_of (After h) r); [discriminate|contradiction].
Qed.

(** *** Upserting *)

Lemma dedup_keys (seen : list string) (records : list TrainingRow) :
  NoDup (map set_num (dedup seen records))
  /\ forall r, In r (dedup seen records) -> ~ In (set_num r) seen.
Proof.
  revert seen. induction records as [|x t IH]; intros seen; simpl.
  - split; [constructor|tauto].
  - destruct (existsb (String.eqb (set_num x)) seen) eqn:E.
    + apply IH.
    + destruct (IH (set_num x :: seen)) as [Hnd Hseen]. split.
      * simpl. constructor; [|exact Hnd].
        intros Hin. apply in_map_iff in Hin as (r & Hk & Hr).
        apply (Hseen r Hr). left. now symmetry.
      * intros r [<-|Hr].
        -- intros Hin. assert (existsb (String.eqb (set_num x)) seen = true).
           { apply existsb_exists. exists (set_num x). split; [exact Hin|].
             apply String.eqb_refl. }
           congruence.
        -- intros Hin. apply (Hseen r Hr). now right.
Qed.

(** The first record of each set_num survives the deduplication. *)
Lemma dedup_keeps_first (records : list TrainingRow) (k : string) (r : TrainingRow) :
  forall seen,
    find (fun x => String.eqb (set_num x) k) records = Some r ->
    ~ In k seen ->
    In r (dedup seen records).
Proof.
  induction records as [|x t IH]; intros seen; simpl; [discriminate|].
  destruct (String.eqb (set_num x) k) eqn:Ek.
  - intros [= <-] Hseen. apply String.eqb_eq in Ek.
    destruct (existsb (String.eqb (set_num x)) seen) eqn:E.
    + exfalso. apply existsb_exists in E as (y & Hy & Hxy).
      apply String.eqb_eq in Hxy. apply Hseen. congruence.
    + now left.
  - intros Hf Hseen. apply String.eqb_neq in Ek.
    destruct (existsb (String.eqb (set_num x)) seen).
    + now apply IH.
    + right. apply IH; [exact Hf|]. intros [E|Hin]; [congruence|contradiction].
Qed.

Lemma upsert_row_keys (r : TrainingRow) (table : list TrainingRow) :
  NoDup (map set_num table) ->
  NoDup (map set_num (upsert_row r table))
  /\ In r (upsert_row r table)
  /\ (forall x, In x table -> set_num x <> set_num r -> In x (upsert_row r table))
  /\ (forall k, In k (map set_num (upsert_row r table)) ->
                k = set_num r \/ In k (map set_num table)).
Proof.
  induction table as [|y t IH]; simpl; intros Hnd.
  - split; [repeat constructor; tauto|]. split; [now left|].
    split; [tauto|]. intros k [<-|[]]. now left.
  - inversion Hnd as [|? ? Hy Hnd']; subst.
    destruct (String.eqb (set_num y) (set_num r)) eqn:E; simpl.
    + apply String.eqb_eq in E. split; [|split; [now left|split]].
      * constructor; [now rewrite <- E|exact Hnd'].
      * intros x [<-|Hx] Hne; [congruence|now right].
      * intros k [<-|Hk]; [now left|right; now right].
    + apply String.eqb_neq in E.
      destruct (IH Hnd') as (H1 & H2 & H3 & H4).
      split; [|split; [now right|split]].
      * constructor; [|exact H1]. intros Hin.
        destruct (H4 _ Hin) as [Hk|Hk]; [congruence|contradiction].
      * intros x [<-|Hx] Hne; [now left|right; now apply H3].
      * intros k [<-|Hk]; [right; now left|].
        destruct (H4 _ Hk) as [->|Hk']; [now left|right; now right].
Qed.

Lemma upsert_rows_keys (records table : list TrainingRow) :
  NoDup (map set_num records) ->
  NoDup (map set_num table) ->
  NoDup (map set_num (fold_left (fun tbl r => upsert_row r tbl) records table))
  /\ (forall r, In r records ->
                In r (fold_left (fun tbl r => upsert_row r tbl) records table))
  /\ (forall x, In x table -> ~ In (set_num x) (map set_num records) ->
                In x (fold_left (fun tbl r => upsert_row r tbl) records table)).
Proof.
  revert table. induction records as [|r t IH]; intros table Hr Ht; simpl.
  - split; [exact Ht|]. split; [tauto|auto].
  - inversion Hr as [|? ? Hrt Hr']; subst.
    destruct (@upsert_row_keys r table Ht) as (H1 & H2 & H3 & _).
    destruct (IH (upsert_row r table) Hr' H1) as (I1 & I2 & I3).
    split; [exact I1|]. split.
    + intros x [<-|Hx]; [apply I3; [exact H2|exact Hrt]|now apply I2].
    + intros x Hx Hk. apply I3.
      * apply H3; [exact Hx|]. intros E. apply Hk. left. now symmetry.
      * intros Hin. apply Hk. now right.
Qed.

(** X2.  Upserting keeps the stored table keyed by set_num: with unique
    set_nums before, they are unique after.  Of the usable rows of a
    set_num (quality good or partial) the first one is stored; rows of the
    table whose set_num the frame does not bring stay as they are. *)
Theorem upsert_keeps_table_keyed (df table : list TrainingRow) :
  NoDup (map set_num table) ->
  NoDup (map set_num (upsert_training_data df table))
  /\ (forall k r,
         find (fun x => String.eqb (set_num x) k)
              (filter (fun x => usable_quality (data_quality x)) df) = Some r ->
         In r (upsert_training_data df table))
  /\ (forall x, In x table ->
                (forall r, In r df -> usable_quality (data_quality r) = true ->
                           set_num r <> set_num x) ->
                In x (upsert_training_data df table)).
Proof.
  intros Ht. unfold upsert_training_data.
  set (usable := filter (fun r => usable_quality (data_quality r)) df).
  destruct (dedup_keys [] usable) as [Hnd _].
  destruct (@upsert_rows_keys _ _ Hnd Ht) as (H1 & H2 & H3).
  split; [exact H1|]. split.
  - intros k r Hf. apply H2. apply (@dedup_keeps_first usable k r [] Hf). tauto.
  - intros x Hx Hno. apply H3; [exact Hx|].
    intros Hin. apply in_map_iff in Hin as (r & Hk & Hr).
    apply dedup_subset in Hr. apply filter_In in Hr as [Hr Hq].
    apply (Hno r Hr Hq). exact Hk.
Qed.

Lemma fold_upsert_app (l1 l2 table : list TrainingRow) :
  fold_left (fun tbl r => upsert_row r tbl) (l1 ++ l2) table
  = fold_left (fun tbl r => upsert_row r tbl) l2
              (fold_left (fun tbl r => upsert_row r tbl) l1 table).
Proof. apply fold_left_app. Qed.

Lemma upsert_in_batches_from (records : list TrainingRow) (offsets : list nat)
  (table : list TrainingRow) (total : nat) :
  fold_left
    (fun st i =>
       (fold_left (fun tbl r => upsert_row r tbl) (slice i 200 records) (fst st),
        (snd st + length (slice i 200 records))%nat))
    offsets (table, total)
  = (fold_left (fun tbl r => upsert_row r tbl)
               (concat (map (fun i => slice i 200 records) offsets)) table,
     (total + length (concat (map (fun i => slice i 200 records) offsets)))%nat).
Proof.
  revert table total. induction offsets as [|i t IH]; intros table total; simpl.
  - now rewrite Nat.add_0_r.
  - rewrite IH. cbn [fst snd]. rewrite fold_left_app, length_app. f_equal. lia.
Qed.

(** X3.  Sending the records in batches of 200 stores the same table as
    sending them one after the other, and the returned total is the
    number of deduplicated usable rows. *)
Theorem batched_upsert_total (df table : list TrainingRow) :
  upsert_training_data_total df table
  = (upsert_training_data df table,
     length (dedup [] (filter (fun r => usable_quality (data_quality r)) df))).
Proof.
  unfold upsert_training_data_total, upsert_in_batches, upsert_training_data.
  cbv zeta. rewrite upsert_in_batches_from.
  rewrite py_range_slices by lia. reflexivity.
Qed.

End TrainingTable.

(** ** Order statistics stay inside the data *)

Lemma In_insert_by (A : Type) (leb : A -> A -> bool) (x y : A) (l : list A) :
  In y (insert_by leb x l) <-> y = x \/ In y l.
Proof.
  induction l as [|z t IH]; simpl.
  - intuition congruence.
  - destruct (leb x z); simpl; [intuition congruence|].
    rewrite IH. intuition congruence.
Qed.

Lemma In_sort_by (A : Type) (leb : A -> A -> bool) (y : A) (l : list A) :
  In y (sort_by leb l) <-> In y l.
Proof.
  induction l as [|x t IH]; simpl; [tauto|].
  rewrite In_insert_by, IH. intuition congruence.
Qed.

Lemma In_dropna (A : Type) (x : A) (l : list (option A)) :
  In x (dropna l) -> In (Some x) l.
Proof.
  induction l as [|[y|] t IH]; simpl; [tauto| |].
  - intros [->|Hin]; [now left|right; now apply IH].
  - intros Hin. right. now apply IH.
Qed.

Lemma quantile_within (q v : Q) (l : list Q) :
  0 <= q -> q <= 1 -> quantile q l = Some v ->
  exists a b, In a l /\ In b l /\ a <= v /\ v <= b.
Proof.
  intros H0 H1 Hq.
  destruct l as [|x t]; [discriminate Hq|].
  rewrite quantile_lerp in Hq by discriminate. injection Hq as <-.
  set (s := sortQ (x :: t)) in *.
  assert (Hn : (0 < length s)%nat).
  { unfold s, sortQ. rewrite length_sort_by. simpl. lia. }
  pose proof (@floor_in_range q (length s) H0 H1 Hn) as Hk.
  fold (lenQ s) in Hk.
  destruct (@lerp_between s (q * (lenQ s - 1)) (sortQ_sorted (x :: t)) Hk) as [Hlo Hhi].
  set (k := Z.to_nat (Qfloor (q * (lenQ s - 1)))) in *.
  exists (nth k s 0), (nth (k + 1) s (nth k s 0)).
  assert (Ha : In (nth k s 0) (x :: t)).
  { apply (In_sort_by Qle_bool). apply nth_In. exact Hk. }
  split; [exact Ha|]. split; [|split; assumption].
  destruct (Nat.lt_ge_cases (k + 1) (length s)) as [Hlt|Hge].
  - apply (In_sort_by Qle_bool). apply nth_In. exact Hlt.
  - rewrite (nth_overflow _ _ Hge). exact Ha.
Qed.

Lemma median_within (m : Q) (l : list Q) :
  median l = Some m -> exists a b, In a l /\ In b l /\ a <= m /\ m <= b.
Proof.
  unfold median. cbv zeta.
  set (s := sortQ l).
  assert (Hs : StronglySorted Qle s) by apply sortQ_sorted.
  assert (Hin : forall i, (i < length s)%nat -> In (nth i s 0) l).
  { intros i Hi. apply (In_sort_by Qle_bool). now apply nth_In. }
  set (i2 := (length s / 2)%nat).
  assert (Hi2 : i2 = (length s / 2)%nat) by reflexivity. clearbody i2.
  destruct (length s) as [|n] eqn:En; [discriminate|].
  assert (Hd : (i2 < S n)%nat) by (subst i2; apply Nat.div_lt; lia).
  destruct (Nat.even (S n)) eqn:Ev; intros Hm; injection Hm as Hm; subst m.
  - assert (Hn : (1 <= n)%nat) by (destruct n; [discriminate Ev|lia]).
    assert (Hd1 : (1 <= i2)%nat).
    { subst i2. change 1%nat with (2 / 2)%nat. apply Nat.Div0.div_le_mono. lia. }
    exists (nth (i2 - 1) s 0), (nth i2 s 0).
    split; [apply Hin; lia|]. split; [apply Hin; lia|].
    assert (Hle : nth (i2 - 1) s 0 <= nth i2 s 0)
      by (apply sorted_nth_le; [exact Hs|lia|lia]).
    set (a := nth (i2 - 1) s 0) in *. set (b := nth i2 s 0) in *.
    clearbody a b. split.
    + apply Qle_shift_div_l; lra.
    + apply Qle_shift_div_r; lra.
  - exists (nth i2 s 0), (nth i2 s 0).
    split; [apply Hin; lia|]. split; [apply Hin; lia|]. split; apply Qle_refl.
Qed.

Lemma clip_monotone (low high x y : Q) : x <= y -> clip low high x <= clip low high y.
Proof.
  intros Hxy. unfold clip.
  apply Q.min_le_compat_r. now apply Q.max_le_compat_r.
Qed.

Section WinsorisedTable.

Import BuildTrainingData.

Lemma winsorise_col_kept (A : Type) (f : TrainingRow -> A) (h : Horizon)
  (df : list TrainingRow) :
  (forall v r, f (set_target h v r) = f r) ->
  map f (winsorise_col h df) = map f df.
Proof.
  intros Hf. unfold winsorise_col.
  destruct (length _ <? 10)%nat; [reflexivity|].
  destruct (quantile WINSOR_LOW _); [|reflexivity].
  destruct (quantile WINSOR_HIGH _); [|reflexivity].
  rewrite map_map. apply map_ext. intros r. apply Hf.
Qed.

Lemma winsorise_targets_kept (A : Type) (f : TrainingRow -> A) (df : list TrainingRow) :
  (forall h v r, f (set_target h v r) = f r) ->
  map f (winsorise_targets df) = map f df.
Proof.
  intros Hf. unfold winsorise_targets, HORIZONS. cbn [fold_left].
  now rewrite !winsorise_col_kept by (intros; apply Hf).
Qed.

Lemma winsorise_column_pairs (col : list (option Q)) :
  Spec.winsorise_column col = col
  \/ exists low high,
       low <= high
       /\ (exists a b, In (Some a) col /\ In (Some b) col /\ a <= low /\ high <= b)
       /\ Spec.winsorise_column col = map (option_map (clip low high)) col.
Proof.
  unfold Spec.winsorise_column. cbv zeta.
  destruct (length (dropna col) <? 10)%nat; [now left|].
  destruct (quantile (2 # 100) (dropna col)) as [low|] eqn:El; [|now left].
  destruct (quantile (98 # 100) (dropna col)) as [high|] eqn:Eh; [|now left].
  right. exists low, high.
  split; [apply (@quantile_monotone (2 # 100) (98 # 100) _ _ (dropna col)); auto; lra|].
  split; [|reflexivity].
  destruct (@quantile_within (2 # 100) low (dropna col)) as (a & _ & Ha & _ & Hal & _);
    [lra|lra|exact El|].
  destruct (@quantile_within (98 # 100) high (dropna col)) as (_ & b & _ & Hb & _ & Hbh);
    [lra|lra|exact Eh|].
  exists a, b. repeat split; try assumption; now apply In_dropna.
Qed.

(** X4.  Winsorisation discards nothing and reorders nothing: the table
    keeps its rows with their set_num, quality tag and prices, a null
    target stays null and a known one stays known, and within a column
    two targets keep their order. *)
Theorem winsorise_keeps_shape (df : list TrainingRow) :
  map set_num (winsorise_targets df) = map set_num df
  /\ map data_quality (winsorise_targets df) = map data_quality df
  /\ (forall m, map (price_of m) (winsorise_targets df) = map (price_of m) df)
  /\ (forall h, map (@notna Q) (map (target_of h) (winsorise_targets df))
                = map (@notna Q) (map (target_of h) df))
  /\ (forall h i j x y x' y',
         nth_error (map (target_of h) df) i = Some (Some x) ->
         nth_error (map (target_of h) df) j = Some (Some y) ->
         nth_error (map (target_of h) (winsorise_targets df)) i = Some (Some x') ->
         nth_error (map (target_of h) (winsorise_targets df)) j = Some (Some y') ->
         x <= y -> x' <= y').
Proof.
  split; [apply winsorise_targets_kept; reflexivity|].
  split; [apply winsorise_targets_kept; reflexivity|].
  split; [intros m; apply winsorise_targets_kept; intros h v r; destruct m as [|[]];
          reflexivity|].
  split.
  - intros h. rewrite winsorise_targets_column.
    destruct (winsorise_column_pairs (map (target_of h) df))
      as [->|(low & high & _ & _ & ->)]; [reflexivity|].
    rewrite map_map. apply map_ext. intros [v|]; reflexivity.
  - intros h i j x y x' y'. rewrite winsorise_targets_column.
    generalize (map (target_of h) df) as col. intros col Hx Hy.
    destruct (winsorise_column_pairs col)
      as [->|(low & high & _ & _ & ->)].
    + rewrite Hx, Hy. intros [= <-] [= <-] Hxy. exact Hxy.
    + rewrite !nth_error_map, Hx, Hy. simpl. intros [= <-] [= <-] Hxy.
      now apply clip_monotone.
Qed.

(** X5.  Winsorisation invents no extreme: every target of the
    winsorised table lies between two targets the same column held
    before. *)
Theorem winsorise_within_range (df : list TrainingRow) (h : Horizon) (v : Q) :
  In (Some v) (map (target_of h) (winsorise_targets df)) ->
  exists a b,
    In (Some a) (map (target_of h) df) /\ In (Some b) (map (target_of h) df)
    /\ a <= v /\ v <= b.
Proof.
  rewrite winsorise_targets_column.
  destruct (winsorise_column_pairs (map (target_of h) df))
    as [->|(low & high & Hlh & (a & b & Ha & Hb & Hal & Hhb) & ->)].
  - intros Hv. exists v, v. repeat split; try assumption; apply Qle_refl.
  - intros Hv. apply in_map_iff in Hv as ([x|] & Hx & _); [|discriminate Hx].
    injection Hx as <-. exists a, b.
    destruct (@clip_bounds low high x Hlh) as [H1 H2].
    repeat split; try assumption; lra.
Qed.

(** X6.  The five milestone windows do not overlap: a snapshot counts
    for at most one milestone of a set. *)
Theorem milestone_windows_disjoint (exit_date : Z) (m m' : Milestone)
  (set_snaps : list Snapshot) (s : Snapshot) :
  In s (window_snaps exit_date m set_snaps) ->
  In s (window_snaps exit_date m' set_snaps) ->
  m = m'.
Proof.
  unfold window_snaps. intros H1 H2.
  destruct m as [|[]], m' as [|[]]; try reflexivity; cbn in H1, H2;
    apply filter_In in H1 as [_ H1]; apply filter_In in H2 as [_ H2];
    apply andb_true_iff in H1 as [A1 B1]; apply andb_true_iff in H2 as [A2 B2];
    apply Z.leb_le in A1, B1, A2, B2; lia.
Qed.

End WinsorisedTable.

Section MilestoneRange.

Import BuildTrainingData.
Context `{FloatLib}.

(** X7.  A milestone price is no outlier of its own: it lies between the
    lowest and the highest price observed for the set inside the
    milestone's window. *)
Theorem milestone_price_within_window (row : SetRow) (snapshots_df : list Snapshot)
  (r : TrainingRow) (m : Milestone) (p : Q) :
  milestone_row row snapshots_df = Some r ->
  price_of m r = Some p ->
  exists a b,
    In a (Spec.qualifying (set_exit_date row) m (set_number row) snapshots_df)
    /\ In b (Spec.qualifying (set_exit_date row) m (set_number row) snapshots_df)
    /\ price_gbp a <= p /\ p <= price_gbp b.
Proof.
  intros Hr Hp.
  destruct (milestone_row_fields _ _ Hr) as (_ & _ & _ & _ & _ & Hprice & _).
  rewrite Hprice in Hp. unfold milestone_price in Hp.
  rewrite window_snaps_qualifying in Hp.
  destruct (_ <=? _)%nat; [|discriminate Hp].
  destruct (median_within _ Hp) as (a & b & Ha & Hb & Hle).
  apply in_map_iff in Ha as (sa & <- & Hsa).
  apply in_map_iff in Hb as (sb & <- & Hsb).
  exists sa, sb. tauto.
Qed.

End MilestoneRange.

(** ** Loading the models *)

Section LoadedModels.

Import ScoreSets.

Lemma load_horizon_spec (d : ModelsDir) (h : Horizon) :
  load_horizon d h
  = if forallb (path_exists d) (Spec.horizon_files h)
    then Some {| models := [ (p25, pickle_load d (model_path h p25));
                             (p50, pickle_load d (model_path h p50));
                             (p75, pickle_load d (model_path h p75)) ];
                 features := json_load d (features_path h) |}
    else None.
Proof.
  unfold load_horizon, Spec.horizon_files, QUANTILES. cbn [map fst flat_map forallb].
  destruct (path_exists d (features_path h)); cbn [negb andb]; [|reflexivity].
  destruct (path_exists d (model_path h p25)), (path_exists d (model_path h p50)),
    (path_exists d (model_path h p75)); reflexivity.
Qed.

(** X8.  The loaded horizons are exactly the horizons whose four files
    all exist, in the order 6m, 1yr, 2yr, 3yr and without repetition;
    each comes with its feature list and with its p25, p50 and p75
    models. *)
Theorem load_models_complete_horizons (d : ModelsDir) :
  map fst (load_models d)
  = filter (fun h => forallb (path_exists d) (Spec.horizon_files h)) HORIZONS
  /\ forall h hd,
       In (h, hd) (load_models d) ->
       features hd = json_load d (features_path h)
       /\ lookup_model p25 (models hd) = Some (pickle_load d (model_path h p25))
       /\ lookup_model p50 (models hd) = Some (pickle_load d (model_path h p50))
       /\ lookup_model p75 (models hd) = Some (pickle_load d (model_path h p75)).
Proof.
  split.
  - unfold load_models, HORIZONS. cbn [flat_map filter].
    rewrite !load_horizon_spec.
    destruct (forallb (path_exists d) (Spec.horizon_files H6m)),
      (forallb (path_exists d) (Spec.horizon_files H1yr)),
      (forallb (path_exists d) (Spec.horizon_files H2yr)),
      (forallb (path_exists d) (Spec.horizon_files H3yr)); reflexivity.
  - intros h hd Hin. unfold load_models in Hin.
    apply in_flat_map in Hin as (h' & _ & Hin).
    rewrite load_horizon_spec in Hin.
    destruct (forallb (path_exists d) (Spec.horizon_files h')); [|contradiction].
    destruct Hin as [[= <- <-]|[]]. repeat split; reflexivity.
Qed.

End LoadedModels.

(** ** Scoring never fails on loaded models *)

Section ScoringTotal.

Import ScoreSets.
Context `{FloatLib}.

Lemma loaded_complete (d : ModelsDir) :
  Forall (fun p => Spec.complete (snd p)) (load_models d).
Proof.
  apply Forall_forall. intros [h hd] Hin.
  destruct (proj2 (load_models_complete_horizons d) h hd Hin) as (_ & H1 & H2 & H3).
  cbn. unfold Spec.complete. do 3 eexists. repeat split; eassumption.
Qed.

Lemma score_horizon_total (rrp : Q) (feats : FeatRow) (h : Horizon)
  (hd : HorizonData) (pred : Pred) :
  Spec.complete hd -> exists pred', score_horizon rrp feats h hd pred = Some pred'.
Proof.
  intros (m25 & m50 & m75 & H1 & H2 & H3). unfold score_horizon.
  rewrite H1, H2, H3. eauto.
Qed.

Lemma score_horizons_total (rrp : Q) (feats : FeatRow)
  (ms : list (Horizon * HorizonData)) (pred : Pred) :
  Forall (fun p => Spec.complete (snd p)) ms ->
  exists pred', score_horizons rrp feats ms pred = Some pred'
                /\ pred' k_set_num = pred k_set_num.
Proof.
  intros Hall. revert pred. induction Hall as [|[h hd] t Hc _ IH]; intros pred; simpl.
  - eauto.
  - destruct (@score_horizon_total rrp feats h hd pred Hc) as [p1 E]. rewrite E.
    destruct (IH p1) as (p' & Hp' & Hk). exists p'. split; [exact Hp'|].
    rewrite Hk.
    destruct (score_horizon_fields _ _ _ _ _ E) as (_ & _ & _ & _ & _ & _ & _ & _ & Hoff).
    apply Hoff. discriminate.
Qed.

Lemma score_row_total (ms : list (Horizon * HorizonData)) (row : SetRow)
  (feats : FeatRow) :
  Forall (fun p => Spec.complete (snd p)) ms ->
  exists pred, score_row ms row feats = Some pred
               /\ pred k_set_num = Some (VStr (set_number row)).
Proof.
  intros Hall. unfold score_row. cbv zeta.
  destruct (@score_horizons_total (rrp_of row) feats ms
              (pset k_set_num (VStr (set_number row)) empty_pred) Hall)
    as (p0 & E & Hk).
  rewrite E. eexists. split; [reflexivity|].
  unfold pset at 1 2 3 4. cbn [Key_eqb]. exact Hk.
Qed.

Lemma score_rows_total (ms : list (Horizon * HorizonData))
  (df : list (SetRow * FeatRow)) :
  Forall (fun p => Spec.complete (snd p)) ms ->
  exists preds,
    score_rows ms df = Some preds
    /\ Forall2 (fun rf p => p k_set_num = Some (VStr (set_number (fst rf)))) df preds.
Proof.
  intros Hall. induction df as [|[row feats] t IH]; simpl.
  - exists []. split; [reflexivity|constructor].
  - destruct (@score_row_total ms row feats Hall) as (p & Ep & Hk).
    destruct IH as (ps & Eps & Hf). rewrite Ep, Eps.
    exists (p :: ps). split; [reflexivity|]. constructor; assumption.
Qed.

Lemma finished_set_nums (rows : list (SetRow * FeatRow)) (scores : list Q)
  (ps : list Pred) :
  length scores = length ps ->
  Forall2 (fun rf p => p k_set_num = Some (VStr (set_number (fst rf)))) rows ps ->
  Forall2 (fun rf p => p k_set_num = Some (VStr (set_number (fst rf)))) rows
    (map (fun t => match t with (row, score, pred) => finish_pred row score pred end)
         (combine (combine (map fst rows) scores) ps)).
Proof.
  intros Hl Hf. revert scores Hl.
  induction Hf as [|rf p rows ps Hp _ IH]; intros scores Hl; simpl; [constructor|].
  destruct scores as [|s scores]; [discriminate Hl|]. simpl. constructor.
  - rewrite finish_pred_keeps by discriminate. exact Hp.
  - apply IH. simpl in Hl. lia.
Qed.

(** X9.  Scoring with the models [load_models] returns never fails for a
    missing model, whatever features the rows have or lack: the run gives
    one record per scored set, in frame order, each carrying the set
    number of its row. *)
Theorem scoring_is_total (d : ModelsDir) (df : list (SetRow * FeatRow)) :
  exists preds,
    run d df = Some preds
    /\ (load_models d <> [] ->
        Forall2 (fun rf p => p k_set_num = Some (VStr (set_number (fst rf)))) df preds).
Proof.
  destruct (load_models d) as [|m ms] eqn:E.
  - exists []. unfold run. rewrite E. split; [reflexivity|].
    intros Hne. now contradiction Hne.
  - assert (Hne : load_models d <> []) by (rewrite E; discriminate).
    rewrite (@run_score_sets _ d df Hne).
    destruct (@score_rows_total (load_models d) df (loaded_complete d))
      as (ps & Eps & Hf).
    unfold score_sets. rewrite Eps.
    destruct (in_columns (k_predicted_appreciation H1yr) ps).
    + eexists. split; [reflexivity|]. intros _.
      apply finished_set_nums; [apply length_composite|exact Hf].
    + exists ps. split; [reflexivity|]. intros _. exact Hf.
Qed.

End ScoringTotal.

(** ** Confidence, risk flags and ranks *)

Section Confidence.

Import ScoreSets.


Lemma In_app4 (A : Type) (x : A) (l1 l2 l3 l4 l5 : list A) :
  In x (l1 ++ l2 ++ l3 ++ l4 ++ l5)
  <-> In x l1 \/ In x l2 \/ In x l3 \/ In x l4 \/ In x l5.
Proof. rewrite !in_app_iff. tauto. Qed.

Lemma Qltb_lt (x y : Q) : Qltb x y = true <-> x < y.
Proof.
  unfold Qltb. rewrite negb_true_iff. split.
  - intros E. apply Qnot_le_lt. intros Hle. apply Qle_bool_iff in Hle. congruence.
  - intros Hlt. destruct (Qle_bool y x) eqn:E; [|reflexivity].
    apply Qle_bool_iff in E. lra.
Qed.

(** X11.  When each advisory risk flag is raised: high_rrp above a
    price of 200; low_piece_count below 100 pieces at a price above 30;
    thin_theme_data for a theme sample size below 5 that is neither
    missing nor 0, so a theme without any history is not flagged;
    negative_forecast for a negative 1yr appreciation; high_uncertainty
    for a 1yr confidence below 0.3.  A set without a price gets neither
    of the two price flags. *)
Theorem risk_flags_raised (row : SetRow) (pred : Pred) :
  (In high_rrp (assess_risk_factors row pred) <-> 200 < rrp_of row)
  /\ (In low_piece_count (assess_risk_factors row pred) <->
      (match pieces row with Some n => n | None => 0%Z end < 100)%Z /\ 30 < rrp_of row)
  /\ (In thin_theme_data (assess_risk_factors row pred) <->
      exists n, pnum k_theme_sample_size_1yr pred = Some n /\ ~ n == 0 /\ n < 5)
  /\ (In negative_forecast (assess_risk_factors row pred) <->
      exists a, pnum (k_predicted_appreciation H1yr) pred = Some a /\ a < 0)
  /\ (In high_uncertainty (assess_risk_factors row pred) <->
      exists c, pnum (k_confidence H1yr) pred = Some c /\ c < 3 # 10)
  /\ (uk_retail_price row = None ->
      ~ In high_rrp (assess_risk_factors row pred)
      /\ ~ In low_piece_count (assess_risk_factors row pred)).
Proof.
  assert (F1 : In high_rrp (assess_risk_factors row pred) <-> 200 < rrp_of row).
  { unfold assess_risk_factors. cbv zeta. rewrite In_app4.
    rewrite <- Qltb_lt. split.
    - intros [Hi|[Hi|[Hi|[Hi|Hi]]]].
      + destruct (Qltb 200 (rrp_of row)); [reflexivity|contradiction].
      + destruct (_ && _); [destruct Hi as [Hi|[]]; discriminate Hi|contradiction].
      + destruct (pnum k_theme_sample_size_1yr pred); [|contradiction].
        destruct (_ && _); [destruct Hi as [Hi|[]]; discriminate Hi|contradiction].
      + destruct (pnum (k_predicted_appreciation H1yr) pred); [|contradiction].
        destruct (Qltb _ _); [destruct Hi as [Hi|[]]; discriminate Hi|contradiction].
      + destruct (pnum (k_confidence H1yr) pred); [|contradiction].
        destruct (Qltb _ _); [destruct Hi as [Hi|[]]; discriminate Hi|contradiction].
    - intros E. left. rewrite E. now left. }
  assert (F2 : In low_piece_count (assess_risk_factors row pred) <->
               (match pieces row with Some n => n | None => 0%Z end < 100)%Z
               /\ 30 < rrp_of row).
  { unfold assess_risk_factors. cbv zeta. rewrite In_app4.
    rewrite <- Qltb_lt, <- Z.ltb_lt, <- andb_true_iff. split.
    - intros [Hi|[Hi|[Hi|[Hi|Hi]]]].
      + destruct (Qltb 200 (rrp_of row)); [destruct Hi as [Hi|[]]; discriminate Hi
                                          |contradiction].
      + destruct (_ && _); [reflexivity|contradiction].
      + destruct (pnum k_theme_sample_size_1yr pred); [|contradiction].
        destruct (_ && _); [destruct Hi as [Hi|[]]; discriminate Hi|contradiction].
      + destruct (pnum (k_predicted_appreciation H1yr) pred); [|contradiction].
        destruct (Qltb _ _); [destruct Hi as [Hi|[]]; discriminate Hi|contradiction].
      + destruct (pnum (k_confidence H1yr) pred); [|contradiction].
        destruct (Qltb _ _); [destruct Hi as [Hi|[]]; discriminate Hi|contradiction].
    - intros E. right. left. rewrite E. now left. }
  split; [exact F1|]. split; [exact F2|]. split; [|split; [|split]].
  - unfold assess_risk_factors. cbv zeta. rewrite In_app4. split.
    + intros [Hi|[Hi|[Hi|[Hi|Hi]]]].
      * destruct (Qltb 200 (rrp_of row)); [destruct Hi as [Hi|[]]; discriminate Hi
                                          |contradiction].
      * destruct (_ && _); [destruct Hi as [Hi|[]]; discriminate Hi|contradiction].
      * destruct (pnum k_theme_sample_size_1yr pred) as [n|]; [|contradiction].
        destruct (negb (Qeq_bool n 0)) eqn:E1; [|contradiction].
        destruct (Qltb n 5) eqn:E2; [|contradiction].
        exists n. split; [reflexivity|]. split; [|now apply Qltb_lt].
        intros E. apply Qeq_bool_iff in E. rewrite E in E1. discriminate E1.
      * destruct (pnum (k_predicted_appreciation H1yr) pred); [|contradiction].
        destruct (Qltb _ _); [destruct Hi as [Hi|[]]; discriminate Hi|contradiction].
      * destruct (pnum (k_confidence H1yr) pred); [|contradiction].
        destruct (Qltb _ _); [destruct Hi as [Hi|[]]; discriminate Hi|contradiction].
    + intros (n & -> & Hn0 & Hn5). right. right. left.
      apply Qltb_lt in Hn5. rewrite Hn5.
      destruct (Qeq_bool n 0) eqn:E; [apply Qeq_bool_iff in E; contradiction|].
      now left.
  - unfold assess_risk_factors. cbv zeta. rewrite In_app4. split.
    + intros [Hi|[Hi|[Hi|[Hi|Hi]]]].
      * destruct (Qltb 200 (rrp_of row)); [destruct Hi as [Hi|[]]; discriminate Hi
                                          |contradiction].
      * destruct (_ && _); [destruct Hi as [Hi|[]]; discriminate Hi|contradiction].
      * destruct (pnum k_theme_sample_size_1yr pred); [|contradiction].
        destruct (_ && _); [destruct Hi as [Hi|[]]; discriminate Hi|contradiction].
      * destruct (pnum (k_predicted_appreciation H1yr) pred) as [a|]; [|contradiction].
        destruct (Qltb a 0) eqn:E; [|contradiction].
        exists a. split; [reflexivity|now apply Qltb_lt].
      * destruct (pnum (k_confidence H1yr) pred); [|contradiction].
        destruct (Qltb _ _); [destruct Hi as [Hi|[]]; discriminate Hi|contradiction].
    + intros (a & -> & Ha). right. right. right. left.
      apply Qltb_lt in Ha. rewrite Ha. now left.
  - unfold assess_risk_factors. cbv zeta. rewrite In_app4. split.
    + intros [Hi|[Hi|[Hi|[Hi|Hi]]]].
      * destruct (Qltb 200 (rrp_of row)); [destruct Hi as [Hi|[]]; discriminate Hi
                                          |contradiction].
      * destruct (_ && _); [destruct Hi as [Hi|[]]; discriminate Hi|contradiction].
      * destruct (pnum k_theme_sample_size_1yr pred); [|contradiction].
        destruct (_ && _); [destruct Hi as [Hi|[]]; discriminate Hi|contradiction].
      * destruct (pnum (k_predicted_appreciation H1yr) pred); [|contradiction].
        destruct (Qltb _ _); [destruct Hi as [Hi|[]]; discriminate Hi|contradiction].
      * destruct (pnum (k_confidence H1yr) pred) as [c|]; [|contradiction].
        destruct (Qltb c (3 # 10)) eqn:E; [|contradiction].
        exists c. split; [reflexivity|now apply Qltb_lt].
    + intros (c & -> & Hc). right. right. right. right.
      apply Qltb_lt in Hc. rewrite Hc. now left.
  - intros Hnone.
    assert (E : rrp_of row = 0) by (unfold rrp_of; now rewrite Hnone).
    rewrite F1, F2, E. split; [lra|]. intros [_ Hlt]. lra.
Qed.

End Confidence.

Lemma filter_union_length (A : Type) (p q r : A -> bool) (l : list A) :
  (forall x, p x = true -> q x = false) ->
  (forall x, p x = true -> r x = true) ->
  (forall x, q x = true -> r x = true) ->
  (length (filter p l) + length (filter q l) <= length (filter r l))%nat.
Proof.
  intros Hd Hp Hq. induction l as [|x t IH]; simpl; [lia|].
  destruct (p x) eqn:Ep.
  - rewrite (Hd x Ep), (Hp x Ep). simpl. lia.
  - destruct (q x) eqn:Eq; [rewrite (Hq x Eq); simpl; lia|].
    destruct (r x); simpl; lia.
Qed.

Lemma rank_pct_nth (col : list (option Q)) (i : nat) (x : Q) :
  nth_error col i = Some (Some x) ->
  nth_error (rank_pct col) i
  = Some (Some ((lenQ (filter (fun y => Qltb y x) (dropna col))
                 + (lenQ (filter (fun y => Qeq_bool y x) (dropna col)) + 1) / 2)
                / lenQ (dropna col))).
Proof.
  intros Hi. unfold rank_pct. now rewrite (map_nth_error _ _ _ Hi).
Qed.

(** X12.  Percentile ranks follow the values: equal values get equal
    ranks, a larger value gets a strictly larger rank, every rank lies in
    (0, 1], and a null stays null. *)
Theorem rank_pct_follows_values (col : list (option Q)) :
  (forall i j x y rx ry,
      nth_error col i = Some (Some x) ->
      nth_error col j = Some (Some y) ->
      nth_error (rank_pct col) i = Some (Some rx) ->
      nth_error (rank_pct col) j = Some (Some ry) ->
      (x == y -> rx == ry) /\ (x < y -> rx < ry) /\ 0 < rx /\ rx <= 1)
  /\ (forall i, nth_error col i = Some None -> nth_error (rank_pct col) i = Some None).
Proof.
  split.
  - intros i j x y rx ry Hx Hy Hrx Hry.
    assert (Hrange : 0 < rx /\ rx <= 1)
      by (apply (@rank_pct_range col); eapply nth_error_In; exact Hrx).
    rewrite (rank_pct_nth _ _ Hx) in Hrx. rewrite (rank_pct_nth _ _ Hy) in Hry.
    injection Hrx as <-. injection Hry as <-.
    set (vals := dropna col) in *.
    assert (Hxin : In x vals) by (apply dropna_In; eapply nth_error_In; exact Hx).
    assert (Hyin : In y vals) by (apply dropna_In; eapply nth_error_In; exact Hy).
    split; [|split; [|exact Hrange]].
    + intros E.
      rewrite (filter_ext (fun v => Qltb v x) (fun v => Qltb v y)).
      * rewrite (filter_ext (fun v => Qeq_bool v x) (fun v => Qeq_bool v y));
          [reflexivity|].
        intros v. destruct (Qeq_bool v x) eqn:E1, (Qeq_bool v y) eqn:E2; try reflexivity.
        -- apply Qeq_bool_iff in E1. apply Qeq_bool_neq in E2. exfalso. apply E2.
           now rewrite E1.
        -- apply Qeq_bool_iff in E2. apply Qeq_bool_neq in E1. exfalso. apply E1.
           now rewrite E2.
      * intros v. unfold Qltb. f_equal.
        destruct (Qle_bool x v) eqn:E1, (Qle_bool y v) eqn:E2; try reflexivity.
        -- apply Qle_bool_iff in E1. rewrite E in E1. apply Qle_bool_iff in E1. congruence.
        -- apply Qle_bool_iff in E2. rewrite <- E in E2. apply Qle_bool_iff in E2.
           congruence.
    + intros Hlt.
      pose proof (@filter_union_length Q (fun v => Qltb v x) (fun v => Qeq_bool v x)
                    (fun v => Qltb v y) vals) as Hu.
      assert (Hsx : (1 <= length (filter (fun v => Qeq_bool v x) vals))%nat).
      { apply (filter_In_length _ x vals Hxin). apply Qeq_bool_iff. reflexivity. }
      assert (Hsy : (1 <= length (filter (fun v => Qeq_bool v y) vals))%nat).
      { apply (filter_In_length _ y vals Hyin). apply Qeq_bool_iff. reflexivity. }
      assert (Hn : (1 <= length vals)%nat) by (destruct vals; [contradiction|simpl; lia]).
      assert (Hu' : (length (filter (fun v => Qltb v x) vals)
                     + length (filter (fun v => Qeq_bool v x) vals)
                     <= length (filter (fun v => Qltb v y) vals))%nat).
      { apply Hu.
        - intros v Hv. apply Qltb_lt in Hv.
          destruct (Qeq_bool v x) eqn:E; [|reflexivity].
          apply Qeq_bool_iff in E. lra.
        - intros v Hv. apply Qltb_lt in Hv. apply Qltb_lt. lra.
        - intros v Hv. apply Qeq_bool_iff in Hv. apply Qltb_lt. lra. }
      unfold lenQ.
      set (lx := length (filter (fun v => Qltb v x) vals)) in *.
      set (sx := length (filter (fun v => Qeq_bool v x) vals)) in *.
      set (ly := length (filter (fun v => Qltb v y) vals)) in *.
      set (sy := length (filter (fun v => Qeq_bool v y) vals)) in *.
      set (n := length vals) in *. clearbody lx sx ly sy n.
      assert (Q1 : inject_Z (Z.of_nat lx) + inject_Z (Z.of_nat sx) <= inject_Z (Z.of_nat ly))
        by (rewrite <- inject_Z_plus, <- Zle_Qle; lia).
      assert (Q2 : 1 <= inject_Z (Z.of_nat sx))
        by (change 1 with (inject_Z 1); rewrite <- Zle_Qle; lia).
      assert (Q3 : 1 <= inject_Z (Z.of_nat sy))
        by (change 1 with (inject_Z 1); rewrite <- Zle_Qle; lia).
      assert (Q4 : 0 < inject_Z (Z.of_nat n))
        by (change 0 with (inject_Z 0); rewrite <- Zlt_Qlt; lia).
      generalize dependent (inject_Z (Z.of_nat lx)).
      generalize dependent (inject_Z (Z.of_nat sx)).
      generalize dependent (inject_Z (Z.of_nat ly)).
      generalize dependent (inject_Z (Z.of_nat sy)).
      generalize dependent (inject_Z (Z.of_nat n)).
      intros qn Q4 qsy Q3 qly qsx Q2 qlx Q1.
      apply Qlt_shift_div_l; [exact Q4|].
      assert (E : (qlx + (qsx + 1) / 2) / qn * qn == qlx + (qsx + 1) / 2)
        by (field; lra).
      rewrite E. unfold Qdiv. change (/ 2) with (1 # 2). lra.
  - intros i Hi. unfold rank_pct. now rewrite (map_nth_error _ _ _ Hi).
Qed.

Lemma py_round_monotone (x y : Q) (n : nat) : x <= y -> py_round x n <= py_round y n.
Proof.
  intros Hxy. unfold py_round. cbv zeta.
  assert (Hs : (0 < 10 ^ Z.of_nat n)%Z) by (apply Z.pow_pos_nonneg; lia).
  assert (HsQ : 0 < inject_Z (10 ^ Z.of_nat n)).
  { change 0 with (inject_Z 0). rewrite <- Zlt_Qlt. exact Hs. }
  set (s := (10 ^ Z.of_nat n)%Z) in *.
  assert (Hy : x * inject_Z s <= y * inject_Z s) by nra.
  set (u := x * inject_Z s) in *. set (v := y * inject_Z s) in *. clearbody u v.
  pose proof (Qfloor_resp_le _ _ Hy) as Hf.
  pose proof (Qfloor_le u) as Hu1. pose proof (Qlt_floor u) as Hu2.
  pose proof (Qfloor_le v) as Hv1. pose proof (Qlt_floor v) as Hv2.
  rewrite inject_Z_plus in Hu2, Hv2. change (inject_Z 1) with 1 in Hu2, Hv2.
  unfold Qle. cbn [Qnum Qden].
  apply Z.mul_le_mono_nonneg_r; [lia|].
  destruct (Z.eq_dec (Qfloor u) (Qfloor v)) as [E|NE].
  - rewrite E in *.
    destruct (u - inject_Z (Qfloor v) ?= 1 # 2) eqn:Cu;
      destruct (v - inject_Z (Qfloor v) ?= 1 # 2) eqn:Cv;
      try (destruct (Z.odd (Qfloor v)); lia); try lia; exfalso.
    + apply Qeq_alt in Cu. apply (proj2 (Qlt_alt _ _)) in Cv. lra.
    + apply (proj2 (Qgt_alt _ _)) in Cu. apply Qeq_alt in Cv. lra.
    + apply (proj2 (Qgt_alt _ _)) in Cu. apply (proj2 (Qlt_alt _ _)) in Cv. lra.
  - assert (Hlt : (Qfloor u < Qfloor v)%Z) by lia.
    destruct (u - inject_Z (Qfloor u) ?= 1 # 2);
      destruct (v - inject_Z (Qfloor v) ?= 1 # 2);
      repeat match goal with |- context [Z.odd ?z] => destruct (Z.odd z) end; lia.
Qed.

Section Dominance.

Import ScoreSets.

Lemma filled_rank_nth (k : Key) (predictions : list Pred) (i : nat) (p : Pred) (x a : Q) :
  nth_error predictions i = Some p ->
  pnum k p = Some x ->
  nth_error (fillna (1 # 2) (rank_pct (map (pnum k) predictions))) i = Some a ->
  nth_error (map (pnum k) predictions) i = Some (Some x)
  /\ nth_error (rank_pct (map (pnum k) predictions)) i = Some (Some a).
Proof.
  intros Hp Hx Ha.
  assert (Hc : nth_error (map (pnum k) predictions) i = Some (Some x))
    by (rewrite (map_nth_error _ _ _ Hp); now rewrite Hx).
  split; [exact Hc|].
  pose proof (rank_pct_nth _ _ Hc) as Hr.
  unfold fillna in Ha. rewrite nth_error_map, Hr in Ha. simpl in Ha.
  injection Ha as <-. exact Hr.
Qed.

Lemma filled_rank_le (k : Key) (predictions : list Pred) (i j : nat) (pi pj : Pred)
  (x y a b : Q) :
  nth_error predictions i = Some pi -> nth_error predictions j = Some pj ->
  pnum k pi = Some x -> pnum k pj = Some y -> x <= y ->
  nth_error (fillna (1 # 2) (rank_pct (map (pnum k) predictions))) i = Some a ->
  nth_error (fillna (1 # 2) (rank_pct (map (pnum k) predictions))) j = Some b ->
  a <= b.
Proof.
  intros Hpi Hpj Hx Hy Hxy Ha Hb.
  destruct (@filled_rank_nth k predictions i pi x a Hpi Hx Ha) as [Cx Rx].
  destruct (@filled_rank_nth k predictions j pj y b Hpj Hy Hb) as [Cy Ry].
  destruct (proj1 (rank_pct_follows_values (map (pnum k) predictions))
              i j x y a b Cx Cy Rx Ry) as (Heq & Hlt & _).
  destruct (Qlt_le_dec x y) as [Hl|Hg].
  - apply Qlt_le_weak. now apply Hlt.
  - assert (E : x == y) by lra. rewrite (Heq E). apply Qle_refl.
Qed.

(** X13.  The composite respects dominance: if one scored set has, against
    another of the batch, a 1yr appreciation, a 1yr confidence, an
    expected 1yr profit and a risk-adjusted score that are each at least
    as high, its composite, and so its investment score rounded to two
    decimals, is at least as high. *)
Theorem composite_respects_dominance (predictions : list Pred) (i j : nat)
  (pi pj : Pred) (si sj : Q) :
  nth_error predictions i = Some pi ->
  nth_error predictions j = Some pj ->
  nth_error (composite predictions) i = Some si ->
  nth_error (composite predictions) j = Some sj ->
  (forall k, In k [k_predicted_appreciation H1yr; k_confidence H1yr;
                   k_expected_profit_1yr_gbp; k_risk_adjusted_score] ->
             exists x y, pnum k pi = Some x /\ pnum k pj = Some y /\ x <= y) ->
  si <= sj /\ py_round si 2 <= py_round sj 2.
Proof.
  intros Hpi Hpj Hsi Hsj Hdom.
  assert (Hle : si <= sj); [|split; [exact Hle|now apply py_round_monotone]].
  destruct (composite_nth _ _ Hsi) as (a & c & p & r & Ha & Hc & Hp & Hr & ->).
  destruct (composite_nth _ _ Hsj) as (a' & c' & p' & r' & Ha' & Hc' & Hp' & Hr' & ->).
  assert (La : a <= a').
  { destruct (Hdom (k_predicted_appreciation H1yr)) as (x & y & Hx & Hy & Hxy);
      [simpl; tauto|].
    exact (@filled_rank_le _ predictions i j pi pj x y a a' Hpi Hpj Hx Hy Hxy Ha Ha'). }
  assert (Lp : p <= p').
  { destruct (Hdom k_expected_profit_1yr_gbp) as (x & y & Hx & Hy & Hxy);
      [simpl; tauto|].
    exact (@filled_rank_le _ predictions i j pi pj x y p p' Hpi Hpj Hx Hy Hxy Hp Hp'). }
  assert (Lr : r <= r').
  { destruct (Hdom k_risk_adjusted_score) as (x & y & Hx & Hy & Hxy);
      [simpl; tauto|].
    exact (@filled_rank_le _ predictions i j pi pj x y r r' Hpi Hpj Hx Hy Hxy Hr Hr'). }
  assert (Lc : c <= c').
  { destruct (Hdom (k_confidence H1yr)) as (x & y & Hx & Hy & Hxy); [simpl; tauto|].
    unfold fillna in Hc, Hc'. rewrite !nth_error_map in Hc, Hc'.
    rewrite Hpi in Hc. rewrite Hpj in Hc'. simpl in Hc, Hc'.
    rewrite Hx in Hc. rewrite Hy in Hc'.
    injection Hc as <-. injection Hc' as <-. exact Hxy. }
  unfold SCORE_WEIGHTS. lra.
Qed.

End Dominance.

(** ** The walk-forward search of the trainer *)

Lemma filter_length_impl (A : Type) (p q : A -> bool) (l : list A) :
  (forall x, p x = true -> q x = true) ->
  (length (filter p l) <= length (filter q l))%nat.
Proof.
  intros Hpq. induction l as [|a l IH]; simpl; [lia|].
  destruct (p a) eqn:Ep.
  - rewrite (Hpq a Ep). simpl. lia.
  - destruct (q a); simpl; lia.
Qed.

Lemma In_CV_FOLDS (fold : Fold) :
  In fold CV_FOLDS ->
  (2018 <= train_end fold <= 2022)%Z
  /\ (val fold = train_end fold + 1)%Z
  /\ (test fold = train_end fold + 2)%Z.
Proof.
  unfold CV_FOLDS. simpl.
  intros [<-|[<-|[<-|[<-|[<-|[]]]]]]; simpl; lia.
Qed.

Section WalkForward.

Import Trainer.
Context `{Tuner}.

Lemma searched_dec (hdf : list Row) (fold : Fold) :
  (length (train_rows hdf fold) <? 30)%nat || (length (val_rows hdf fold) <? 5)%nat = false
  <-> Spec.searched hdf fold.
Proof.
  unfold Spec.searched. rewrite orb_false_iff, !Nat.ltb_ge. tauto.
Qed.

Lemma search_over (hdf : list Row) (folds : list Fold) :
  match fold_left (search_step hdf) folds None with
  | None => forall fold, In fold folds -> ~ Spec.searched hdf fold
  | Some best =>
    (exists fold, In fold folds /\ Spec.searched hdf fold /\ best = study_of hdf fold)
    /\ (forall fold, In fold folds -> Spec.searched hdf fold ->
                     fst best <= fst (study_of hdf fold))
  end.
Proof.
  induction folds as [|x folds IH] using rev_ind.
  - simpl. intros fold [].
  - rewrite fold_left_app. simpl.
    destruct (fold_left (search_step hdf) folds None) as [[bv bp]|] eqn:E.
    + destruct IH as [(f0 & Hin0 & Hs0 & Hb0) Hmin].
      unfold search_step.
      destruct ((length (train_rows hdf x) <? 30)%nat
                || (length (val_rows hdf x) <? 5)%nat) eqn:Eq.
      * split.
        -- exists f0. rewrite in_app_iff. auto.
        -- intros fold Hin Hs. rewrite in_app_iff in Hin.
           destruct Hin as [Hin|[<-|[]]]; [exact (Hmin fold Hin Hs)|].
           apply searched_dec in Hs. congruence.
      * apply searched_dec in Eq.
        destruct (Qltb (fst (study_of hdf x)) bv) eqn:El.
        -- apply Qltb_lt in El. split.
           ++ exists x. rewrite in_app_iff. simpl. auto.
           ++ intros fold Hin Hs. rewrite in_app_iff in Hin.
              destruct Hin as [Hin|[<-|[]]]; [|apply Qle_refl].
              specialize (Hmin fold Hin Hs). simpl in Hmin.
              apply Qlt_le_weak. eapply Qlt_le_trans; eassumption.
        -- split.
           ++ exists f0. rewrite in_app_iff. auto.
           ++ intros fold Hin Hs. rewrite in_app_iff in Hin.
              destruct Hin as [Hin|[<-|[]]]; [exact (Hmin fold Hin Hs)|].
              simpl. apply Qnot_lt_le. intros Hlt.
              apply Qltb_lt in Hlt. congruence.
    + unfold search_step.
      destruct ((length (train_rows hdf x) <? 30)%nat
                || (length (val_rows hdf x) <? 5)%nat) eqn:Eq.
      * intros fold Hin Hs. rewrite in_app_iff in Hin.
        destruct Hin as [Hin|[<-|[]]]; [exact (IH fold Hin Hs)|].
        apply searched_dec in Hs. congruence.
      * apply searched_dec in Eq. split.
        -- exists x. rewrite in_app_iff. simpl. auto.
        -- intros fold Hin Hs. rewrite in_app_iff in Hin.
           destruct Hin as [Hin|[<-|[]]]; [|apply Qle_refl].
           exfalso. exact (IH fold Hin Hs).
Qed.

(** X14.  The hyperparameters the trainer keeps are those of the study
    with the lowest validation MAE among the folds that have at least 30
    training rows and 5 validation rows; nothing is kept exactly when no
    fold of CV_FOLDS has that many. *)
Theorem search_picks_lowest_mae (hdf : list Row) :
  match search hdf with
  | None => forall fold, In fold CV_FOLDS -> ~ Spec.searched hdf fold
  | Some best =>
    (exists fold, In fold CV_FOLDS /\ Spec.searched hdf fold
                  /\ best = study_of hdf fold)
    /\ (forall fold, In fold CV_FOLDS -> Spec.searched hdf fold ->
                     fst best <= fst (study_of hdf fold))
  end.
Proof.
  exact (search_over hdf CV_FOLDS).
Qed.

Lemma final_split_length (hdf : list Row) :
  (length (filter (fun r => (retirement_year r <=? 2023)%Z) hdf)
   + length (filter (fun r => (2024 <=? retirement_year r)%Z) hdf)
   = length hdf)%nat.
Proof.
  induction hdf as [|r l IH]; simpl; [reflexivity|].
  destruct (retirement_year r <=? 2023)%Z eqn:E1;
    destruct (2024 <=? retirement_year r)%Z eqn:E2; simpl; lia.
Qed.

(** X15.  When the trainer fits a horizon, the final models are fitted
    on at least 30 rows, all with a target and retired in 2023 or
    earlier; the rows held out for the test all retired in 2024 or
    later, and the two groups together are exactly the rows that have
    the target, at least 50 of them.  One model is fitted per quantile,
    in the order p25, p50, p75. *)
Theorem final_fit_rows (df : list Row) (t : Trained) :
  train_for_horizon df = Some t ->
  (30 <= length (final_train t))%nat
  /\ (forall r, In r (final_train t) ->
                In r df /\ target r <> None /\ (retirement_year r <= 2023)%Z)
  /\ (forall r, In r (final_test t) ->
                In r df /\ target r <> None /\ (2024 <= retirement_year r)%Z)
  /\ (length (final_train t) + length (final_test t)
      = length (filter (fun r => notna (target r)) df))%nat
  /\ (50 <= length (filter (fun r => notna (target r)) df))%nat
  /\ map fst (fitted t) = [p25; p50; p75].
Proof.
  unfold train_for_horizon.
  set (hdf := filter (fun r => notna (target r)) df).
  destruct (length hdf <? 50)%nat eqn:E50; [discriminate|].
  apply Nat.ltb_ge in E50.
  pose proof (search_over hdf CV_FOLDS) as Hs. fold (search hdf) in Hs.
  destruct (search hdf) as [[mae params]|]; [|discriminate].
  intros [= <-]. simpl.
  destruct Hs as [(fold & Hin & [H30 _] & _) _].
  assert (Hhdf : forall r, In r hdf -> In r df /\ target r <> None).
  { intros r Hr. apply filter_In in Hr. destruct Hr as [Hr Hn].
    split; [exact Hr|]. destruct (target r); [discriminate|discriminate Hn]. }
  repeat split.
  - eapply Nat.le_trans; [exact H30|].
    unfold train_rows. apply filter_length_impl.
    intros r Hr. apply In_CV_FOLDS in Hin.
    apply Z.leb_le in Hr. apply Z.leb_le. lia.
  - apply filter_In in H0. apply Hhdf, H0.
  - apply filter_In in H0. apply Hhdf, H0.
  - apply filter_In in H0. apply Z.leb_le, H0.
  - apply filter_In in H0. apply Hhdf, H0.
  - apply filter_In in H0. apply Hhdf, H0.
  - apply filter_In in H0. apply Z.leb_le, H0.
  - apply final_split_length.
  - exact E50.
Qed.

End WalkForward.

(** ** Paginated queries *)

Section Pagination.

Import ScoringFeatures.

Variable A : Type.

Lemma range_execute_page (result : list A) (offset page_size : nat) :
  (0 < page_size)%nat ->
  range_execute result offset (offset + page_size - 1)
  = firstn page_size (skipn offset result).
Proof.
  intros Hp. unfold range_execute, slice.
  replace (offset + page_size - 1 + 1 - offset)%nat with page_size by lia.
  reflexivity.
Qed.

Lemma paginate_from (result : list A) (page_size : nat) :
  (0 < page_size)%nat ->
  forall fuel offset,
    (length result < offset + fuel * page_size)%nat ->
    paginate fuel page_size (range_execute result) offset = skipn offset result.
Proof.
  intros Hp. induction fuel as [|fuel IH]; intros offset Hlen.
  - simpl in *. symmetry. apply skipn_all2. lia.
  - cbn [paginate]. rewrite (range_execute_page result offset Hp).
    set (l := skipn offset result).
    assert (Hl : length l = (length result - offset)%nat)
      by (unfold l; apply length_skipn).
    destruct (firstn page_size l) as [|a data] eqn:Ed.
    + destruct l as [|b l']; [reflexivity|].
      destruct page_size; [lia|discriminate Ed].
    + rewrite <- Ed.
      pose proof (length_firstn page_size l) as Hf.
      destruct (Nat.ltb_spec (length (firstn page_size l)) page_size) as [Hlt|Hge].
      * apply firstn_all2. lia.
      * rewrite IH by (simpl in Hlen; lia).
        replace (offset + page_size)%nat with (page_size + offset)%nat by lia.
        rewrite <- skipn_skipn. fold l. apply firstn_skipn.
Qed.

(** X16.  A paginated query returns every row of the query's result
    exactly once and in order, whatever the number of rows (also a
    multiple of the page size, where the last request gets an empty
    page), once the number of requests allowed covers them. *)
Theorem paginated_query_returns_every_row (result : list A) (fuel : nat) :
  (length result < fuel * 1000)%nat ->
  paginated_query fuel (range_execute result) = result.
Proof.
  intros Hlen. unfold paginated_query.
  rewrite paginate_from by lia. reflexivity.
Qed.

End Pagination.

(** ** The portfolio backtest *)

Section Backtest.

Import ValidateModel.

Lemma split_groups_spec (A : Type) (arg_top_n : Z) (l : list A)
  (k : nat) (top middle bottom : list A) :
  split_groups arg_top_n l = Some (k, top, middle, bottom) ->
  (5 <= k)%nat /\ (Z.of_nat k <= arg_top_n)%Z /\ (3 * k <= length l)%nat
  /\ l = top ++ middle ++ bottom
  /\ length top = k /\ length bottom = k
  /\ length middle = (length l - 2 * k)%nat.
Proof.
  unfold split_groups.
  set (a := Z.min arg_top_n (Z.of_nat (length l) / 3)).
  destruct (a <? 5)%Z eqn:E5; [discriminate|].
  apply Z.ltb_ge in E5.
  assert (Ha1 : (a <= arg_top_n)%Z) by (unfold a; lia).
  assert (Ha2 : (3 * a <= Z.of_nat (length l))%Z).
  { assert (a <= Z.of_nat (length l) / 3)%Z by (unfold a; lia).
    pose proof (Z.mul_div_le (Z.of_nat (length l)) 3 ltac:(lia)). lia. }
  clearbody a.
  assert (Hk : (3 * Z.to_nat a <= length l)%nat) by lia.
  destruct (Nat.ltb_spec (2 * Z.to_nat a) (length l)) as [H2|H2]; [|lia].
  intros [= <- <- <- <-].
  set (k := Z.to_nat a) in *.
  repeat split; try lia.
  - unfold iloc_between, tail.
    rewrite <- (firstn_skipn k l) at 1. apply f_equal.
    rewrite <- (firstn_skipn (length l - k - k) (skipn k l)) at 1. apply f_equal.
    rewrite skipn_skipn. apply (f_equal (fun i => skipn i l)). lia.
  - rewrite length_firstn. lia.
  - unfold tail. rewrite length_skipn. lia.
  - unfold iloc_between. rewrite length_firstn, length_skipn. lia.
Qed.

Context `{FloatLib} `{FoldLearner}.

Lemma length_investment_scores (cs : list Candidate) :
  length (investment_scores cs) = length cs.
Proof.
  unfold investment_scores.
  rewrite length_map, !length_combine, !length_fillna, !length_rank_pct, !length_map.
  lia.
Qed.

Lemma length_sorted_by_score (cs : list Candidate) :
  length (sorted_by_score cs) = length cs.
Proof.
  unfold sorted_by_score.
  rewrite length_sort_by, length_combine, length_investment_scores. lia.
Qed.

Lemma backtest_groups_partition_aux (hdf : list TestRow) (arg_top_n : Z)
  (fold : Fold) (res : FoldResult) :
  backtest_fold hdf arg_top_n fold = Some res ->
  (5 <= top_n res)%nat
  /\ length (sets (top_group res)) = top_n res
  /\ length (sets (bottom_group res)) = top_n res
  /\ exists middle,
       sorted_by_score (candidates (train_part hdf fold) (test_part hdf fold))
       = sets (top_group res) ++ middle ++ sets (bottom_group res).
Proof.
  unfold backtest_fold.
  destruct (_ || _); [discriminate|].
  destruct (split_groups _ _) as [[[[k top] middle] bottom]|] eqn:Esp; [|discriminate].
  apply split_groups_spec in Esp.
  destruct Esp as (H5 & Hle & H3 & Hcat & Ht & Hb & Hm).
  intros [= <-]. cbn. repeat split; try assumption.
  exists middle. exact Hcat.
Qed.

(** X17.  A fold of the backtest is reported only with at least 30
    training rows and at least 15 test rows.  Its top and bottom groups
    have the same size, between 5 and the requested top-N and at most a
    third of the test rows; the middle group is always present and at
    least as large; the three groups are the ranked test rows cut in
    three, without overlap or loss. *)
Theorem backtest_groups_partition (hdf : list TestRow) (arg_top_n : Z)
  (fold : Fold) (res : FoldResult) :
  backtest_fold hdf arg_top_n fold = Some res ->
  (30 <= train_size res)%nat /\ (15 <= test_size res)%nat
  /\ (5 <= top_n res)%nat /\ (Z.of_nat (top_n res) <= arg_top_n)%Z
  /\ (3 * top_n res <= test_size res)%nat
  /\ n (top_group res) = top_n res /\ n (bottom_group res) = top_n res
  /\ exists middle mg,
       middle_group res = Some mg
       /\ middle_n mg = length middle
       /\ (top_n res <= middle_n mg)%nat
       /\ (n (top_group res) + middle_n mg + n (bottom_group res)
           = test_size res)%nat
       /\ sorted_by_score (candidates (train_part hdf fold) (test_part hdf fold))
          = sets (top_group res) ++ middle ++ sets (bottom_group res).
Proof.
  unfold backtest_fold.
  destruct ((length (train_part hdf fold) <? 30)%nat
            || (length (test_part hdf fold) <? 10)%nat) eqn:Es; [discriminate|].
  apply orb_false_iff in Es as [E30 E10]. apply Nat.ltb_ge in E30, E10.
  set (sorted_df := sorted_by_score (candidates (train_part hdf fold) (test_part hdf fold))).
  assert (Hlen : length sorted_df = length (test_part hdf fold)).
  { unfold sorted_df. rewrite length_sorted_by_score.
    unfold candidates. now rewrite length_map. }
  destruct (split_groups arg_top_n sorted_df) as [[[[k top] middle] bottom]|] eqn:Esp;
    [|discriminate].
  apply split_groups_spec in Esp.
  destruct Esp as (H5 & Hle & H3 & Hcat & Ht & Hb & Hm).
  intros [= <-]. simpl. rewrite Hlen in *.
  repeat split; try lia.
  exists middle.
  destruct middle as [|m0 middle'] eqn:Em.
  - simpl in Hm. lia.
  - exists (middle_of (m0 :: middle')).
    split; [reflexivity|]. split; [reflexivity|].
    unfold middle_of; cbn [middle_n]. rewrite Hm.
    split; [lia|]. split; [lia|]. exact Hcat.
Qed.

End Backtest.

(** ** Ranking in the backtest *)

Lemma insert_by_strongly_sorted (A : Type) (leb : A -> A -> bool) (x : A) (l : list A) :
  (forall a b, leb a b = false -> leb b a = true) ->
  (forall a b c, leb a b = true -> leb b c = true -> leb a c = true) ->
  StronglySorted (fun a b => leb a b = true) l ->
  StronglySorted (fun a b => leb a b = true) (insert_by leb x l).
Proof.
  intros Htot Htr. induction 1 as [|y t Hs IH Hy]; simpl.
  - constructor; constructor.
  - destruct (leb x y) eqn:E.
    + constructor; [constructor; assumption|].
      constructor; [exact E|].
      rewrite Forall_forall in *. intros z Hz. exact (Htr _ _ _ E (Hy z Hz)).
    + constructor; [exact IH|].
      rewrite Forall_forall in *. intros z Hz.
      apply In_insert_by in Hz as [->|Hz]; [now apply Htot|now apply Hy].
Qed.

Lemma sort_by_strongly_sorted (A : Type) (leb : A -> A -> bool) (l : list A) :
  (forall a b, leb a b = false -> leb b a = true) ->
  (forall a b c, leb a b = true -> leb b c = true -> leb a c = true) ->
  StronglySorted (fun a b => leb a b = true) (sort_by leb l).
Proof.
  intros Htot Htr. induction l as [|x t IH]; simpl; [constructor|].
  now apply insert_by_strongly_sorted.
Qed.

Lemma strongly_sorted_app (A : Type) (R : A -> A -> Prop) (l1 l2 : list A) :
  StronglySorted R (l1 ++ l2) ->
  forall a b, In a l1 -> In b l2 -> R a b.
Proof.
  induction l1 as [|x t IH]; simpl; intros Hs a b Ha Hb; [contradiction|].
  inversion Hs as [|? ? Hs' Hx]; subst.
  destruct Ha as [<-|Ha].
  - rewrite Forall_forall in Hx. apply Hx. apply in_or_app. now right.
  - now apply IH.
Qed.

Lemma lenQ_pos (A : Type) (l : list A) : l <> [] -> 0 < lenQ l.
Proof.
  intros Hne. unfold lenQ. destruct l as [|x t]; [congruence|].
  change 0 with (inject_Z 0). rewrite <- Zlt_Qlt. simpl length. lia.
Qed.

Lemma lenQ_cons (A : Type) (x : A) (l : list A) : lenQ (x :: l) == 1 + lenQ l.
Proof.
  unfold lenQ. simpl length. rewrite Nat2Z.inj_succ. unfold Z.succ.
  rewrite inject_Z_plus. change (inject_Z 1) with 1. ring.
Qed.

Lemma sumQ_ge (c : Q) (l : list Q) :
  (forall x, In x l -> c <= x) -> c * lenQ l <= sumQ l.
Proof.
  induction l as [|x t IH]; intros Hc.
  - change (lenQ (@nil Q)) with 0. simpl. rewrite Qmult_0_r. apply Qle_refl.
  - rewrite lenQ_cons. simpl sumQ.
    assert (c <= x) by (apply Hc; now left).
    assert (c * lenQ t <= sumQ t) by (apply IH; intros y Hy; apply Hc; now right).
    lra.
Qed.

Lemma sumQ_le (c : Q) (l : list Q) :
  (forall x, In x l -> x <= c) -> sumQ l <= c * lenQ l.
Proof.
  induction l as [|x t IH]; intros Hc.
  - change (lenQ (@nil Q)) with 0. simpl. rewrite Qmult_0_r. apply Qle_refl.
  - rewrite lenQ_cons. simpl sumQ.
    assert (x <= c) by (apply Hc; now left).
    assert (sumQ t <= c * lenQ t) by (apply IH; intros y Hy; apply Hc; now right).
    lra.
Qed.

Lemma mean_ge (c : Q) (l : list Q) :
  l <> [] -> (forall x, In x l -> c <= x) ->
  exists m, mean l = Some m /\ c <= m.
Proof.
  intros Hne Hc. pose proof (lenQ_pos Hne) as Hp. pose proof (@sumQ_ge c l Hc) as Hs.
  destruct l as [|x t]; [congruence|].
  eexists. split; [reflexivity|].
  apply Qle_shift_div_l; assumption.
Qed.

Lemma mean_le (c : Q) (l : list Q) :
  l <> [] -> (forall x, In x l -> x <= c) ->
  exists m, mean l = Some m /\ m <= c.
Proof.
  intros Hne Hc. pose proof (lenQ_pos Hne) as Hp. pose proof (@sumQ_le c l Hc) as Hs.
  destruct l as [|x t]; [congruence|].
  eexists. split; [reflexivity|].
  apply Qle_shift_div_r; assumption.
Qed.

Section BacktestRanking.

Import ValidateModel.
Context `{FloatLib} `{FoldLearner}.

Lemma sorted_by_score_descending (cs : list Candidate) :
  StronglySorted (fun a b : Candidate * Q => Qle_bool (snd b) (snd a) = true)
                 (sorted_by_score cs).
Proof.
  unfold sorted_by_score. apply sort_by_strongly_sorted.
  - intros a b E. apply Qle_bool_iff.
    destruct (Qle_bool (snd b) (snd a)) eqn:E'; [discriminate|].
    apply Qlt_le_weak, Qnot_le_lt. intros Hle.
    apply Qle_bool_iff in Hle. congruence.
  - intros a b c H1 H2. apply Qle_bool_iff in H1, H2. apply Qle_bool_iff.
    eapply Qle_trans; eassumption.
Qed.

(** X18.  In a reported fold of the backtest every set of the top group
    has an investment score at least as high as every set of the bottom
    group, and the reported mean score of the top group is not below
    that of the bottom group. *)
Theorem backtest_top_outscores_bottom (hdf : list TestRow) (arg_top_n : Z)
  (fold : Fold) (res : FoldResult) :
  backtest_fold hdf arg_top_n fold = Some res ->
  (forall a b, In a (sets (top_group res)) -> In b (sets (bottom_group res)) ->
               snd b <= snd a)
  /\ exists st sb,
       mean_score (top_group res) = Some st
       /\ mean_score (bottom_group res) = Some sb
       /\ sb <= st.
Proof.
  intros Hres.
  destruct (backtest_groups_partition_aux hdf arg_top_n fold Hres)
    as (H5 & Ht & Hb & middle & Hcat).
  pose proof (sorted_by_score_descending
                (candidates (train_part hdf fold) (test_part hdf fold))) as Hs.
  rewrite Hcat in Hs.
  assert (Hord : forall a b, In a (sets (top_group res)) ->
                             In b (sets (bottom_group res)) -> snd b <= snd a).
  { intros a b Ha Hb'. apply Qle_bool_iff.
    apply (strongly_sorted_app _ _ Hs a b Ha).
    apply in_or_app. now right. }
  split; [exact Hord|].
  unfold backtest_fold in Hres.
  destruct (_ || _); [discriminate|].
  destruct (split_groups _ _) as [[[[k top] mid] bottom]|]; [|discriminate].
  injection Hres as <-. cbn in *.
  assert (Htop : top <> []) by (intros ->; simpl in Ht; lia).
  assert (Hbot : bottom <> []) by (intros ->; simpl in Hb; lia).
  assert (Hbot' : map snd bottom <> [])
    by (destruct bottom; [congruence|discriminate]).
  assert (Htop' : map snd top <> [])
    by (destruct top; [congruence|discriminate]).
  destruct top as [|t0 top']; [congruence|].
  destruct (@mean_le (snd t0) (map snd bottom) Hbot') as (sb & Esb & _).
  { intros x Hx. apply in_map_iff in Hx as (b & <- & Hb'). apply Hord; [now left|exact Hb']. }
  destruct (@mean_ge sb (map snd (t0 :: top')) Htop') as (st & Est & Hle).
  { intros x Hx. apply in_map_iff in Hx as (a & <- & Ha).
    destruct (@mean_le (snd a) (map snd bottom) Hbot') as (sb' & Esb' & Hle').
    { intros y Hy. apply in_map_iff in Hy as (b & <- & Hb'). now apply Hord. }
    rewrite Esb in Esb'. injection Esb' as <-. exact Hle'. }
  exists (py_round st 2), (py_round sb 2).
  unfold round_opt. rewrite Est, Esb. cbn.
  split; [reflexivity|]. split; [reflexivity|].
  now apply py_round_monotone.
Qed.

End BacktestRanking.

Lemma spread_confidence_range (p25 p75 : Q) :
  0 < 1 / (1 + Qabs (p75 - p25)) /\ 1 / (1 + Qabs (p75 - p25)) <= 1.
Proof.
  pose proof (Qabs_nonneg (p75 - p25)) as Hn.
  split.
  - apply Qlt_shift_div_l; lra.
  - apply Qle_shift_div_r; lra.
Qed.

Section BacktestScores.

Import ValidateModel.
Context `{FloatLib} `{FoldLearner}.

Lemma as_prediction_columns (cs : list Candidate) :
  map (ScoreSets.pnum (ScoreSets.k_predicted_appreciation H1yr))
      (map Spec.as_prediction cs)
  = map (fun c => Some (pred_appreciation c)) cs
  /\ map (ScoreSets.pnum ScoreSets.k_expected_profit_1yr_gbp) (map Spec.as_prediction cs)
     = map (fun c => Some (pred_profit c)) cs
  /\ map (ScoreSets.pnum ScoreSets.k_risk_adjusted_score) (map Spec.as_prediction cs)
     = map (fun c => Some (risk_adjusted_col c)) cs
  /\ map (ScoreSets.pnum (ScoreSets.k_confidence H1yr)) (map Spec.as_prediction cs)
     = map (fun c => Some (confidence c)) cs.
Proof.
  repeat split; rewrite map_map; apply map_ext; intros c; reflexivity.
Qed.

Lemma investment_scores_composite (cs : list Candidate) :
  investment_scores cs = ScoreSets.composite (map Spec.as_prediction cs).
Proof.
  destruct (as_prediction_columns cs) as (E1 & E2 & E3 & E4).
  unfold investment_scores, ScoreSets.composite. cbv zeta.
  now rewrite E1, E2, E3, E4.
Qed.

(** X19.  The backtest ranks the test rows with the scorer's own
    composite: its investment_score column is the composite of
    score_sets.py computed on records that hold the backtest's predicted
    appreciation, confidence, expected profit and risk-adjusted score.
    Every such score lies above 0 and is at most 10. *)
Theorem backtest_scores_as_scorer (train test_rows : list TestRow) :
  investment_scores (candidates train test_rows)
  = ScoreSets.composite (map Spec.as_prediction (candidates train test_rows))
  /\ forall s, In s (investment_scores (candidates train test_rows)) ->
               0 < s /\ s <= 10.
Proof.
  split; [apply investment_scores_composite|].
  intros s Hs. rewrite investment_scores_composite in Hs.
  apply In_nth_error in Hs as [i Hi].
  destruct (composite_nth _ _ Hi) as (a & c & p & r & Ha & Hc & Hp & Hr & ->).
  apply nth_error_In in Ha, Hp, Hr.
  apply fillna_rank_range in Ha, Hp, Hr.
  destruct (as_prediction_columns (candidates train test_rows)) as (_ & _ & _ & E4).
  rewrite E4 in Hc.
  assert (Hcr : 0 < c /\ c <= 1).
  { apply nth_error_In in Hc. unfold fillna in Hc. rewrite map_map in Hc.
    apply in_map_iff in Hc as (x & <- & Hx).
    unfold candidates in Hx. apply in_map_iff in Hx as (r0 & <- & _).
    cbn [confidence].
    apply (spread_confidence_range
             (predict_in (map row train) (25 # 100) (map row test_rows) (row r0))
             (predict_in (map row train) (75 # 100) (map row test_rows) (row r0))). }
  unfold SCORE_WEIGHTS. lra.
Qed.

End BacktestScores.

(** ** Coverage rates *)

Lemma lenQ_le (A B : Type) (l1 : list A) (l2 : list B) :
  (length l1 <= length l2)%nat -> lenQ l1 <= lenQ l2.
Proof.
  intros Hle. unfold lenQ. rewrite <- Zle_Qle. lia.
Qed.

Lemma lenQ_nonneg (A : Type) (l : list A) : 0 <= lenQ l.
Proof.
  unfold lenQ. change 0 with (inject_Z 0). rewrite <- Zle_Qle. lia.
Qed.

Lemma Qdiv_le_same (x y d : Q) : 0 < d -> x <= y -> x / d <= y / d.
Proof.
  intros Hd Hxy. unfold Qdiv. apply Qmult_le_compat_r; [exact Hxy|].
  apply Qlt_le_weak, Qinv_lt_0_compat, Hd.
Qed.

Lemma coverage_counts (a lo hi : list Q) :
  length a = length lo -> Forall2 Qle lo hi ->
  (Spec.below_count a lo <= Spec.below_count a hi)%nat
  /\ (Spec.below_count a hi
      <= length (filter (fun t => match t with
                                  | (x, l, h) => Qle_bool l x && Qle_bool x h
                                  end)
                        (combine (combine a lo) hi))
         + Spec.below_count a lo)%nat
  /\ (Spec.below_count a hi <= length a)%nat
  /\ (length (filter (fun t => match t with
                               | (x, l, h) => Qle_bool l x && Qle_bool x h
                               end)
                     (combine (combine a lo) hi)) <= length a)%nat.
Proof.
  intros Hlen Hle. revert a Hlen.
  induction Hle as [|l h lo hi Hlh _ IH]; intros [|x a] Hlen; try discriminate Hlen.
  - cbn. lia.
  - injection Hlen as Hlen. specialize (IH a Hlen).
    unfold Spec.below_count in *. cbn [combine filter fst snd].
    destruct (Qltb x l) eqn:E1; destruct (Qltb x h) eqn:E2;
      destruct (Qle_bool l x) eqn:E3; destruct (Qle_bool x h) eqn:E4;
      cbn [andb length]; try lia; exfalso.
    all: try (apply Qltb_lt in E1).
    all: try (apply Qltb_lt in E2).
    all: try (apply Qle_bool_iff in E3).
    all: try (apply Qle_bool_iff in E4).
    all: try (assert (~ x < l) by (intros C; apply Qltb_lt in C; congruence)).
    all: try (assert (~ x < h) by (intros C; apply Qltb_lt in C; congruence)).
    all: try (assert (~ l <= x) by (intros C; apply Qle_bool_iff in C; congruence)).
    all: try (assert (~ x <= h) by (intros C; apply Qle_bool_iff in C; congruence)).
    all: lra.
Qed.

Lemma Forall2_concat (A B : Type) (R : A -> B -> Prop) (F : Type)
  (f : F -> list A) (g : F -> list B) (folds : list F) :
  Forall (fun x => Forall2 R (f x) (g x)) folds ->
  Forall2 R (concat (map f folds)) (concat (map g folds)).
Proof.
  induction 1 as [|x t Hx _ IH]; simpl; [constructor|].
  now apply Forall2_app.
Qed.

Lemma Forall2_map_same (A B : Type) (R : B -> B -> Prop) (f g : A -> B) (l : list A) :
  (forall x, R (f x) (g x)) -> Forall2 R (map f l) (map g l).
Proof.
  intros Hfg. induction l; simpl; constructor; auto.
Qed.

Section Coverage.

Import ValidateModel.
Context `{Learner}.

Lemma evaluated_folds_ordered (hdf : list Row) :
  Spec.non_crossing ->
  Forall (fun f => Forall2 Qle (preds_p25 f) (preds_p50 f)
                   /\ Forall2 Qle (preds_p50 f) (preds_p75 f)
                   /\ Forall2 Qle (preds_p25 f) (preds_p75 f))
         (evaluated_folds hdf).
Proof.
  intros Hnc. unfold evaluated_folds. apply Forall_forall. intros f Hf.
  apply in_flat_map in Hf as (fold & _ & Hf).
  unfold eval_fold in Hf. cbv zeta in Hf.
  destruct (_ || _); [contradiction|].
  destruct Hf as [<-|[]]. cbn.
  repeat split; apply Forall2_map_same; intros r;
    destruct (Hnc (filter (fun r0 => (retirement_year r0 <=? train_end fold)%Z) hdf) r);
    [assumption|assumption|eapply Qle_trans; eassumption].
Qed.

(** X20.  When the three quantile predictions of the learner do not
    cross, the overall coverage rates of a horizon are ordered and are
    fractions: 0 <= below p25 <= below p50 <= below p75 <= 1, and the
    share of actuals inside the p25-p75 interval is at least the
    difference of the rates below p75 and below p25, and at most 1. *)
Theorem coverage_rates_ordered (df : list Row) (agg : Aggregate) :
  Spec.non_crossing ->
  run_quantile_calibration df = Some (Some agg) ->
  0 <= agg_below_p25 agg
  /\ agg_below_p25 agg <= agg_below_p50 agg
  /\ agg_below_p50 agg <= agg_below_p75 agg
  /\ agg_below_p75 agg <= 1
  /\ agg_below_p75 agg - agg_below_p25 agg <= agg_within_iqr agg
  /\ agg_within_iqr agg <= 1.
Proof.
  intros Hnc. unfold run_quantile_calibration. cbv zeta.
  set (hdf := filter (fun r => notna (target r)) df).
  destruct (length hdf <? 50)%nat; [discriminate|]. intros [= Hagg].
  assert (Hall : Forall (fun r => notna (target r) = true) hdf).
  { apply Forall_forall. intros r Hr. now apply filter_In in Hr. }
  pose proof (@evaluated_folds_lengths _ hdf Hall) as Hlen.
  pose proof (evaluated_folds_ordered hdf Hnc) as Hord.
  set (folds := evaluated_folds hdf) in *.
  unfold aggregate in Hagg. cbv zeta in Hagg. unfold pool in Hagg.
  destruct (pool_from folds {| all_actuals := []; all_p25 := []; all_p50 := [];
                              all_p75 := [] |}) as (E0 & E25 & E50 & E75).
  cbn [all_actuals all_p25 all_p50 all_p75 app] in E0, E25, E50, E75.
  rewrite E0, E25, E50, E75 in Hagg.
  set (A := concat (map y_test folds)) in *.
  set (P25 := concat (map preds_p25 folds)) in *.
  set (P50 := concat (map preds_p50 folds)) in *.
  set (P75 := concat (map preds_p75 folds)) in *.
  assert (H2550 : Forall2 Qle P25 P50).
  { apply Forall2_concat. eapply Forall_impl; [|exact Hord]. cbn. tauto. }
  assert (H5075 : Forall2 Qle P50 P75).
  { apply Forall2_concat. eapply Forall_impl; [|exact Hord]. cbn. tauto. }
  assert (H2575 : Forall2 Qle P25 P75).
  { apply Forall2_concat. eapply Forall_impl; [|exact Hord]. cbn. tauto. }
  assert (HlenA : forall sel : FoldPreds -> list Q, Forall (fun f => length (y_test f) = length (sel f)) folds ->
                              length A = length (concat (map sel folds))).
  { intros sel Hs. unfold A. clear -Hs.
    induction Hs as [|f t Hf _ IH]; simpl; [reflexivity|].
    rewrite !length_app. congruence. }
  assert (L25 : length A = length P25).
  { apply HlenA. eapply Forall_impl; [|exact Hlen]. cbn. tauto. }
  assert (L50 : length A = length P50).
  { apply HlenA. eapply Forall_impl; [|exact Hlen]. cbn. tauto. }
  destruct (coverage_counts A L25 H2550) as (C1 & _ & _ & _).
  destruct (coverage_counts A L50 H5075) as (C2 & _ & C3 & _).
  destruct (coverage_counts A L25 H2575) as (_ & C4 & _ & C5).
  destruct A as [|a0 t0] eqn:EA; [discriminate|].
  rewrite <- EA in *. injection Hagg as <-.
  cbn [agg_below_p25 agg_below_p50 agg_below_p75 agg_within_iqr].
  assert (Hd : 0 < lenQ A) by (apply lenQ_pos; rewrite EA; discriminate).
  unfold frac_below, frac_within. unfold Spec.below_count in *.
  set (b25 := filter _ (combine A P25)) in *.
  set (b50 := filter _ (combine A P50)) in *.
  set (b75 := filter _ (combine A P75)) in *.
  set (w := filter _ (combine (combine A P25) P75)) in *.
  repeat split.
  - apply Qle_shift_div_l; [exact Hd|]. rewrite Qmult_0_l. apply lenQ_nonneg.
  - apply Qdiv_le_same; [exact Hd|]. now apply lenQ_le.
  - apply Qdiv_le_same; [exact Hd|]. now apply lenQ_le.
  - apply Qle_shift_div_r; [exact Hd|]. rewrite Qmult_1_l. now apply lenQ_le.
  - assert (Hq : lenQ b75 <= lenQ w + lenQ b25).
    { unfold lenQ. rewrite <- inject_Z_plus, <- Zle_Qle. lia. }
    assert (E : lenQ b75 / lenQ A - lenQ b25 / lenQ A == (lenQ b75 - lenQ b25) / lenQ A)
      by (field; lra).
    rewrite E. apply Qdiv_le_same; [exact Hd|]. lra.
  - apply Qle_shift_div_r; [exact Hd|]. rewrite Qmult_1_l. now apply lenQ_le.
Qed.

End Coverage.

(** ** Theme statistics at scoring time *)

Lemma filter_filter_and (A : Type) (f g : A -> bool) (l : list A) :
  filter f (filter g l) = filter (fun x => f x && g x) l.
Proof.
  induction l as [|x t IH]; simpl; [reflexivity|].
  destruct (g x); simpl; [|now rewrite andb_false_r].
  rewrite andb_true_r. destruct (f x); now rewrite IH.
Qed.

Section ThemeStats.

Import EngineerFeatures.
Context `{FloatLib}.

Lemma theme_stats_rows (merged : list Row) (h : Horizon) (t : string) (X : Row) :
  theme X = Some t ->
  (forall r, In r merged -> (exit_date r < exit_date X)%Z) ->
  filter (theme_is t) (filter (fun r => notna (target_of h r)) merged)
  = Spec.contributors merged h X.
Proof.
  intros Ht Hall. rewrite filter_filter_and. unfold Spec.contributors.
  apply filter_ext_in. intros r Hr.
  assert (E : (exit_date r <? exit_date X)%Z = true) by (apply Z.ltb_lt; auto).
  rewrite E, andb_true_r. f_equal.
  unfold theme_is, Spec.same_theme. now rewrite Ht.
Qed.

Lemma contributors_known (merged : list Row) (h : Horizon) (X : Row) :
  length (dropna (map (target_of h) (Spec.contributors merged h X)))
  = length (Spec.contributors merged h X).
Proof.
  rewrite dropna_all_known; [now rewrite length_map|].
  apply Forall_map, Forall_forall. intros r Hr.
  unfold Spec.contributors in Hr. apply filter_In in Hr as [_ Hr].
  now apply andb_true_iff in Hr as [_ Hr].
Qed.

(** X21.  For a set X of a theme that retires after every training
    row, the theme statistics the scorer looks up are those the feature
    builder computes for X when the theme has at least three rows with
    the target.  With one or two such rows the scorer still gets a mean
    where the feature builder leaves the mean null; with none the scorer
    finds no entry for the theme. *)
Theorem scoring_theme_stats_match_training (merged : list Row) (h : Horizon)
  (t : string) (X : Row) :
  theme X = Some t ->
  (forall r, In r merged -> (exit_date r < exit_date X)%Z) ->
  ((3 <= length (Spec.contributors merged h X))%nat ->
   ScoringFeatures.theme_stats merged h t = Some (theme_row merged h X))
  /\ ((0 < length (Spec.contributors merged h X) < 3)%nat ->
      exists f m,
        ScoringFeatures.theme_stats merged h t = Some f
        /\ theme_mean_log f = Some m
        /\ theme_mean_log (theme_row merged h X) = None
        /\ theme_sample_size f = theme_sample_size (theme_row merged h X))
  /\ (length (Spec.contributors merged h X) = 0%nat ->
      ScoringFeatures.theme_stats merged h t = None).
Proof.
  intros Ht Hall.
  pose proof (theme_stats_rows merged h X Ht Hall) as Erows.
  pose proof (contributors_known merged h X) as Elen.
  unfold ScoringFeatures.theme_stats. cbv zeta. rewrite Erows.
  rewrite theme_row_summarise. unfold Spec.summarise. cbv zeta.
  set (rows := Spec.contributors merged h X) in *.
  set (vals := dropna (map (target_of h) rows)) in *.
  assert (Esize : lenQ vals = lenQ rows) by (unfold lenQ; now rewrite Elen).
  repeat split.
  - intros H3. destruct (Nat.leb_spec 3 (length rows)) as [_|Hlt]; [|lia].
    destruct vals as [|v vs] eqn:Ev; [simpl in Elen; lia|].
    now rewrite Esize.
  - intros [H0 H3]. destruct (Nat.leb_spec 3 (length rows)) as [Hge|_]; [lia|].
    destruct vals as [|v vs] eqn:Ev; [simpl in Elen; lia|].
    eexists. eexists. split; [reflexivity|]. cbn.
    split; [reflexivity|]. split; [reflexivity|]. now rewrite Esize.
  - intros H0. destruct vals as [|v vs] eqn:Ev; [reflexivity|].
    simpl in Elen. lia.
Qed.

End ThemeStats.

(** ** Momentum and volatility *)

Lemma dropna_filter_length (A B : Type) (f : A -> option B) (p q : A -> bool)
  (l : list A) :
  (forall x, p x = true -> q x = true) ->
  (length (dropna (map f (filter p l))) <= length (dropna (map f (filter q l))))%nat.
Proof.
  intros Hpq. induction l as [|x t IH]; simpl; [lia|].
  destruct (p x) eqn:Ep.
  - rewrite (Hpq x Ep). simpl. destruct (f x); simpl; lia.
  - destruct (q x); simpl; [destruct (f x); simpl; lia|lia].
Qed.

Section Trajectory.

Context `{FloatLib}.

Lemma std_defined (l : list Q) : (2 <= length l)%nat -> exists v, std l = Some v.
Proof.
  destruct l as [|a [|b t]]; simpl; try lia. intros _. eexists. reflexivity.
Qed.

Lemma mean_defined (l : list Q) : (1 <= length l)%nat -> exists v, mean l = Some v.
Proof.
  destruct l as [|a t]; simpl; try lia. intros _. eexists. reflexivity.
Qed.

(** X22.  A set that gets a price momentum also gets a price
    volatility, in the feature builder (snapshots of the first 90 days
    after retirement lie within the first 180) and in the scorer
    (snapshots of the last 90 days lie within the last 180). *)
Theorem momentum_implies_volatility :
  (forall (row : EngineerFeatures.Row) (snap_df : list EngineerFeatures.Snapshot) (m : Q),
      EngineerFeatures.price_momentum_90d row snap_df = Some m ->
      exists v, EngineerFeatures.price_volatility_180d row snap_df = Some v)
  /\ (forall (group : list ScoreSets.Snapshot) (m : Q),
         ScoreSets.active_momentum_90d group = Some m ->
         exists v, ScoreSets.active_volatility_180d group = Some v).
Proof.
  split.
  - intros row snap_df m.
    unfold EngineerFeatures.price_momentum_90d, EngineerFeatures.price_volatility_180d.
    cbv zeta.
    set (s := EngineerFeatures.snaps_of (EngineerFeatures.set_num row) snap_df).
    destruct (Nat.leb_spec 3 (length (EngineerFeatures.post_window
                                        (EngineerFeatures.exit_date row) 90 s)))
      as [H90|]; [|discriminate].
    intros _.
    assert (H180 : (3 <= length (EngineerFeatures.post_window
                                   (EngineerFeatures.exit_date row) 180 s))%nat).
    { eapply Nat.le_trans; [exact H90|].
      unfold EngineerFeatures.post_window. apply filter_length_impl.
      intros x Hx. apply andb_true_iff in Hx as [H1 H2].
      apply andb_true_iff. split; [exact H1|].
      apply Z.leb_le in H2. apply Z.leb_le. lia. }
    destruct (Nat.leb_spec 3 (length (EngineerFeatures.post_window
                                        (EngineerFeatures.exit_date row) 180 s)));
      [|lia].
    apply std_defined. rewrite length_map. lia.
  - intros group m.
    unfold ScoreSets.active_momentum_90d, ScoreSets.active_volatility_180d.
    cbv zeta.
    destruct (dropna (map ScoreSets.price_gbp group)); [discriminate|].
    destruct (Nat.leb_spec 2 (length (ScoreSets.recent 90 group))) as [H90|];
      [|discriminate].
    intros _.
    assert (H180 : (2 <= length (ScoreSets.recent 180 group))%nat).
    { eapply Nat.le_trans; [exact H90|].
      unfold ScoreSets.recent. cbv zeta. apply dropna_filter_length.
      intros x Hx. apply Z.leb_le in Hx. apply Z.leb_le. lia. }
    destruct (Nat.leb_spec 2 (length (ScoreSets.recent 180 group))); [|lia].
    destruct (@mean_defined (ScoreSets.recent 180 group)) as [mu ->]; [lia|].
    destruct (@std_defined (ScoreSets.recent 180 group)) as [sd ->]; [lia|].
    eexists. reflexivity.
Qed.

End Trajectory.

(** ** The columns of the feature matrices *)

Lemma column_names (c : string) (fr : FeatRow) :
  column c fr <> None <-> In c (map fst fr).
Proof.
  induction fr as [|[k v] t IH]; simpl; [tauto|].
  destruct (String.eqb_spec k c) as [->|Hne].
  - split; [auto|discriminate].
  - rewrite IH. intuition congruence.
Qed.

Lemma existsb_eqb_In (c : string) (l : list string) :
  existsb (String.eqb c) l = true <-> In c l.
Proof.
  rewrite existsb_exists. split.
  - intros (x & Hx & E). apply String.eqb_eq in E. now subst.
  - intros Hc. exists c. split; [exact Hc|apply String.eqb_refl].
Qed.

Section FeatureColumns.

Context `{FloatLib} `{Calendar}.

Lemma training_row_names (i : nat) (row : EngineerFeatures.Row) (m : FeatureMatrix.Meta)
  (rows : list EngineerFeatures.Row) (snap_df : list FeatureMatrix.SnapshotRow) :
  map fst (FeatureMatrix.compute_set_intrinsic_features row m
           ++ flat_map (fun h =>
                          FeatureMatrix.theme_columns h
                            (nth i (EngineerFeatures.compute_theme_historical_features rows h)
                                 EngineerFeatures.nan_row))
                       HORIZONS
           ++ FeatureMatrix.trajectory_columns row snap_df)
  = Spec.matrix_columns.
Proof.
  rewrite !map_app. f_equal. f_equal.
  unfold FeatureMatrix.trajectory_columns.
  destruct snap_df as [|s0 snap_df']; [reflexivity|].
  destruct (FeatureMatrix.retirement_features row (s0 :: snap_df')) as [[d s] a].
  reflexivity.
Qed.

Lemma active_trajectory_names (set_numbers : list string) (rrps : list (option Q))
  (snap_df : list ScoringFeatures.SnapshotRow) (idx : nat) :
  map fst (ScoringFeatures.active_trajectory_row set_numbers rrps snap_df idx)
  = ["discount_at_retirement"; "price_momentum_90d"; "price_volatility_180d";
     "seller_count_at_retirement"; "buy_box_is_amazon"]%string.
Proof.
  unfold ScoringFeatures.active_trajectory_row. cbv zeta.
  destruct (nth_error set_numbers idx) as [sn|]; [|reflexivity].
  destruct (ScoringFeatures.sn_to_idx set_numbers sn) as [idx'|]; [|reflexivity].
  destruct (ScoringFeatures.last_value _) as [latest|]; [|reflexivity].
  destruct (idx' =? idx)%nat; reflexivity.
Qed.

Lemma requested_columns_checked (h : Horizon) :
  forallb (fun c => existsb (String.eqb c) Spec.matrix_columns)
          (Trainer.get_feature_cols h) = true.
Proof. destruct h; vm_compute; reflexivity. Qed.

(** X23.  Every feature column the trainer asks for, at every horizon,
    is a column of each row of the training feature matrix and of each
    row of the scoring feature matrix.  The validation suite asks for
    the same columns as the trainer: 24 names without a repetition. *)
Theorem requested_features_are_built (h : Horizon) (c : string) :
  In c (Trainer.get_feature_cols h) ->
  (forall df snap_df fr,
      In fr (FeatureMatrix.build_feature_matrix df snap_df) -> column c fr <> None)
  /\ (forall df merged snap_df fr,
         In fr (ScoringFeatures.build_features_for_scoring df merged snap_df) ->
         column c fr <> None)
  /\ ValidateModel.get_feature_cols h = Trainer.get_feature_cols h
  /\ NoDup (Trainer.get_feature_cols h)
  /\ length (Trainer.get_feature_cols h) = 24%nat.
Proof.
  intros Hc.
  assert (Hm : In c Spec.matrix_columns).
  { pose proof (requested_columns_checked h) as Hall.
    rewrite forallb_forall in Hall. apply existsb_eqb_In. now apply Hall. }
  split; [|split; [|split; [|split]]].
  - intros df snap_df fr Hfr. apply column_names.
    unfold FeatureMatrix.build_feature_matrix in Hfr. cbv zeta in Hfr.
    apply in_map_iff in Hfr as ([i [row m]] & <- & _).
    now rewrite training_row_names.
  - intros df merged snap_df fr Hfr. apply column_names.
    unfold ScoringFeatures.build_features_for_scoring in Hfr. cbv zeta in Hfr.
    apply in_map_iff in Hfr as ([i r] & <- & Hin).
    apply in_combine_l in Hin. apply in_seq in Hin.
    unfold ScoringFeatures.compute_active_trajectory_features.
    rewrite !map_app.
    erewrite (nth_indep _ [] (ScoringFeatures.active_trajectory_row _ _ _ 0%nat))
      by (rewrite length_map, length_seq, length_map; lia).
    rewrite map_nth, active_trajectory_names.
    revert Hm. generalize c.
    apply (proj1 (Forall_forall _ _)).
    unfold Spec.matrix_columns.
    repeat (constructor; [simpl; tauto|]). constructor.
  - reflexivity.
  - destruct h; vm_compute;
      repeat (constructor; [simpl; intuition discriminate|]); constructor.
  - destruct h; reflexivity.
Qed.

End FeatureColumns.

(** ** Ratios of the set-intrinsic features *)

Section Ratios.

Import FeatureMatrix.

Lemma replace_never (a : Q) (b : option Q) (x : option Q) (d : Q) :
  (forall v, b = Some v -> ~ v == a) ->
  replace a b x = Some d -> ~ d == a.
Proof.
  intros Hb. unfold replace. destruct x as [v|]; [|discriminate].
  destruct (Qeq_bool v a) eqn:E.
  - intros Hd. now apply Hb.
  - intros [= <-] Hv. apply Qeq_bool_iff in Hv. congruence.
Qed.

(** X24.  No ratio among the set-intrinsic features divides by zero.
    The divisor of price_per_piece is never 0: the feature is null
    exactly when the price or the piece count is null or the piece count
    is 0, and is price / pieces otherwise.  The divisor of
    want_own_ratio is never 0 or null: the feature is always a number,
    want / own when the own count is known and not 0.  The production
    run is never negative. *)
Theorem ratio_features_never_divide_by_zero (rrp : option Q) (m : Meta) :
  (forall d, piece_divisor m = Some d -> ~ d == 0)
  /\ (exists d, own_divisor m = Some d /\ ~ d == 0)
  /\ (column "price_per_piece" (set_features rrp m) = Some None
      <-> rrp = None \/ pieces m = None \/ exists p, pieces m = Some p /\ p == 0)
  /\ (forall r p, rrp = Some r -> pieces m = Some p -> ~ p == 0 ->
                  column "price_per_piece" (set_features rrp m) = Some (Some (r / p)))
  /\ (exists v, column "want_own_ratio" (set_features rrp m) = Some (Some v))
  /\ (forall w o, want_count m = Some w -> own_count m = Some o -> ~ o == 0 ->
                  column "want_own_ratio" (set_features rrp m) = Some (Some (w / o)))
  /\ (forall launch exit_d v, production_run_months launch exit_d = Some v -> 0 <= v).
Proof.
  split; [|split; [|split; [|split; [|split; [|split]]]]].
  - intros d. unfold piece_divisor. apply replace_never. discriminate.
  - unfold own_divisor, replace, fill.
    destruct (own_count m) as [o|].
    + destruct (Qeq_bool o 0) eqn:E.
      * exists 1. split; [reflexivity|]. intros C. discriminate C.
      * exists o. split; [reflexivity|]. intros C.
        apply Qeq_bool_iff in C. congruence.
    + exists 1. split; [reflexivity|]. intros C. discriminate C.
  - cbn. unfold fdiv, piece_divisor, replace.
    destruct rrp as [r|]; [|intuition].
    destruct (pieces m) as [p|]; [|intuition].
    destruct (Qeq_bool p 0) eqn:E.
    + apply Qeq_bool_iff in E. split; [|reflexivity].
      intros _. right. right. exists p. auto.
    + split; [discriminate|].
      intros [C|[C|(p' & [= <-] & C)]]; try discriminate.
      apply Qeq_bool_iff in C. congruence.
  - intros r p -> Hp Hne. cbn. unfold fdiv, piece_divisor, replace. rewrite Hp.
    destruct (Qeq_bool p 0) eqn:E; [|reflexivity].
    apply Qeq_bool_iff in E. contradiction.
  - cbn. unfold fdiv, own_divisor, replace, fill.
    destruct (want_count m), (own_count m) as [o|];
      try destruct (Qeq_bool o 0); eexists; reflexivity.
  - intros w o Hw Ho Hne. cbn. unfold fdiv, own_divisor, replace, fill.
    rewrite Hw, Ho.
    destruct (Qeq_bool o 0) eqn:E; [|reflexivity].
    apply Qeq_bool_iff in E. contradiction.
  - intros launch exit_d v. unfold production_run_months.
    destruct launch, exit_d; try discriminate.
    intros [= <-]. apply Q.le_max_r.
Qed.

End Ratios.

(** ** The orchestrator *)

Section Orchestrator.

Import RunPipeline.

Variables W R : Type.
Variable run_step : Step -> W -> W * option R.

Lemma run_steps_full (steps : list Step) :
  forall (w : W) (results : list (Step * StepStatus R)),
  exists ran rest new,
    steps = ran ++ rest
    /\ run_steps run_step false steps w results
       = (Spec.after run_step ran w, Returned (results ++ new))
    /\ map fst new = ran
    /\ ((rest = [] /\ forallb (@Spec.succeeded R) new = true)
        \/ exists oks failed,
             new = oks ++ [(failed, error)]
             /\ forallb (@Spec.succeeded R) oks = true
             /\ snd (run_step failed (Spec.after run_step (map fst oks) w)) = None).
Proof.
  induction steps as [|step rest0 IH]; intros w results.
  - exists [], [], []. split; [reflexivity|]. split; [simpl; now rewrite app_nil_r|].
    split; [reflexivity|]. left. split; reflexivity.
  - simpl. destruct (run_step step w) as [w' [result|]] eqn:E.
    + destruct (IH w' (results ++ [(step, success result)]))
        as (ran & rest & new & Hsteps & Hrun & Hnew & Hcase).
      exists (step :: ran), rest, ((step, success result) :: new).
      split; [now rewrite Hsteps|].
      split.
      { rewrite Hrun. unfold Spec.after. simpl. rewrite E. simpl.
        now rewrite <- app_assoc. }
      split; [simpl; now rewrite Hnew|].
      destruct Hcase as [[Hr Hok]|(oks & failed & Ho & Hok & Hf)].
      * left. split; [exact Hr|]. simpl. exact Hok.
      * right. exists ((step, success result) :: oks), failed.
        split; [now rewrite Ho|]. split; [simpl; exact Hok|].
        unfold Spec.after in *. simpl. rewrite E. exact Hf.
    + exists [step], rest0, [(step, error)].
      split; [reflexivity|].
      split; [unfold Spec.after; simpl; now rewrite E|].
      split; [reflexivity|].
      right. exists [], step. split; [reflexivity|]. split; [reflexivity|].
      unfold Spec.after. simpl. now rewrite E.
Qed.

(** X25.  A full run of the pipeline runs the steps build, features,
    train, score in that order and stops at the first step that raises:
    the steps after it are not run, the database is left as the failed
    step left it, and the results list every step before it as a
    success and the failed step as an error.  When no step raises, all
    four are run and reported as successes.  A full run always returns
    its results; a single-step run exits with status 1 when the step
    raises. *)
Theorem pipeline_halts_at_first_failure (w : W) :
  (exists ran rest results,
      STEPS = ran ++ rest
      /\ main run_step None w = (Spec.after run_step ran w, Returned results)
      /\ map fst results = ran
      /\ (forall s, In s rest -> ~ In s (map fst results))
      /\ ((rest = [] /\ forallb (@Spec.succeeded R) results = true)
          \/ exists oks failed,
               results = oks ++ [(failed, error)]
               /\ forallb (@Spec.succeeded R) oks = true
               /\ snd (run_step failed (Spec.after run_step (map fst oks) w)) = None))
  /\ (forall step,
         main run_step (Some step) w
         = (fst (run_step step w),
            match snd (run_step step w) with
            | Some result => Returned [(step, success result)]
            | None => Exited R 1
            end)).
Proof.
  split.
  - destruct (run_steps_full STEPS w []) as (ran & rest & new & Hs & Hrun & Hnew & Hcase).
    exists ran, rest, new. split; [exact Hs|]. split; [exact Hrun|].
    split; [exact Hnew|]. split; [|exact Hcase].
    intros s Hrest Hran. rewrite Hnew in Hran.
    assert (Hnd : NoDup (ran ++ rest)).
    { rewrite <- Hs. unfold STEPS.
      repeat (constructor; [simpl; intuition discriminate|]). constructor. }
    clear -Hnd Hrest Hran.
    induction ran as [|a ran IH]; [contradiction|].
    simpl in Hnd. inversion Hnd as [|? ? Hna Hnd']; subst.
    destruct Hran as [->|Hran]; [|now apply IH].
    apply Hna. apply in_or_app. now right.
  - intros step. unfold main. simpl.
    destruct (run_step step w) as [w' [result|]]; reflexivity.
Qed.

End Orchestrator.

(** ** The live sets *)

Section LiveSets.

Import ScoringFeatures.

Lemma drop_duplicates_In (seen : list string) (df : list LiveSet) (r : LiveSet) :
  In r (drop_duplicates seen df) -> In r df /\ ~ In (set_number r) seen.
Proof.
  revert seen. induction df as [|x t IH]; intros seen; simpl; [tauto|].
  destruct (existsb (String.eqb (set_number x)) seen) eqn:E.
  - intros Hr. destruct (IH _ Hr). auto.
  - intros [<-|Hr].
    + split; [now left|]. intros Hin. apply existsb_eqb_In in Hin. congruence.
    + destruct (IH _ Hr) as [H1 H2]. split; [now right|].
      intros Hin. apply H2. now right.
Qed.

Lemma drop_duplicates_NoDup (seen : list string) (df : list LiveSet) :
  NoDup (map set_number (drop_duplicates seen df)).
Proof.
  revert seen. induction df as [|x t IH]; intros seen; simpl; [constructor|].
  destruct (existsb (String.eqb (set_number x)) seen); [apply IH|].
  simpl. constructor; [|apply IH].
  intros Hin. apply in_map_iff in Hin as (r & Er & Hr).
  apply drop_duplicates_In in Hr as [_ Hr]. apply Hr. left. now rewrite Er.
Qed.

Lemma drop_duplicates_covers (seen : list string) (df : list LiveSet) (r : LiveSet) :
  In r df -> ~ In (set_number r) seen ->
  exists r', In r' (drop_duplicates seen df) /\ set_number r' = set_number r.
Proof.
  revert seen. induction df as [|x t IH]; intros seen Hin Hns; [contradiction|].
  simpl. destruct (existsb (String.eqb (set_number x)) seen) eqn:E.
  - destruct Hin as [->|Hin]; [|now apply IH].
    apply existsb_eqb_In in E. contradiction.
  - destruct Hin as [->|Hin]; [exists r; split; [now left|reflexivity]|].
    destruct (String.eqb_spec (set_number x) (set_number r)) as [Eq|Hne].
    + exists x. split; [now left|exact Eq].
    + destruct (IH (set_number x :: seen) Hin) as (r' & Hr' & Er').
      { intros [C|C]; [contradiction|contradiction]. }
      exists r'. split; [now right|exact Er'].
Qed.

Lemma drop_duplicates_first (seen : list string) (a b : list LiveSet) (r : LiveSet) :
  In r (drop_duplicates seen (a ++ b)) ->
  In r a \/ (In r b /\ ~ In (set_number r) (map set_number a)).
Proof.
  revert seen. induction a as [|x a' IH]; intros seen; simpl.
  - intros Hr. right. apply drop_duplicates_In in Hr. tauto.
  - destruct (existsb (String.eqb (set_number x)) seen) eqn:E.
    + intros Hr. pose proof (drop_duplicates_In _ _ _ Hr) as [_ Hns].
      destruct (IH _ Hr) as [Ha|[Hb Hn]]; [left; now right|].
      right. split; [exact Hb|]. intros [C|C]; [|contradiction].
      apply existsb_eqb_In in E. rewrite C in E. contradiction.
    + intros [<-|Hr]; [left; now left|].
      pose proof (drop_duplicates_In _ _ _ Hr) as [_ Hns].
      destruct (IH _ Hr) as [Ha|[Hb Hn]]; [left; now right|].
      right. split; [exact Hb|]. intros [C|C]; [|contradiction].
      apply Hns. left. exact C.
Qed.

Lemma sn_to_idx_from (set_num : string) (l : list string) :
  forall (start : nat) (acc : option nat),
    (~ In set_num l ->
     fold_left (fun acc isn => if String.eqb (snd isn) set_num
                               then Some (fst isn) else acc)
               (combine (seq start (length l)) l) acc = acc)
    /\ (forall idx, NoDup l -> nth_error l idx = Some set_num ->
        fold_left (fun acc isn => if String.eqb (snd isn) set_num
                                  then Some (fst isn) else acc)
                  (combine (seq start (length l)) l) acc = Some (start + idx)%nat).
Proof.
  induction l as [|x t IH]; intros start acc.
  - split; [reflexivity|]. intros [|idx] _ Hn; discriminate Hn.
  - destruct (IH (S start) (if String.eqb x set_num then Some start else acc))
      as [IH1 IH2].
    split.
    + intros Hn. simpl.
      destruct (String.eqb_spec x set_num) as [->|Hne]; [exfalso; apply Hn; now left|].
      specialize (IH (S start) acc) as [IH1' _].
      apply IH1'. intros C. apply Hn. now right.
    + intros idx Hnd Hi. inversion Hnd as [|? ? Hx Hnd']; subst.
      simpl. destruct idx as [|idx]; simpl in Hi.
      * injection Hi as ->. rewrite String.eqb_refl.
        specialize (IH (S start) (Some start)) as [IH1' _].
        rewrite IH1' by exact Hx. f_equal. lia.
      * destruct (String.eqb_spec x set_num) as [->|Hne].
        { exfalso. apply Hx. eapply nth_error_In. exact Hi. }
        specialize (IH (S start) acc) as [_ IH2'].
        rewrite (IH2' idx Hnd' Hi). f_equal. lia.
Qed.

(** X26.  The scorer keeps one row per set number, the first one: a set
    returned by both queries is scored from the row of the first (the
    active sets), every set of either query is kept, and no row is
    invented.  With the set numbers distinct, the trajectory features
    computed for a set number are written to that set's own row. *)
Theorem live_sets_scored_once (active_rows retired_rows : list LiveSet) :
  let df := fetch_active_sets active_rows retired_rows in
  NoDup (map set_number df)
  /\ (forall r, In r df -> In r (active_rows ++ retired_rows))
  /\ (forall r, In r (active_rows ++ retired_rows) ->
                exists r', In r' df /\ set_number r' = set_number r)
  /\ (forall r, In r df -> In (set_number r) (map set_number active_rows) ->
                In r active_rows)
  /\ (forall idx r, nth_error df idx = Some r ->
                    sn_to_idx (map set_number df) (set_number r) = Some idx).
Proof.
  cbv zeta. unfold fetch_active_sets.
  pose proof (drop_duplicates_NoDup [] (active_rows ++ retired_rows)) as Hnd.
  split; [exact Hnd|]. split; [|split; [|split]].
  - intros r Hr. now apply drop_duplicates_In in Hr.
  - intros r Hr. apply drop_duplicates_covers; [exact Hr|]. intros [].
  - intros r Hr Hin. apply drop_duplicates_first in Hr as [Ha|[_ Hn]];
      [exact Ha|contradiction].
  - intros idx r Hi. unfold sn_to_idx.
    set (l := map set_number (drop_duplicates [] (active_rows ++ retired_rows))) in *.
    destruct (sn_to_idx_from (set_number r) l 0 None) as [_ Hidx].
    rewrite (Hidx idx Hnd); [reflexivity|].
    unfold l. now apply map_nth_error.
Qed.

End LiveSets.

(** ** Writing the features back *)

Lemma NoDup_snoc (A : Type) (x : A) (l : list A) :
  NoDup l -> ~ In x l -> NoDup (l ++ [x]).
Proof.
  induction 1 as [|a l Ha Hl IH]; intros Hx; simpl.
  - constructor; [intros []|constructor].
  - constructor.
    + rewrite in_app_iff. intros [C|[C|[]]]; [contradiction|].
      apply Hx. left. now symmetry.
    + apply IH. intros C. apply Hx. now right.
Qed.

Lemma In_removelast (A : Type) (x : A) (l : list A) :
  In x (removelast l) -> In x l.
Proof.
  induction l as [|a [|b t] IH]; simpl; [tauto|tauto|].
  intros [->|Hin]; [now left|right; now apply IH].
Qed.

Section FeatureStore.

Import FeatureMatrix.

Lemma flush_step_ok (st : Flush) (done : list (StoredRow * FeatRow))
  (rf : StoredRow * FeatRow) :
  Spec.flush_ok st done -> Spec.flush_ok (flush_step st rf) (done ++ [rf]).
Proof.
  unfold Spec.flush_ok. cbv zeta.
  intros (Hnd & Hseen & Hlt & Hfull & Hupd & Hfrom & Hcov).
  destruct rf as [row feats]. unfold flush_step.
  destruct (existsb (String.eqb (stored_set_num row)) (seen st)) eqn:Es.
  - apply existsb_eqb_In in Es.
    split; [exact Hnd|]. split; [exact Hseen|]. split; [exact Hlt|].
    split; [exact Hfull|]. split; [exact Hupd|]. split.
    + intros p Hp. destruct (Hfrom p Hp) as (r & Hr & Hrest).
      exists r. split; [apply in_or_app; now left|exact Hrest].
    + intros rf Hrf. apply in_app_iff in Hrf as [Hrf|[<-|[]]]; [now apply Hcov|exact Es].
  - assert (Hnew : ~ In (stored_set_num row) (seen st)).
    { intros C. apply existsb_eqb_In in C. congruence. }
    set (p0 := {| payload_set_num := stored_set_num row;
                  payload_exit_date := stored_exit_date row;
                  payload_rrp_gbp := stored_rrp_gbp row;
                  payload_features := feats |}).
    assert (Hall : forall U B, concat (U ++ [B ++ [p0]]) ++ [] = (concat U ++ B) ++ [p0]).
    { intros U B. rewrite concat_app. simpl. now rewrite !app_nil_r, app_assoc. }
    assert (Hnd' : NoDup (map payload_set_num ((concat (upserted st) ++ batch st) ++ [p0]))).
    { rewrite map_app. simpl. apply NoDup_snoc; [exact Hnd|].
      intros C. apply Hnew. now apply Hseen. }
    assert (Hseen' : forall s, In s (stored_set_num row :: seen st)
                               <-> In s (map payload_set_num
                                             ((concat (upserted st) ++ batch st) ++ [p0]))).
    { intros s. rewrite map_app, in_app_iff. simpl. rewrite Hseen. tauto. }
    assert (Hfrom' : forall p, In p ((concat (upserted st) ++ batch st) ++ [p0]) ->
                exists r, In (r, payload_features p) (done ++ [(row, feats)])
                          /\ stored_set_num r = payload_set_num p
                          /\ stored_exit_date r = payload_exit_date p
                          /\ stored_rrp_gbp r = payload_rrp_gbp p).
    { intros p Hp. apply in_app_iff in Hp as [Hp|[<-|[]]].
      - destruct (Hfrom p Hp) as (r & Hr & Hrest).
        exists r. split; [apply in_or_app; now left|exact Hrest].
      - exists row. split; [apply in_or_app; right; now left|]. auto. }
    assert (Hcov' : forall rf0, In rf0 (done ++ [(row, feats)]) ->
                                In (stored_set_num (fst rf0)) (stored_set_num row :: seen st)).
    { intros rf0 Hrf. apply in_app_iff in Hrf as [Hrf|[<-|[]]];
        [right; now apply Hcov|now left]. }
    destruct (Nat.leb_spec 200 (length (batch st ++ [p0]))) as [Hge|Hlt'];
      cbn [seen batch updated upserted].
    + rewrite Hall. rewrite length_app in Hge. simpl in Hge.
      split; [exact Hnd'|]. split; [exact Hseen'|]. split; [simpl; lia|].
      split.
      { apply Forall_app. split; [exact Hfull|].
        constructor; [|constructor]. rewrite length_app. simpl. lia. }
      split.
      { rewrite concat_app. simpl. rewrite app_nil_r, !length_app. simpl. lia. }
      split; [exact Hfrom'|exact Hcov'].
    + rewrite app_assoc.
      split; [exact Hnd'|]. split; [exact Hseen'|]. split; [exact Hlt'|].
      split; [exact Hfull|]. split; [exact Hupd|].
      split; [exact Hfrom'|exact Hcov'].
Qed.

Lemma flush_loop_ok (l : list (StoredRow * FeatRow)) :
  forall st done,
    Spec.flush_ok st done -> Spec.flush_ok (fold_left flush_step l st) (done ++ l).
Proof.
  induction l as [|rf l IH]; intros st done Hok; simpl.
  - now rewrite app_nil_r.
  - replace (done ++ rf :: l) with ((done ++ [rf]) ++ l)
      by (now rewrite <- app_assoc).
    apply IH. now apply flush_step_ok.
Qed.

(** X27.  Writing the features back sends each set number at most
    once, in batches of exactly 200 records but for the last one, which
    holds 1 to 200, and never an empty batch; the count returned is the
    number of records sent.  No record is sent with a null exit date or
    price, every record carries the features and the columns of a row of
    the frame, and every row with an exit date and a price has its set
    number sent. *)
Theorem feature_updates_sent_once (df : list StoredRow) (features : list FeatRow) :
  let sent := fst (update_features_in_db df features) in
  NoDup (map payload_set_num (concat sent))
  /\ snd (update_features_in_db df features) = length (concat sent)
  /\ (forall b, In b sent -> (1 <= length b <= 200)%nat)
  /\ Forall (fun b => length b = 200%nat) (removelast sent)
  /\ (forall p, In p (concat sent) ->
                payload_exit_date p <> None /\ payload_rrp_gbp p <> None
                /\ exists row,
                     In (row, payload_features p) (combine df features)
                     /\ stored_set_num row = payload_set_num p
                     /\ stored_exit_date row = payload_exit_date p
                     /\ stored_rrp_gbp row = payload_rrp_gbp p)
  /\ (forall row feats,
         In (row, feats) (combine df features) -> valid_mask row = true ->
         In (stored_set_num row) (map payload_set_num (concat sent))).
Proof.
  cbv zeta. unfold update_features_in_db. cbv zeta.
  set (valid := filter (fun rf => valid_mask (fst rf)) (combine df features)).
  assert (H0 : Spec.flush_ok {| seen := []; batch := []; updated := 0; upserted := [] |} []).
  { unfold Spec.flush_ok. cbn. repeat split; try tauto; try lia; constructor. }
  pose proof (@flush_loop_ok valid _ _ H0) as Hok. simpl app in Hok.
  set (st := fold_left flush_step valid _) in *.
  unfold Spec.flush_ok in Hok. cbv zeta in Hok.
  destruct Hok as (Hnd & Hseen & Hlt & Hfull & Hupd & Hfrom & Hcov).
  assert (Hsent : concat (fst (match batch st with
                               | [] => (upserted st, updated st)
                               | _ :: _ => (upserted st ++ [batch st],
                                            (updated st + length (batch st))%nat)
                               end))
                  = concat (upserted st) ++ batch st).
  { destruct (batch st); simpl; [now rewrite app_nil_r|].
    rewrite concat_app. simpl. now rewrite app_nil_r. }
  rewrite Hsent.
  assert (Hvalid : forall p, In p (concat (upserted st) ++ batch st) ->
            payload_exit_date p <> None /\ payload_rrp_gbp p <> None
            /\ exists row,
                 In (row, payload_features p) (combine df features)
                 /\ stored_set_num row = payload_set_num p
                 /\ stored_exit_date row = payload_exit_date p
                 /\ stored_rrp_gbp row = payload_rrp_gbp p).
  { intros p Hp. destruct (Hfrom p Hp) as (row & Hrow & Hn & He & Hr).
    unfold valid in Hrow. apply filter_In in Hrow as [Hin Hv]. simpl in Hv.
    unfold valid_mask in Hv. apply andb_true_iff in Hv as [Hv1 Hv2].
    rewrite <- He, <- Hr.
    split; [destruct (stored_exit_date row); [discriminate|discriminate Hv1]|].
    split; [destruct (stored_rrp_gbp row); [discriminate|discriminate Hv2]|].
    exists row. auto. }
  split; [exact Hnd|].
  split.
  { destruct (batch st) as [|p0 b'] eqn:Eb; simpl.
    - now rewrite app_nil_r.
    - rewrite length_app, Hupd. reflexivity. }
  split.
  { intros b Hb. rewrite Forall_forall in Hfull.
    destruct (batch st) as [|p0 b'] eqn:Eb; simpl in Hb.
    - rewrite (Hfull b Hb). lia.
    - apply in_app_iff in Hb as [Hb|[<-|[]]]; [rewrite (Hfull b Hb); lia|].
      simpl in *. lia. }
  split.
  { destruct (batch st) as [|p0 b'] eqn:Eb; simpl fst.
    - apply Forall_forall. intros b Hb. apply In_removelast in Hb.
      rewrite Forall_forall in Hfull. now apply Hfull.
    - rewrite removelast_last. exact Hfull. }
  split; [exact Hvalid|].
  intros row feats Hin Hv. apply Hseen.
  apply (Hcov (row, feats)). unfold valid. apply filter_In. split; [exact Hin|exact Hv].
Qed.

End FeatureStore.

(** ** The properties on concrete frames *)

Lemma data_quality_counts_targets_witness :
  exists r,
    BuildTrainingData.milestone_row Examples.falcon Examples.falcon_snaps = Some r
    /\ (BuildTrainingData.data_quality r = BuildTrainingData.partial <->
        (exists h, BuildTrainingData.target_of h r <> None)
        /\ (exists h, BuildTrainingData.target_of h r = None)).
Proof.
  destruct (BuildTrainingData.milestone_row Examples.falcon Examples.falcon_snaps)
    as [r|] eqn:E; [|vm_compute in E; discriminate E].
  exists r. split; [reflexivity|].
  apply (proj1 (proj2 (proj2 (@data_quality_counts_targets approx_float
                                 Examples.falcon Examples.falcon_snaps r E)))).
Defined.

Lemma upsert_keeps_table_keyed_witness :
  NoDup (map BuildTrainingData.set_num
             (BuildTrainingData.upsert_training_data Examples.ramp [])).
Proof.
  apply (proj1 (@upsert_keeps_table_keyed Examples.ramp [] (NoDup_nil _))).
Defined.

Lemma winsorise_within_range_witness :
  exists a b,
    In (Some a) (map (BuildTrainingData.target_of H1yr) Examples.ramp)
    /\ In (Some b) (map (BuildTrainingData.target_of H1yr) Examples.ramp)
    /\ a <= 1 /\ 1 <= b.
Proof.
  apply (@winsorise_within_range Examples.ramp H1yr 1).
  vm_compute. right. left. reflexivity.
Defined.

Lemma milestone_windows_disjoint_witness :
  In (Examples.mk_snap "75192-1" 1365 130)
     (BuildTrainingData.window_snaps 1000 (After H1yr) Examples.falcon_snaps)
  /\ After H1yr = After H1yr.
Proof.
  assert (Hin : In (Examples.mk_snap "75192-1" 1365 130)
                   (BuildTrainingData.window_snaps 1000 (After H1yr)
                      Examples.falcon_snaps))
    by (vm_compute; right; left; reflexivity).
  split; [exact Hin|].
  exact (@milestone_windows_disjoint 1000%Z (After H1yr) (After H1yr)
           Examples.falcon_snaps (Examples.mk_snap "75192-1" 1365 130) Hin Hin).
Defined.

Lemma milestone_price_within_window_witness :
  exists r p a b,
    BuildTrainingData.milestone_row Examples.falcon Examples.falcon_snaps = Some r
    /\ BuildTrainingData.price_of (After H1yr) r = Some p
    /\ In a (Spec.qualifying 1000 (After H1yr) "75192-1" Examples.falcon_snaps)
    /\ In b (Spec.qualifying 1000 (After H1yr) "75192-1" Examples.falcon_snaps)
    /\ BuildTrainingData.price_gbp a <= p /\ p <= BuildTrainingData.price_gbp b.
Proof.
  destruct (BuildTrainingData.milestone_row Examples.falcon Examples.falcon_snaps)
    as [r|] eqn:E; [|vm_compute in E; discriminate E].
  destruct (BuildTrainingData.price_of (After H1yr) r) as [p|] eqn:Ep;
    [|vm_compute in E; injection E as <-; vm_compute in Ep; discriminate Ep].
  destruct (@milestone_price_within_window approx_float Examples.falcon
              Examples.falcon_snaps r (After H1yr) p E Ep) as (a & b & Ha & Hb & H1 & H2).
  exists r, p, a, b.
  split; [reflexivity|]. split; [exact Ep|].
  split; [exact Ha|]. split; [exact Hb|]. split; [exact H1|exact H2].
Defined.

Lemma composite_respects_dominance_witness :
  exists si sj,
    nth_error (ScoreSets.composite Examples.two_preds) 0 = Some si
    /\ nth_error (ScoreSets.composite Examples.two_preds) 1 = Some sj
    /\ si <= sj /\ py_round si 2 <= py_round sj 2.
Proof.
  destruct (nth_error (ScoreSets.composite Examples.two_preds) 0) as [si|] eqn:Ei;
    [|vm_compute in Ei; discriminate Ei].
  destruct (nth_error (ScoreSets.composite Examples.two_preds) 1) as [sj|] eqn:Ej;
    [|vm_compute in Ej; discriminate Ej].
  exists si, sj. split; [reflexivity|]. split; [reflexivity|].
  apply (@composite_respects_dominance Examples.two_preds 0 1
           (Examples.scored 1 (1 # 2) 1 (1 # 2)) (Examples.scored 2 (1 # 2) 2 1)
           si sj eq_refl eq_refl Ei Ej).
  intros k [<-|[<-|[<-|[<-|[]]]]]; eexists; eexists;
    (split; [reflexivity|split; [reflexivity|]]); vm_compute; discriminate.
Defined.

Lemma final_fit_rows_witness :
  exists t,
    @Trainer.train_for_horizon Examples.count_tuner Examples.fit_history = Some t
    /\ (30 <= length (Trainer.final_train t))%nat
    /\ (length (Trainer.final_train t) + length (Trainer.final_test t) = 55)%nat.
Proof.
  destruct (@Trainer.train_for_horizon Examples.count_tuner Examples.fit_history)
    as [t|] eqn:E; [|vm_compute in E; discriminate E].
  exists t. split; [reflexivity|].
  destruct (@final_fit_rows Examples.count_tuner Examples.fit_history t E)
    as (H30 & _ & _ & Hsum & _).
  split; [exact H30|]. rewrite Hsum. reflexivity.
Defined.

Lemma paginated_query_returns_every_row_witness :
  ScoringFeatures.paginated_query 1
    (ScoringFeatures.range_execute [1; 2; 3]%nat) = [1; 2; 3]%nat.
Proof.
  apply (@paginated_query_returns_every_row nat [1; 2; 3]%nat 1).
  simpl. lia.
Defined.

Lemma backtest_groups_partition_witness :
  exists res,
    @ValidateModel.backtest_fold approx_float Examples.target_learner
      Examples.backtest_history 5 Examples.first_fold = Some res
    /\ (30 <= ValidateModel.train_size res)%nat
    /\ (15 <= ValidateModel.test_size res)%nat
    /\ (5 <= ValidateModel.top_n res)%nat.
Proof.
  destruct (@ValidateModel.backtest_fold approx_float Examples.target_learner
              Examples.backtest_history 5 Examples.first_fold)
    as [res|] eqn:E; [|vm_compute in E; discriminate E].
  exists res. split; [reflexivity|].
  destruct (@backtest_groups_partition approx_float Examples.target_learner
              Examples.backtest_history 5%Z Examples.first_fold res E)
    as (H1 & H2 & H3 & _).
  auto.
Defined.

Lemma backtest_top_outscores_bottom_witness :
  exists res st sb,
    @ValidateModel.backtest_fold approx_float Examples.target_learner
      Examples.backtest_history 5 Examples.first_fold = Some res
    /\ ValidateModel.mean_score (ValidateModel.top_group res) = Some st
    /\ ValidateModel.mean_score (ValidateModel.bottom_group res) = Some sb
    /\ sb <= st.
Proof.
  destruct (@ValidateModel.backtest_fold approx_float Examples.target_learner
              Examples.backtest_history 5 Examples.first_fold)
    as [res|] eqn:E; [|vm_compute in E; discriminate E].
  destruct (proj2 (@backtest_top_outscores_bottom approx_float Examples.target_learner
                     Examples.backtest_history 5%Z Examples.first_fold res E))
    as (st & sb & Ht & Hb & Hle).
  exists res, st, sb. auto.
Defined.

Lemma coverage_rates_ordered_witness :
  exists agg,
    @ValidateModel.run_quantile_calibration Examples.level_learner Examples.history
    = Some (Some agg)
    /\ ValidateModel.agg_below_p25 agg <= ValidateModel.agg_below_p50 agg
    /\ ValidateModel.agg_below_p50 agg <= ValidateModel.agg_below_p75 agg.
Proof.
  destruct (@ValidateModel.run_quantile_calibration Examples.level_learner
              Examples.history) as [[agg|]|] eqn:E;
    [|vm_compute in E; discriminate E|vm_compute in E; discriminate E].
  exists agg. split; [reflexivity|].
  assert (Hnc : @Spec.non_crossing Examples.level_learner).
  { intros train r. split; vm_compute; discriminate. }
  destruct (@coverage_rates_ordered Examples.level_learner Examples.history agg Hnc E)
    as (_ & H1 & H2 & _).
  auto.
Defined.

Lemma scoring_theme_stats_match_training_witness :
  @ScoringFeatures.theme_stats approx_float Examples.city_frame H1yr "City"
  = Some (@EngineerFeatures.theme_row approx_float Examples.city_frame H1yr
            Examples.newcomer).
Proof.
  apply (proj1 (@scoring_theme_stats_match_training approx_float Examples.city_frame
                  H1yr "City"%string Examples.newcomer eq_refl
                  ltac:(intros r [<-|[<-|[<-|[<-|[<-|[]]]]]]; reflexivity))).
  vm_compute. lia.
Defined.

Lemma requested_features_are_built_witness :
  (forall df snap_df fr,
      In fr (@FeatureMatrix.build_feature_matrix approx_float flat_calendar df snap_df) ->
      column "piece_count" fr <> None)
  /\ (forall df merged snap_df fr,
         In fr (@ScoringFeatures.build_features_for_scoring approx_float flat_calendar
                  df merged snap_df) ->
         column "piece_count" fr <> None)
  /\ ValidateModel.get_feature_cols H1yr = Trainer.get_feature_cols H1yr
  /\ NoDup (Trainer.get_feature_cols H1yr)
  /\ length (Trainer.get_feature_cols H1yr) = 24%nat.
Proof.
  apply (@requested_features_are_built approx_float flat_calendar H1yr
           "piece_count"%string).
  left. reflexivity.
Defined.
